(** * badgeapp: the rendering and pagination pipeline

    A shallow embedding of
      - [utils/image_utils.py]   (scale factor, coordinate conversions),
      - [models/csv_data.py]     ([CSVData.load], [CSVData.get_value]),
      - [models/badge_config.py] ([FieldPlacement], [BadgeConfig]),
      - [export/badge_renderer.py] ([_load_font], [_draw_field], [render_badge]),
      - [export/pdf_export.py]   ([export_pdf]),
      - the task runner of [web/app.py] ([start_pdf_export]) and the export
        dialog of the desktop application ([gui/dialogs.py],
        [gui/main_window.py]),
      - the preview and the search of [gui/canvas_editor.py], the font
        lookup of [utils/fonts.py] and the request handlers of [web/app.py].

    Conventions.
      - Python [int] is [Z]; [str] is [string].
      - Python [float] has two readings.  The modules named after the
        source files compute over the exact rationals [Q]: statements
        about them are statements in exact arithmetic, and say so.  The
        module [binary64] computes the same expressions with IEEE 754
        rounding; it decides what the program does where a rounding error
        matters.
      - A cell of the table is a [str] or [None], as [csv.DictReader]
        builds the rows; a row dictionary keeps its items in order.
      - Python objects that are passed by reference and may be mutated
        (PIL images, [FieldPlacement] instances) live in a heap
        [gmap loc obj]; a call that would raise in Python yields [Raise].
      - The file system, the font files and the glyph metrics of Pillow are
        a record [Env] of functions, passed explicitly.
      - The calls made on the ReportLab canvas and on the two callbacks of
        [export_pdf] are recorded, in program order, in a list of [event]s. *)

From Stdlib Require Import ZArith QArith Qminmax Qround Lqa Lia List Ascii.
From Stdlib Require Import SpecFloat.
From stdpp Require Import gmap strings list fin_maps.
From Equations Require Import Equations.

Open Scope Z_scope.

(* ===================================================================== *)
(** ** Python results *)
(* ===================================================================== *)

Module Py.

Inductive exn :=
| ZeroDivisionError
| IndexError
| AttributeError
| OverflowError.

Inductive result (A : Type) :=
| Ok (a : A)
| Raise (e : exn).
Arguments Ok {A} a.
Arguments Raise {A} e.

Definition bind {A B} (m : result A) (k : A -> result B) : result B :=
  match m with
  | Ok a => k a
  | Raise e => Raise e
  end.

(** Python [a / b] on floats (and on [int]s, true division). *)
Definition truediv (a b : Q) : result Q :=
  if Qeq_bool b 0 then Raise ZeroDivisionError else Ok (a / b)%Q.

(** Python [min(a, b)]: the first argument unless the second is smaller. *)
Definition min (a b : Q) : Q :=
  if Qlt_le_dec b a then b else a.

(** Python [max(a, b)]: the first argument unless the second is larger. *)
Definition max (a b : Q) : Q :=
  if Qlt_le_dec a b then b else a.

(** Python [d.get(key, dflt)]. *)
Definition dict_get (d : gmap string string) (key dflt : string) : string :=
  match d !! key with
  | Some v => v
  | None => dflt
  end.

(** Python truth value of a [str]. *)
Definition truthy (s : string) : bool :=
  match s with
  | EmptyString => false
  | _ => true
  end.

(** Python [range(n)]. *)
Definition range (n : Z) : list Z := seqZ 0 n.

End Py.

#[global] Instance result_bind : MBind Py.result := fun A B k m => Py.bind m k.
#[global] Instance result_ret : MRet Py.result := fun A a => Py.Ok a.

(* ===================================================================== *)
(** ** utils/image_utils.py *)
(* ===================================================================== *)

Module image_utils.

Definition compute_scale_factor
  (image_width image_height canvas_width canvas_height : Z) : Py.result Q :=
  if (image_width <=? 0) || (image_height <=? 0) then Py.Ok 1%Q
  else
    scale_x ← Py.truediv (inject_Z canvas_width) (inject_Z image_width);
    scale_y ← Py.truediv (inject_Z canvas_height) (inject_Z image_height);
    Py.Ok (Py.min scale_x scale_y).

Definition image_to_canvas (x y scale offset_x offset_y : Q) : Q * Q :=
  ((x * scale + offset_x)%Q, (y * scale + offset_y)%Q).

Definition canvas_to_image (cx cy scale offset_x offset_y : Q)
  : Py.result (Q * Q) :=
  if Qeq_bool scale 0 then Py.Ok (0%Q, 0%Q)
  else
    ix ← Py.truediv (cx - offset_x) scale;
    iy ← Py.truediv (cy - offset_y) scale;
    Py.Ok (ix, iy).

End image_utils.

(* ===================================================================== *)
(** ** models/csv_data.py *)
(* ===================================================================== *)

Module csv_data.

(** The value a row dictionary has under a header: a [str], or [None],
    which [csv.DictReader] stores under the headers that a short line has
    no field for. *)
Inductive cell :=
| Str (s : string)
| PyNone.

(** An item of a row dictionary: a header with its cell, or the key [None]
    with the list of the surplus fields of a long line ([restkey] and
    [restval] of [csv.DictReader] are both [None]). *)
Inductive item :=
| Field (key : string) (value : cell)
| Rest (values : list string).

(** A row dictionary: its items in insertion order, every key once. *)
Definition row : Type := list item.

(** The value under the [str] key [key], if the dictionary has that key. *)
Fixpoint row_lookup (r : row) (key : string) : option cell :=
  match r with
  | [] => None
  | Field k v :: rest => if String.eqb k key then Some v else row_lookup rest key
  | Rest _ :: rest => row_lookup rest key
  end.

(** Python [r.get(key, dflt)]. *)
Definition row_get (r : row) (key : string) (dflt : cell) : cell :=
  match row_lookup r key with
  | Some v => v
  | None => dflt
  end.

(** Python [r[key] = value]: the value of an existing key is replaced where
    it is, a new key goes to the end. *)
Fixpoint row_set (r : row) (key : string) (value : cell) : row :=
  match r with
  | [] => [Field key value]
  | Field k v :: rest =>
      if String.eqb k key then Field k value :: rest
      else Field k v :: row_set rest key value
  | Rest l :: rest => Rest l :: row_set rest key value
  end.

(** Python truth value of a cell: [None] and the empty string are false. *)
Definition truthy (c : cell) : bool :=
  match c with
  | Str s => Py.truthy s
  | PyNone => false
  end.

Record CSVData := {
  headers : list string;
  rows : list row;
  file_path : string
}.

Definition row_count (self : CSVData) : Z :=
  Z.of_nat (length (rows self)).

(** Python [l[i]] on a list: negative indices count from the end, and an
    index outside [-len(l), len(l)) raises [IndexError]. *)
Definition list_getitem {A} (l : list A) (i : Z) : Py.result A :=
  let j := if i <? 0 then Z.of_nat (length l) + i else i in
  if j <? 0 then Py.Raise Py.IndexError
  else match l !! Z.to_nat j with
       | Some a => Py.Ok a
       | None => Py.Raise Py.IndexError
       end.

Definition get_value (self : CSVData) (row_index : Z) (column : string)
  : Py.result cell :=
  if (0 <=? row_index) && (row_index <? Z.of_nat (length (rows self))) then
    row ← list_getitem (rows self) row_index;
    Py.Ok (row_get row column (Str ""))
  else Py.Ok (Str "").

Definition is_loaded (self : CSVData) : bool :=
  (0 <? length (headers self))%nat.

(** *** How [load] builds the rows

    [csv.DictReader] (the standard library's [csv.py]) turns the records
    of the file, each a list of strings, into dictionaries.  Its
    [__next__] builds [d = dict(zip(self.fieldnames, row))]; with more
    fields than headers it adds [d[None] = row[lf:]], with fewer it sets
    [d[key] = None] for every header left over.  Splitting the text of the
    file into records is [csv.reader]'s work and not modelled: the loader
    below starts from the records. *)
Definition dict_of_record (fieldnames record : list string) : row :=
  let d := fold_left (fun d kv => row_set d (fst kv) (Str (snd kv)))
             (combine fieldnames record) [] in
  let lf := length fieldnames in
  let lr := length record in
  if (lf <? lr)%nat then d ++ [Rest (drop lf record)]
  else if (lr <? lf)%nat then
    fold_left (fun d key => row_set d key PyNone) (drop lr fieldnames) d
  else d.

(** Python [row == []] on a record. *)
Definition is_blank (record : list string) : bool :=
  match record with [] => true | _ :: _ => false end.

(** [load] (lines 17-24) on a file that decodes, given the records
    [csv.reader] yields for it: the first record is the header line, and
    [DictReader] skips the blank records after it. *)
Definition load (records : list (list string)) (path : string) : CSVData :=
  match records with
  | [] => {| headers := []; rows := []; file_path := path |}
  | fieldnames :: rest =>
      {| headers := fieldnames;
         rows := map (dict_of_record fieldnames)
                   (filter (fun r => negb (is_blank r)) rest);
         file_path := path |}
  end.

End csv_data.

(* ===================================================================== *)
(** ** models/badge_config.py *)
(* ===================================================================== *)

(** A reference to a Python object. *)
Abbreviation loc := positive.

Module badge_config.

Record FieldPlacement := {
  csv_column : string;
  x : Q;
  y : Q;
  font_family : string;
  font_size : Z;
  font_color : string;
  bold : bool;
  italic : bool;
  alignment : string;
  max_width : Z
}.

(** [fp.alignment = a] on a copy. *)
Definition with_alignment (a : string) (fp : FieldPlacement) : FieldPlacement :=
  {| csv_column := csv_column fp; x := x fp; y := y fp;
     font_family := font_family fp; font_size := font_size fp;
     font_color := font_color fp; bold := bold fp; italic := italic fp;
     alignment := a; max_width := max_width fp |}.

(** [fields] holds references: the [FieldPlacement] objects are shared with
    the editor, which mutates them in place. *)
Record BadgeConfig := {
  background_image_path : string;
  badge_width : Z;
  badge_height : Z;
  fields : list loc;
  badges_per_row : Z;
  badges_per_col : Z;
  page_size : string;
  margin_mm : Q;
  spacing_mm : Q
}.

End badge_config.

(* ===================================================================== *)
(** ** Pillow, as far as the renderer uses it *)
(* ===================================================================== *)

Module PIL.

Inductive Font :=
| FreeTypeFont (path : string) (size : Z)
| DefaultFont.

(** One call [draw.text(xy, text, fill=, font=, anchor=)]. *)
Record text_call := {
  tc_xy : Q * Q;
  tc_text : string;
  tc_fill : string;
  tc_font : Font;
  tc_anchor : string
}.

(** The content of an image, as the history of the calls that made it. *)
Inductive pixels :=
| FromFile (path : string)
| Fill (color : string)
| Resized (p : pixels) (size : Z * Z)
| Converted (p : pixels) (mode : string)
| Text (p : pixels) (call : text_call).

Record Image := {
  mode : string;
  size : Z * Z;
  data : pixels
}.

(** [Image.new(mode, size, color)]. *)
Definition new (mode : string) (size : Z * Z) (color : string) : Image :=
  {| mode := mode; size := size; data := Fill color |}.

(** [im.resize(size, Image.LANCZOS)]: a resized copy. *)
Definition resize (im : Image) (size : Z * Z) : Image :=
  {| mode := mode im; size := size; data := Resized (data im) size |}.

(** [im.convert(mode)]: a converted copy. *)
Definition convert (im : Image) (mode : string) : Image :=
  {| mode := mode; size := size im; data := Converted (data im) mode |}.

(** What [ImageDraw.Draw(im).text(...)] does to [im], for a [fill] that
    Pillow can read as a colour ([ImageColor.getrgb] raises [ValueError]
    for any other string; such fields are outside this development). *)
Definition text (im : Image) (call : text_call) : Image :=
  {| mode := mode im; size := size im; data := Text (data im) call |}.

(** The text calls an image has received, oldest first. *)
Fixpoint texts (p : pixels) : list text_call :=
  match p with
  | FromFile _ | Fill _ => []
  | Resized p _ | Converted p _ => texts p
  | Text p c => texts p ++ [c]
  end.

End PIL.

(** The world outside the program. *)
Record Env := {
  (** [utils.fonts.find_font_path(family, bold, italic)] *)
  find_font_path : string -> bool -> bool -> option string;
  (** whether [ImageFont.truetype(path, size)] succeeds (else [OSError]) *)
  truetype_ok : string -> Z -> bool;
  (** [draw.textbbox((0, 0), text, font=font)] *)
  textbbox : string -> PIL.Font -> Z * Z * Z * Z;
  (** [Image.open(path)]; [None] is [OSError] *)
  image_open : string -> option PIL.Image
}.

(* ===================================================================== *)
(** ** The heap of shared Python objects *)
(* ===================================================================== *)

Inductive obj :=
| ObjImage (im : PIL.Image)
| ObjField (fp : badge_config.FieldPlacement).

Abbreviation heap := (gmap loc obj).

Module Heap.

Definition alloc (o : obj) (h : heap) : loc * heap :=
  let l := fresh (dom h) in (l, <[l := o]> h).

Definition get_image (h : heap) (l : loc) : Py.result PIL.Image :=
  match h !! l with
  | Some (ObjImage im) => Py.Ok im
  | _ => Py.Raise Py.AttributeError
  end.

Definition get_field (h : heap) (l : loc)
  : Py.result badge_config.FieldPlacement :=
  match h !! l with
  | Some (ObjField fp) => Py.Ok fp
  | _ => Py.Raise Py.AttributeError
  end.

(** The references of a call point to objects of the right class. *)
Definition well_formed (fields : list loc) (background : option loc)
  (h : heap) : Prop :=
  Forall (fun l => exists fp, h !! l = Some (ObjField fp)) fields /\
  (forall bg, background = Some bg -> exists im, h !! bg = Some (ObjImage im)).

(** Every object of [h] is still there, as it was, in [h']. *)
Definition unchanged (h h' : heap) : Prop :=
  forall l, is_Some (h !! l) -> h' !! l = h !! l.

End Heap.

(* ===================================================================== *)
(** ** export/badge_renderer.py *)
(* ===================================================================== *)

Module badge_renderer.
Import badge_config.

Definition _load_font (env : Env) (fp : FieldPlacement)
  (size_override : option Z) : PIL.Font :=
  (* size = size_override or fp.font_size *)
  let size := match size_override with
              | Some s => if s =? 0 then font_size fp else s
              | None => font_size fp
              end in
  let fallback :=
    if truetype_ok env "arial.ttf" size
    then PIL.FreeTypeFont "arial.ttf" size
    else PIL.DefaultFont in
  match find_font_path env (font_family fp) (bold fp) (italic fp) with
  | Some path =>
      if Py.truthy path && truetype_ok env path size
      then PIL.FreeTypeFont path size
      else fallback
  | None => fallback
  end.

(** [bbox[2] - bbox[0]] of [draw.textbbox((0, 0), text, font=font)]. *)
Definition text_width_of (env : Env) (text : string) (font : PIL.Font) : Z :=
  let '(x0, _, x1, _) := textbbox env text font in x1 - x0.

(** The local variables of [_draw_field] that the auto-shrink loop updates;
    [iterations] counts the executions of the loop body and is not a
    variable of the program. *)
Record shrink_state := {
  font : PIL.Font;
  effective_size : Z;
  text_width : Z;
  iterations : nat
}.

(** The [while] loop of [_draw_field]. *)
Equations? shrink_loop (env : Env) (fp : FieldPlacement) (text : string)
  (s : shrink_state) : shrink_state
  by wf (Z.to_nat (effective_size s - 8)) lt :=
shrink_loop env fp text s with Z_gt_dec (text_width s) (max_width fp) => {
  | right _ := s;
  | left _ with Z_gt_dec (effective_size s) 8 => {
    | right _ := s;
    | left _ :=
        let size' := effective_size s - 1 in
        let font' := _load_font env fp (Some size') in
        shrink_loop env fp text
          {| font := font';
             effective_size := size';
             text_width := text_width_of env text font';
             iterations := S (iterations s) |} } }.
Proof. simpl. lia. Qed.

(** The font and the size [_draw_field] ends up with. *)
Definition auto_shrink (env : Env) (fp : FieldPlacement) (text : string)
  : shrink_state :=
  let font := _load_font env fp None in
  let s0 := {| font := font; effective_size := font_size fp;
               text_width := 0; iterations := 0 |} in
  if max_width fp >? 0 then
    shrink_loop env fp text
      {| font := font; effective_size := font_size fp;
         text_width := text_width_of env text font; iterations := 0 |}
  else s0.

Definition anchor_map : gmap string string :=
  {[ "left" := "lt"; "center" := "mt"; "right" := "rt" ]}%string.

(** [draw] is the image that the [ImageDraw] object wraps, [fp] the
    [FieldPlacement] object, [text] what [get_value] returned: [if not
    text: return] also covers [None]. *)
Definition _draw_field (env : Env) (draw fp : loc) (text : csv_data.cell)
  (h : heap) : Py.result heap :=
  match text with
  | csv_data.PyNone => Py.Ok h
  | csv_data.Str text =>
      if negb (Py.truthy text) then Py.Ok h
      else
        f ← Heap.get_field h fp;
        let s := auto_shrink env f text in
        let anchor := Py.dict_get anchor_map (alignment f) "mt" in
        im ← Heap.get_image h draw;
        Py.Ok (<[draw := ObjImage (PIL.text im
                 {| PIL.tc_xy := (x f, y f);
                    PIL.tc_text := text;
                    PIL.tc_fill := font_color f;
                    PIL.tc_font := font s;
                    PIL.tc_anchor := anchor |})]> h)
  end.

(** The [for fp in config.fields] loop of [render_badge]. *)
Fixpoint draw_fields (env : Env) (csv : csv_data.CSVData) (row_index : Z)
  (draw : loc) (fps : list loc) (h : heap) : Py.result heap :=
  match fps with
  | [] => Py.Ok h
  | fp :: rest =>
      f ← Heap.get_field h fp;
      text ← csv_data.get_value csv row_index (csv_column f);
      h' ← _draw_field env draw fp text h;
      draw_fields env csv row_index draw rest h'
  end.

(** The canvas base: the first [if] of [render_badge].  Every intermediate
    image ([copy], [open], [convert], [resize]) is an object of its own. *)
Definition badge_base (env : Env) (config : BadgeConfig)
  (background : option loc) (h : heap) : Py.result (loc * heap) :=
  let dims := (badge_width config, badge_height config) in
  match background with
  | Some bg =>
      im ← Heap.get_image h bg;
      let '(c, h1) := Heap.alloc (ObjImage im) h in          (* background.copy() *)
      Py.Ok (Heap.alloc (ObjImage (PIL.resize im dims)) h1)
  | None =>
      if Py.truthy (background_image_path config) then
        match image_open env (background_image_path config) with
        | Some opened =>
            let '(o, h1) := Heap.alloc (ObjImage opened) h in
            let rgba := PIL.convert opened "RGBA" in
            let '(c, h2) := Heap.alloc (ObjImage rgba) h1 in
            Py.Ok (Heap.alloc (ObjImage (PIL.resize rgba dims)) h2)
        | None =>
            Py.Ok (Heap.alloc (ObjImage (PIL.new "RGBA" dims "white")) h)
        end
      else Py.Ok (Heap.alloc (ObjImage (PIL.new "RGBA" dims "white")) h)
  end.

Definition render_badge (env : Env) (config : BadgeConfig)
  (csv : csv_data.CSVData) (row_index : Z) (background : option loc)
  (h : heap) : Py.result (loc * heap) :=
  '(badge, h1) ← badge_base env config background h;
  h2 ← draw_fields env csv row_index badge (fields config) h1;
  Py.Ok (badge, h2).

End badge_renderer.

(* ===================================================================== *)
(** ** ReportLab, as far as the exporter uses it *)
(* ===================================================================== *)

Module reportlab.

(** [reportlab.lib.units]: [inch = 72.0], [mm = inch / 25.4]. *)
Definition inch : Q := 72.
Definition mm : Q := 360 # 127.

(** [reportlab.lib.pagesizes]. *)
Definition letter : Q * Q := (8.5 * inch, 11 * inch)%Q.
Definition A4 : Q * Q := (210 * mm, 297 * mm)%Q.

(** One [c.drawImage(image, x, y, width, height)]. *)
Record drawn := {
  dr_image : PIL.Image;
  dr_x : Q;
  dr_y : Q;
  dr_width : Q;
  dr_height : Q
}.

(** A canvas: the pages already ended by [showPage], and the content of
    the page being drawn. *)
Record Canvas := {
  pages : list (list drawn);
  page : list drawn
}.

Definition new_canvas : Canvas := {| pages := []; page := [] |}.

Definition drawImage (c : Canvas) (d : drawn) : Canvas :=
  {| pages := pages c; page := page c ++ [d] |}.

Definition showPage (c : Canvas) : Canvas :=
  {| pages := pages c ++ [page c]; page := [] |}.

(** [c.save()] ends the page being drawn if something was drawn on it,
    then writes the document. *)
Definition save (c : Canvas) : Canvas :=
  match page c with
  | [] => c
  | _ :: _ => showPage c
  end.

(** The image drawn [s]-th on the [p]-th page, counting the page being
    drawn as the last one. *)
Definition slot (c : Canvas) (p s : nat) : option drawn :=
  match (pages c ++ [page c]) !! p with
  | Some pg => pg !! s
  | None => None
  end.

End reportlab.

(* ===================================================================== *)
(** ** export/pdf_export.py *)
(* ===================================================================== *)

Module pdf_export.
Import badge_config.

Definition lower_ascii (c : ascii) : ascii :=
  let n := nat_of_ascii c in
  if (65 <=? n)%nat && (n <=? 90)%nat then ascii_of_nat (n + 32) else c.

(** [str.lower], on ASCII letters. *)
Fixpoint lower (s : string) : string :=
  match s with
  | EmptyString => EmptyString
  | String c s' => String (lower_ascii c) (lower s')
  end.

Definition _get_page_size (name : string) : Q * Q :=
  if String.eqb (lower name) "a4" then reportlab.A4 else reportlab.letter.

(** The values [export_pdf] computes before its loop (lines 34-60). *)
Record layout := {
  page_w : Q;
  page_h : Q;
  margin : Q;
  spacing : Q;
  usable_w : Q;
  usable_h : Q;
  cols : Z;
  rows : Z;
  cell_w : Q;
  cell_h : Q;
  draw_w : Q;
  draw_h : Q;
  badges_per_page : Z
}.

Definition export_layout (config : BadgeConfig) : Py.result layout :=
  let '(page_w, page_h) := _get_page_size (page_size config) in
  let margin := (margin_mm config * reportlab.mm)%Q in
  let spacing := (spacing_mm config * reportlab.mm)%Q in
  let usable_w := (page_w - 2 * margin)%Q in
  let usable_h := (page_h - 2 * margin)%Q in
  let cols := badges_per_row config in
  let rows := badges_per_col config in
  cell_w ← Py.truediv (usable_w - inject_Z (cols - 1) * spacing) (inject_Z cols);
  cell_h ← Py.truediv (usable_h - inject_Z (rows - 1) * spacing) (inject_Z rows);
  badge_aspect ← Py.truediv (inject_Z (badge_width config))
                    (inject_Z (Z.max (badge_height config) 1));
  cell_aspect ← Py.truediv cell_w (Py.max cell_h 1);
  '(draw_w, draw_h) ←
    (if Qlt_le_dec cell_aspect badge_aspect then
       draw_h ← Py.truediv cell_w badge_aspect;
       Py.Ok (cell_w, draw_h)
     else Py.Ok ((cell_h * badge_aspect)%Q, cell_h));
  Py.Ok {| page_w := page_w; page_h := page_h;
           margin := margin; spacing := spacing;
           usable_w := usable_w; usable_h := usable_h;
           cols := cols; rows := rows;
           cell_w := cell_w; cell_h := cell_h;
           draw_w := draw_w; draw_h := draw_h;
           badges_per_page := cols * rows |}.

(** What [export_pdf] does that its caller can see, in program order. *)
Inductive event :=
| NewCanvas (output_path : string) (pagesize : Q * Q)
| IsCancelled (answer : bool)
| RenderBadge (row_index : Z)
| DrawImage (d : reportlab.drawn)
| ShowPage
| OnProgress (n : Z)
| Save.

(** The two optional callbacks.  [is_cancelled] reads a flag that another
    thread sets: its answer is a function of the number of earlier calls. *)
Record callbacks := {
  on_progress : bool;
  is_cancelled : option (nat -> bool)
}.

Record state := {
  st_heap : heap;
  st_trace : list event;
  st_polls : nat
}.

(** [if is_cancelled and is_cancelled()] *)
Definition poll (cb : callbacks) (st : state) : bool * state :=
  match is_cancelled cb with
  | None => (false, st)
  | Some f =>
      let answer := f (st_polls st) in
      (answer, {| st_heap := st_heap st;
                  st_trace := st_trace st ++ [IsCancelled answer];
                  st_polls := S (st_polls st) |})
  end.

(** Position of badge [i] on its page (lines 79-85). *)
Definition position (lay : layout) (i : Z) : Q * Q :=
  let page_idx := i mod badges_per_page lay in
  let col := page_idx mod cols lay in
  let row_on_page := page_idx / cols lay in
  let x := (margin lay + inject_Z col * (cell_w lay + spacing lay)
            + (cell_w lay - draw_w lay) / 2)%Q in
  let y := (page_h lay - margin lay - inject_Z (row_on_page + 1) * cell_h lay
            - inject_Z row_on_page * spacing lay
            + (cell_h lay - draw_h lay) / 2)%Q in
  (x, y).

(** What the loop body does once the badge of row [i] is rendered and
    converted to [rgb] (lines 78-95): place it, end the page if it is full
    and more badges follow, report progress. *)
Definition row_events (cb : callbacks) (lay : layout) (total_rows : Z)
  (i : Z) (rgb : PIL.Image) : list event :=
  let page_idx := i mod badges_per_page lay in
  let '(x, y) := position lay i in
  let d := {| reportlab.dr_image := rgb; reportlab.dr_x := x;
              reportlab.dr_y := y; reportlab.dr_width := draw_w lay;
              reportlab.dr_height := draw_h lay |} in
  [RenderBadge i; DrawImage d]
  ++ (if (page_idx =? badges_per_page lay - 1) && (i <? total_rows - 1)
      then [ShowPage] else [])
  ++ (if on_progress cb then [OnProgress (i + 1)] else []).

(** The event of the cancellation check, when there is a callback. *)
Definition poll_events (cb : callbacks) (answer : bool) : list event :=
  match is_cancelled cb with
  | None => []
  | Some _ => [IsCancelled answer]
  end.

(** The events of one full turn of the loop. *)
Definition completed_row (cb : callbacks) (lay : layout) (total_rows : Z)
  (i : Z) (rgb : PIL.Image) : list event :=
  poll_events cb false ++ row_events cb lay total_rows i rgb.

(** What the [n]-th call of [is_cancelled] (counting from 0) answers;
    without a callback the check is always false. *)
Definition answer_at (cb : callbacks) (n : nat) : bool :=
  match is_cancelled cb with
  | None => false
  | Some f => f n
  end.

(** The flag is never found set. *)
Definition never_cancelled (cb : callbacks) : Prop :=
  forall n, answer_at cb n = false.

(** The flag is found set for the first time by the check that follows
    [k] completed rows. *)
Definition cancelled_after (cb : callbacks) (k : nat) : Prop :=
  (forall j, (j < k)%nat -> answer_at cb j = false) /\ answer_at cb k = true.

(** The body of the loop after the cancellation check (lines 69-95): the
    new heap and the events of this row. *)
Definition export_row (env : Env) (config : BadgeConfig)
  (csv : csv_data.CSVData) (background : option loc) (cb : callbacks)
  (lay : layout) (total_rows : Z) (i : Z) (h : heap)
  : Py.result (heap * list event) :=
  '(badge, h1) ← badge_renderer.render_badge env config csv i background h;
  badge_img ← Heap.get_image h1 badge;
  let rgb := PIL.convert badge_img "RGB" in
  let '(_, h2) := Heap.alloc (ObjImage rgb) h1 in
  Py.Ok (h2, row_events cb lay total_rows i rgb).

(** The [for i in range(total_rows)] loop; [Some e] is an exception that
    leaves the loop, with the state reached before it. *)
Fixpoint export_loop (env : Env) (config : BadgeConfig)
  (csv : csv_data.CSVData) (background : option loc) (cb : callbacks)
  (lay : layout) (total_rows : Z) (range : list Z) (st : state)
  : state * option Py.exn :=
  match range with
  | [] => (st, None)
  | i :: rest =>
      let '(cancelled, st1) := poll cb st in
      if cancelled then (st1, None)                                  (* break *)
      else
        match export_row env config csv background cb lay total_rows i
                (st_heap st1) with
        | Py.Raise e => (st1, Some e)
        | Py.Ok (h, evs) =>
            export_loop env config csv background cb lay total_rows rest
              {| st_heap := h;
                 st_trace := st_trace st1 ++ evs;
                 st_polls := st_polls st1 |}
        end
  end.

(** The result of a call: the final state, and the exception that escaped,
    if any. *)
Record run := {
  final : state;
  raised : option Py.exn
}.

Definition export_pdf (env : Env) (config : BadgeConfig)
  (csv : csv_data.CSVData) (output_path : string) (background : option loc)
  (cb : callbacks) (h : heap) : run :=
  match export_layout config with
  | Py.Raise e =>
      {| final := {| st_heap := h; st_trace := []; st_polls := 0 |};
         raised := Some e |}
  | Py.Ok lay =>
      let st0 := {| st_heap := h;
                    st_trace := [NewCanvas output_path (page_w lay, page_h lay)];
                    st_polls := 0 |} in
      let total_rows := csv_data.row_count csv in
      match export_loop env config csv background cb lay total_rows
              (Py.range total_rows) st0 with
      | (st, Some e) => {| final := st; raised := Some e |}
      | (st, None) =>
          {| final := {| st_heap := st_heap st;
                         st_trace := st_trace st ++ [Save];
                         st_polls := st_polls st |};
             raised := None |}
      end
  end.

(** *** Reading a trace *)

(** The calls of [on_progress], in order. *)
Definition progress_calls (tr : list event) : list Z :=
  omap (fun ev => match ev with OnProgress n => Some n | _ => None end) tr.

(** The rows that were rendered, in order. *)
Definition rendered_rows (tr : list event) : list Z :=
  omap (fun ev => match ev with RenderBadge i => Some i | _ => None end) tr.

(** The effect of the canvas calls of a trace. *)
Definition canvas_step (c : reportlab.Canvas) (ev : event) : reportlab.Canvas :=
  match ev with
  | DrawImage d => reportlab.drawImage c d
  | ShowPage => reportlab.showPage c
  | Save => reportlab.save c
  | _ => c
  end.

Definition canvas_of (tr : list event) : reportlab.Canvas :=
  fold_left canvas_step tr reportlab.new_canvas.

(** The pages of the document a trace produces. *)
Definition document (tr : list event) : list (list reportlab.drawn) :=
  reportlab.pages (canvas_of tr).

End pdf_export.

(* ===================================================================== *)
(** ** web/app.py: the export task *)
(* ===================================================================== *)

Module web_app.

(** The [task] dictionary of [start_pdf_export]. *)
Record task := {
  status : string;
  progress : Z;
  total : Z;
  path : string;
  error : option Py.exn
}.

(** The closure [on_progress] of [run_export]. *)
Definition on_progress (t : task) (n : Z) : task :=
  {| status := status t; progress := n; total := total t;
     path := path t; error := error t |}.

(** What the [try]/[except] of [run_export] writes in the task once
    [export_pdf] has returned or raised. *)
Definition finish (t : task) (raised : option Py.exn) : task :=
  match raised with
  | None =>
      {| status := "done"; progress := progress t; total := total t;
         path := path t; error := error t |}
  | Some e =>
      {| status := "error"; progress := progress t; total := total t;
         path := path t; error := Some e |}
  end.

(** The task as [start_pdf_export] creates it. *)
Definition new_task (csv : csv_data.CSVData) (output_path : string) : task :=
  {| status := "running"; progress := 0;
     total := csv_data.row_count csv;
     path := output_path; error := None |}.

(** [run_export], the thread body: [export_pdf] is called with
    [on_progress] and without [is_cancelled]. *)
Definition run_export (env : Env) (config : badge_config.BadgeConfig)
  (csv : csv_data.CSVData) (output_path : string) (bg : option loc)
  (h : heap) : task * pdf_export.run :=
  let t0 := new_task csv output_path in
  let r := pdf_export.export_pdf env config csv output_path bg
             {| pdf_export.on_progress := true;
                pdf_export.is_cancelled := None |} h in
  let t1 := fold_left on_progress
              (pdf_export.progress_calls
                 (pdf_export.st_trace (pdf_export.final r))) t0 in
  (finish t1 (pdf_export.raised r), r).

End web_app.

(* ===================================================================== *)
(** ** The export of the desktop application

    [gui/dialogs.py] ([ExportProgressDialog]) and [gui/main_window.py]
    ([_export_pdf]). *)
(* ===================================================================== *)

Module gui_export.

(** What the user does while the dialog is open: Cancel is not pressed, or
    it is pressed when the export thread has called [_is_cancelled] [p]
    times.  [_cancel] disables the button and nothing resets the flag, so
    one press is all there can be. *)
Definition user : Type := option nat.

(** [_is_cancelled] as the export thread sees it: the value of
    [self._cancelled] at its call number [polls] (counted from 0). *)
Definition _is_cancelled (press : user) (polls : nat) : bool :=
  match press with
  | Some p => (p <=? polls)%nat
  | None => false
  end.

(** The two attributes of the dialog that its caller reads. *)
Record dialog := {
  _cancelled : bool;
  _error : option Py.exn
}.

(** [_run_export]: the export function is called with [self._on_progress]
    and [self._is_cancelled]; an exception it raises is kept in [_error].
    The second component is the run of the export function. *)
Definition ExportProgressDialog
  (export_func : pdf_export.callbacks -> pdf_export.run) (press : user)
  : dialog * pdf_export.run :=
  let r := export_func {| pdf_export.on_progress := true;
                          pdf_export.is_cancelled :=
                            Some (_is_cancelled press) |} in
  ({| _cancelled := match press with Some _ => true | None => false end;
      _error := pdf_export.raised r |}, r).

(** [_export_pdf] once the user has chosen [path]: the text it puts in the
    status bar, if any, and the run of [export_pdf], if there was one.
    [_error] holds the message of the exception, which is not empty for
    the exceptions of this development. *)
Definition _export_pdf (env : Env) (config : badge_config.BadgeConfig)
  (csv : csv_data.CSVData) (path : string) (bg : option loc)
  (press : user) (h : heap) : option string * option pdf_export.run :=
  if negb (csv_data.is_loaded csv) then (None, None)
  else if badge_config.fields config is [] then (None, None)
  else if negb (Py.truthy path) then (None, None)
  else
    let do_export cb := pdf_export.export_pdf env config csv path bg cb h in
    let '(dialog, r) := ExportProgressDialog do_export press in
    match _error dialog with
    | Some _ => (None, Some r)
    | None =>
        if _cancelled dialog then (Some "Export cancelled."%string, Some r)
        else (Some ("PDF exported: " ++ path)%string, Some r)
    end.

End gui_export.

(* ===================================================================== *)
(** ** The packing rule of the specification *)
(* ===================================================================== *)

Module packing.

Definition badgesPerPage (cols rows : Z) : Z := cols * rows.

Definition pageLocalIndex (cols rows i : Z) : Z := i mod badgesPerPage cols rows.

Definition col (cols rows i : Z) : Z := pageLocalIndex cols rows i mod cols.

Definition rowOnPage (cols rows i : Z) : Z := pageLocalIndex cols rows i / cols.

Definition pageIndex (cols rows i : Z) : Z := i / badgesPerPage cols rows.

(** ceil(rowCount / (cols * rows)) *)
Definition pageCount (cols rows rowCount : Z) : Z :=
  (rowCount + badgesPerPage cols rows - 1) / badgesPerPage cols rows.

(** Lower left corner of the badge drawn in column [c] of row [r] of a page:
    [c] cells to the right of the left margin, [r] cells below the top
    margin, centred in its cell. *)
Definition corner (lay : pdf_export.layout) (c r : Z) : Q * Q :=
  ((pdf_export.margin lay
    + inject_Z c * (pdf_export.cell_w lay + pdf_export.spacing lay)
    + (pdf_export.cell_w lay - pdf_export.draw_w lay) / 2)%Q,
   (pdf_export.page_h lay - pdf_export.margin lay
    - inject_Z (r + 1) * pdf_export.cell_h lay
    - inject_Z r * pdf_export.spacing lay
    + (pdf_export.cell_h lay - pdf_export.draw_h lay) / 2)%Q).

(** Badges [0 .. n-1] are on the canvas, each in its slot. *)
Definition placed (lay : pdf_export.layout) (n : Z) (c : reportlab.Canvas)
  : Prop :=
  let bpp := pdf_export.badges_per_page lay in
  forall j, 0 <= j < n ->
    exists d,
      reportlab.slot c (Z.to_nat (j / bpp)) (Z.to_nat (j mod bpp)) = Some d /\
      (reportlab.dr_x d, reportlab.dr_y d) = pdf_export.position lay j.

(** The canvas before badge [n] is drawn: full pages behind, the badges of
    the current page on it. *)
Definition packed (lay : pdf_export.layout) (n : Z) (c : reportlab.Canvas)
  : Prop :=
  let bpp := pdf_export.badges_per_page lay in
  Z.of_nat (length (reportlab.pages c)) = n / bpp /\
  Z.of_nat (length (reportlab.page c)) = n mod bpp /\
  placed lay n c.

End packing.

(* ===================================================================== *)
(** ** Sample inputs *)
(* ===================================================================== *)

Module sample.
Import badge_config.

(** No font file is found, every TrueType load succeeds, and a glyph is
    half as wide as the font is high. *)
Definition env : Env :=
  {| find_font_path := fun _ _ _ => None;
     truetype_ok := fun _ _ => true;
     textbbox := fun t f =>
       match f with
       | PIL.FreeTypeFont _ s => (0, 0, s * Z.of_nat (String.length t) / 2, s)
       | PIL.DefaultFont => (0, 0, 6 * Z.of_nat (String.length t), 11)
       end;
     image_open := fun _ => None |}.

(** The field of the scenario of the specification. *)
Definition name_field : FieldPlacement :=
  {| csv_column := "Name"; x := 525; y := 100; font_family := "Arial";
     font_size := 40; font_color := "#000000"; bold := false;
     italic := false; alignment := "center"; max_width := 300 |}.

(** A small caption: 5 pt, at most 20 px wide. *)
Definition small_field : FieldPlacement :=
  {| csv_column := "Name"; x := 525; y := 500; font_family := "Arial";
     font_size := 5; font_color := "#000000"; bold := false;
     italic := false; alignment := "justify"; max_width := 20 |}.

Definition background : PIL.Image :=
  {| PIL.mode := "RGBA"; PIL.size := (2100, 1200);
     PIL.data := PIL.FromFile "badge.png" |}.

(** Objects 1 and 2 are the fields, object 3 the decoded background. *)
Definition objects : heap :=
  {[ 1%positive := ObjField name_field;
     2%positive := ObjField small_field;
     3%positive := ObjImage background ]}.

(** The default configuration: letter, 2 x 4 badges of 1050 x 600. *)
Definition config : BadgeConfig :=
  {| background_image_path := ""; badge_width := 1050; badge_height := 600;
     fields := [1%positive; 2%positive];
     badges_per_row := 2; badges_per_col := 4; page_size := "letter";
     margin_mm := 10; spacing_mm := 2 |}.

(** One badge per letter page, without margins, with the proportions of
    the page. *)
Definition full_page : BadgeConfig :=
  {| background_image_path := ""; badge_width := 612; badge_height := 792;
     fields := [1%positive];
     badges_per_row := 1; badges_per_col := 1; page_size := "letter";
     margin_mm := 0; spacing_mm := 0 |}.

(** Eleven badges of 17 x 242 side by side on a letter page without
    margins and gaps: the cells have the proportions of the badge. *)
Definition eleven_columns : BadgeConfig :=
  {| background_image_path := ""; badge_width := 17; badge_height := 242;
     fields := [1%positive];
     badges_per_row := 11; badges_per_col := 1; page_size := "letter";
     margin_mm := 0; spacing_mm := 0 |}.

(** A thousand rows of badges on one letter page. *)
Definition thin_cells : BadgeConfig :=
  {| background_image_path := ""; badge_width := 700; badge_height := 1;
     fields := [];
     badges_per_row := 1; badges_per_col := 1000; page_size := "letter";
     margin_mm := 0; spacing_mm := 0 |}.

Definition person (name : string) : csv_data.row :=
  [csv_data.Field "Name" (csv_data.Str name)].

Definition sheet (n : nat) : csv_data.CSVData :=
  {| csv_data.headers := ["Name"%string];
     csv_data.rows := replicate n (person "A VERY LONG NAME THAT MUST SHRINK");
     csv_data.file_path := "people.csv" |}.

Definition quiet : pdf_export.callbacks :=
  {| pdf_export.on_progress := true; pdf_export.is_cancelled := None |}.

(** The user presses Cancel while row [k] (1-based) is being rendered: the
    flag reads false [k] times, then true. *)
Definition cancel_after (k : nat) : pdf_export.callbacks :=
  {| pdf_export.on_progress := true;
     pdf_export.is_cancelled := Some (fun polls => (k <=? polls)%nat) |}.

End sample.

(* ===================================================================== *)
(** ** Further readings of a trace *)
(* ===================================================================== *)

Module trace.

(** The number of calls of [c.save()]. *)
Definition saves (tr : list pdf_export.event) : nat :=
  length (omap (fun ev => match ev with
                          | pdf_export.Save => Some tt
                          | _ => None
                          end) tr).

End trace.

(* ===================================================================== *)
(** ** What one field contributes to a badge *)
(* ===================================================================== *)

Module drawing.

(** The [draw.text] call that [_draw_field] makes for the field [f] and the
    cell [text], if it makes one: none when the cell is empty or [None]. *)
Definition text_call (env : Env) (f : badge_config.FieldPlacement)
  (text : csv_data.cell) : option PIL.text_call :=
  match text with
  | csv_data.Str text =>
      if Py.truthy text then
        Some {| PIL.tc_xy := (badge_config.x f, badge_config.y f);
                PIL.tc_text := text;
                PIL.tc_fill := badge_config.font_color f;
                PIL.tc_font :=
                  badge_renderer.font (badge_renderer.auto_shrink env f text);
                PIL.tc_anchor :=
                  Py.dict_get badge_renderer.anchor_map
                    (badge_config.alignment f) "mt" |}
      else None
  | csv_data.PyNone => None
  end.

(** The same for the row [row_index] of a table. *)
Definition field_call (env : Env) (csv : csv_data.CSVData) (row_index : Z)
  (f : badge_config.FieldPlacement) : option PIL.text_call :=
  match csv_data.get_value csv row_index (badge_config.csv_column f) with
  | Py.Ok text => text_call env f text
  | Py.Raise _ => None
  end.

(** The objects [ls] are fields, with the values [fs]. *)
Definition fields_at (h : heap) (ls : list loc)
  (fs : list badge_config.FieldPlacement) : Prop :=
  Forall2 (fun l f => h !! l = Some (ObjField f)) ls fs.

End drawing.

Module canvas_base.

(** The image a background reference points to. *)
Definition image_at (h : heap) (background : option loc) : option PIL.Image :=
  match background with
  | Some bg =>
      match h !! bg with
      | Some (ObjImage im) => Some im
      | _ => None
      end
  | None => None
  end.

(** The canvas a badge starts from: the caller's background, else the
    template's own background file, else white; always at the template's
    size. *)
Definition base_image (env : Env) (config : badge_config.BadgeConfig)
  (background : option PIL.Image) : PIL.Image :=
  let dims := (badge_config.badge_width config,
               badge_config.badge_height config) in
  match background with
  | Some im => PIL.resize im dims
  | None =>
      if Py.truthy (badge_config.background_image_path config) then
        match image_open env (badge_config.background_image_path config) with
        | Some opened => PIL.resize (PIL.convert opened "RGBA") dims
        | None => PIL.new "RGBA" dims "white"
        end
      else PIL.new "RGBA" dims "white"
  end.

End canvas_base.

(* ===================================================================== *)
(** ** JSON values, and models/badge_config.py: to_dict and from_dict *)
(* ===================================================================== *)

(** What [json.load] returns. *)
#[warnings="-register-all"] Inductive json :=
| JNull
| JBool (b : bool)
| JInt (z : Z)
| JFloat (q : Q)
| JStr (s : string)
| JList (l : list json)
| JObj (o : gmap string json).

Module serial.
Import badge_config.

(** The outcome of building a dataclass instance from untyped data.
    [Raised]: a Python exception escapes ([TypeError] for a missing
    required argument, [TypeError] or [AttributeError] for data of the
    wrong shape).  [Untyped]: Python builds an object one of whose
    attributes does not have its annotated type; the records of this model
    cannot represent it. *)
Inductive built (A : Type) :=
| Built (a : A)
| Raised
| Untyped.
Arguments Built {A} a.
Arguments Raised {A}.
Arguments Untyped {A}.

Definition as_str (j : json) : option string :=
  match j with JStr s => Some s | _ => None end.

Definition as_int (j : json) : option Z :=
  match j with JInt z => Some z | _ => None end.

(** An [int] is accepted where a [float] is annotated. *)
Definition as_float (j : json) : option Q :=
  match j with JFloat q => Some q | JInt z => Some (inject_Z z) | _ => None end.

Definition as_bool (j : json) : option bool :=
  match j with JBool b => Some b | _ => None end.

(** A keyword argument with a default: the value of [key] if [d] has it. *)
Definition attr {A} (d : gmap string json) (key : string)
  (coerce : json -> option A) (dflt : A) : option A :=
  match d !! key with
  | Some v => coerce v
  | None => Some dflt
  end.

(** [cls.__dataclass_fields__] of [FieldPlacement]. *)
Definition field_names : list string :=
  ["csv_column"; "x"; "y"; "font_family"; "font_size"; "font_color";
   "bold"; "italic"; "alignment"; "max_width"]%string.

(** [FieldPlacement.to_dict]. *)
Definition field_to_dict (fp : FieldPlacement) : gmap string json :=
  {[ "csv_column" := JStr (csv_column fp);
     "x" := JFloat (x fp);
     "y" := JFloat (y fp);
     "font_family" := JStr (font_family fp);
     "font_size" := JInt (font_size fp);
     "font_color" := JStr (font_color fp);
     "bold" := JBool (bold fp);
     "italic" := JBool (italic fp);
     "alignment" := JStr (alignment fp);
     "max_width" := JInt (max_width fp) ]}%string.

(** [FieldPlacement.from_dict]: the keys that are dataclass fields become
    keyword arguments; [csv_column] has no default. *)
Definition field_from_dict (d : gmap string json) : built FieldPlacement :=
  match d !! "csv_column"%string with
  | None => Raised
  | Some c =>
      match
        c ← as_str c;
        x ← attr d "x" as_float 0%Q;
        y ← attr d "y" as_float 0%Q;
        font_family ← attr d "font_family" as_str "Arial"%string;
        font_size ← attr d "font_size" as_int 24;
        font_color ← attr d "font_color" as_str "#000000"%string;
        bold ← attr d "bold" as_bool false;
        italic ← attr d "italic" as_bool false;
        alignment ← attr d "alignment" as_str "center"%string;
        max_width ← attr d "max_width" as_int 0;
        Some {| csv_column := c; x := x; y := y; font_family := font_family;
                font_size := font_size; font_color := font_color;
                bold := bold; italic := italic; alignment := alignment;
                max_width := max_width |}
      with
      | Some fp => Built fp
      | None => Untyped
      end
  end.

(** [FieldPlacement.from_dict(f)] for an element [f] of the list of
    fields: anything but an object has no [items]. *)
Definition field_from_json (j : json) : built FieldPlacement :=
  match j with
  | JObj d => field_from_dict d
  | _ => Raised
  end.

(** [BadgeConfig.to_dict]: [asdict], then the list of the fields' own
    dictionaries. *)
Fixpoint fields_to_dicts (h : heap) (ls : list loc) : Py.result (list json) :=
  match ls with
  | [] => Py.Ok []
  | l :: rest =>
      fp ← Heap.get_field h l;
      ds ← fields_to_dicts h rest;
      Py.Ok (JObj (field_to_dict fp) :: ds)
  end.

Definition config_to_dict (config : BadgeConfig) (h : heap)
  : Py.result (gmap string json) :=
  ds ← fields_to_dicts h (fields config);
  Py.Ok ({[ "background_image_path" := JStr (background_image_path config);
            "badge_width" := JInt (badge_width config);
            "badge_height" := JInt (badge_height config);
            "fields" := JList ds;
            "badges_per_row" := JInt (badges_per_row config);
            "badges_per_col" := JInt (badges_per_col config);
            "page_size" := JStr (page_size config);
            "margin_mm" := JFloat (margin_mm config);
            "spacing_mm" := JFloat (spacing_mm config) ]}%string).

(** What [for f in fields_data] iterates over; [None] when the value is not
    iterable.  Iterating an object yields its keys, a string its
    characters. *)
Definition iterate (fields_data : json) : option (list json) :=
  match fields_data with
  | JList l => Some l
  | JObj o => Some ((fun kv => JStr (fst kv)) <$> map_to_list o)
  | JStr s => Some ((fun c => JStr (String c EmptyString)) <$> String.list_ascii_of_string s)
  | _ => None
  end.

(** The list comprehension of [BadgeConfig.from_dict]: the first element
    that raises ends it. *)
Fixpoint fields_from_json (js : list json) : built (list FieldPlacement) :=
  match js with
  | [] => Built []
  | j :: rest =>
      match field_from_json j with
      | Raised => Raised
      | Built fp =>
          match fields_from_json rest with
          | Built fps => Built (fp :: fps)
          | Raised => Raised
          | Untyped => Untyped
          end
      | Untyped =>
          match fields_from_json rest with
          | Raised => Raised
          | _ => Untyped
          end
      end
  end.

(** The new [FieldPlacement] objects, one after the other. *)
Fixpoint alloc_fields (fps : list FieldPlacement) (h : heap) : list loc * heap :=
  match fps with
  | [] => ([], h)
  | fp :: rest =>
      let '(l, h1) := Heap.alloc (ObjField fp) h in
      let '(ls, h2) := alloc_fields rest h1 in
      (l :: ls, h2)
  end.

(** [BadgeConfig.from_dict]. *)
Definition config_from_dict (d : gmap string json) (h : heap)
  : built (BadgeConfig * heap) :=
  (* fields_data = d.pop("fields", []) *)
  let fields_data := default (JList []) (d !! "fields"%string) in
  (* config = cls(...), from the remaining keys that are dataclass fields *)
  let config :=
    background_image_path ← attr d "background_image_path" as_str ""%string;
    badge_width ← attr d "badge_width" as_int 1050;
    badge_height ← attr d "badge_height" as_int 600;
    badges_per_row ← attr d "badges_per_row" as_int 2;
    badges_per_col ← attr d "badges_per_col" as_int 4;
    page_size ← attr d "page_size" as_str "letter"%string;
    margin_mm ← attr d "margin_mm" as_float 10%Q;
    spacing_mm ← attr d "spacing_mm" as_float 2%Q;
    Some (fun ls =>
      {| background_image_path := background_image_path;
         badge_width := badge_width; badge_height := badge_height;
         fields := ls;
         badges_per_row := badges_per_row; badges_per_col := badges_per_col;
         page_size := page_size; margin_mm := margin_mm;
         spacing_mm := spacing_mm |}) in
  match iterate fields_data with
  | None => Raised
  | Some js =>
      match fields_from_json js, config with
      | Raised, _ => Raised
      | Built fps, Some mk =>
          let '(ls, h') := alloc_fields fps h in Built (mk ls, h')
      | _, _ => Untyped
      end
  end.

End serial.

Module rendering.

(** The image after the field [f] has been handled. *)
Definition draw_on (env : Env) (csv : csv_data.CSVData) (row_index : Z)
  (im : PIL.Image) (f : badge_config.FieldPlacement) : PIL.Image :=
  match drawing.field_call env csv row_index f with
  | Some call => PIL.text im call
  | None => im
  end.

(** The badge of a row, from the values alone: the settings of the
    template, the values of its fields, the table and the background
    image. *)
Definition rendered (env : Env) (config : badge_config.BadgeConfig)
  (csv : csv_data.CSVData) (row_index : Z) (background : option PIL.Image)
  (fs : list badge_config.FieldPlacement) : PIL.Image :=
  fold_left (draw_on env csv row_index) fs
    (canvas_base.base_image env config background).

(** [config] with another list of field objects. *)
Definition with_fields (ls : list loc) (config : badge_config.BadgeConfig)
  : badge_config.BadgeConfig :=
  {| badge_config.background_image_path :=
       badge_config.background_image_path config;
     badge_config.badge_width := badge_config.badge_width config;
     badge_config.badge_height := badge_config.badge_height config;
     badge_config.fields := ls;
     badge_config.badges_per_row := badge_config.badges_per_row config;
     badge_config.badges_per_col := badge_config.badges_per_col config;
     badge_config.page_size := badge_config.page_size config;
     badge_config.margin_mm := badge_config.margin_mm config;
     badge_config.spacing_mm := badge_config.spacing_mm config |}.

End rendering.

(* ===================================================================== *)
(** ** gui/canvas_editor.py: the geometry of the preview *)
(* ===================================================================== *)

Module canvas_editor.
Import badge_config.

Definition CANVAS_MAX_W : Z := 700.
Definition CANVAS_MAX_H : Z := 500.

(** Python [a or b] on two [int]s. *)
Definition or_int (a b : Z) : Z := if a =? 0 then b else a.

(** The attributes [_scale], [_offset_x] and [_offset_y] of the editor. *)
Record view := {
  _scale : Q;
  _offset_x : Q;
  _offset_y : Q
}.

(** What [refresh] computes from the size of the widget (lines 109-118). *)
Definition refresh (config : BadgeConfig) (winfo_width winfo_height : Z)
  : Py.result view :=
  let cw := or_int winfo_width CANVAS_MAX_W in
  let ch := or_int winfo_height CANVAS_MAX_H in
  let bw := badge_width config in
  let bh := badge_height config in
  scale ← image_utils.compute_scale_factor bw bh (cw - 20) (ch - 20);
  Py.Ok {| _scale := scale;
           _offset_x := ((inject_Z cw - inject_Z bw * scale) / 2)%Q;
           _offset_y := ((inject_Z ch - inject_Z bh * scale) / 2)%Q |}.

(** The rectangle [(x1, y1, x2, y2)] of the badge border (lines 137-141). *)
Definition border (config : BadgeConfig) (v : view) : Q * Q * Q * Q :=
  let x1 := _offset_x v in
  let y1 := _offset_y v in
  let x2 := (x1 + inject_Z (badge_width config) * _scale v)%Q in
  let y2 := (y1 + inject_Z (badge_height config) * _scale v)%Q in
  (x1, y1, x2, y2).

(** Where [_draw_field] creates the text item of a field (line 157). *)
Definition field_anchor (v : view) (fp : FieldPlacement) : Q * Q :=
  image_utils.image_to_canvas (x fp) (y fp)
    (_scale v) (_offset_x v) (_offset_y v).

(** Python [round(q, 1)]: the nearest multiple of one tenth, a tie going to
    the even one. *)
Definition round1 (q : Q) : Q :=
  let t := (q * 10)%Q in
  let n := Qfloor t in
  let r := (t - inject_Z n)%Q in
  let up :=
    if Qlt_le_dec r (1 # 2) then false
    else if Qlt_le_dec (1 # 2) r then true
    else negb (Z.even n) in
  (inject_Z (if up then n + 1 else n) / 10)%Q.

(** [fp.x = nx; fp.y = ny] *)
Definition with_position (nx ny : Q) (fp : FieldPlacement) : FieldPlacement :=
  {| csv_column := csv_column fp; x := nx; y := ny;
     font_family := font_family fp; font_size := font_size fp;
     font_color := font_color fp; bold := bold fp; italic := italic fp;
     alignment := alignment fp; max_width := max_width fp |}.

(** The position [_on_release] stores for a text item found at
    [(cx, cy)] (lines 334-339). *)
Definition dropped (config : BadgeConfig) (v : view) (cx cy : Q)
  : Py.result (Q * Q) :=
  '(ix, iy) ← image_utils.canvas_to_image cx cy
                (_scale v) (_offset_x v) (_offset_y v);
  let ix := Py.max 0 (Py.min ix (inject_Z (badge_width config))) in
  let iy := Py.max 0 (Py.min iy (inject_Z (badge_height config))) in
  Py.Ok (round1 ix, round1 iy).

(** [_on_release]: [drag_field_idx] is the field being dragged, if any,
    and [coords] what [canvas.coords(tag)] returns for its text item, if
    there is one.  The callback [on_field_moved] belongs to the caller. *)
Definition _on_release (config : BadgeConfig) (v : view)
  (drag_field_idx : option Z) (coords : option (Q * Q)) (h : heap)
  : Py.result heap :=
  match drag_field_idx, coords with
  | Some idx, Some (cx, cy) =>
      '(nx, ny) ← dropped config v cx cy;
      l ← csv_data.list_getitem (fields config) idx;
      fp ← Heap.get_field h l;
      Py.Ok (<[l := ObjField (with_position nx ny fp)]> h)
  | _, _ => Py.Ok h
  end.

End canvas_editor.

(* ===================================================================== *)
(** ** utils/fonts.py: looking a font up *)
(* ===================================================================== *)

Module fonts.

(** The dictionary [discover_fonts] returns, display name to file path, in
    its order (sorted by name).  A dictionary has every key once; a look-up
    in a list with a repeated name takes the first. *)
Definition table : Type := list (string * string).

(** [fonts[name]], when [name in fonts]. *)
Fixpoint dict_lookup (fonts : table) (name : string) : option string :=
  match fonts with
  | [] => None
  | (n, path) :: rest =>
      if String.eqb n name then Some path else dict_lookup rest name
  end.

Definition style_of (bold italic : bool) : string :=
  if bold && italic then "Bold Italic"
  else if bold then "Bold"
  else if italic then "Italic"
  else "".

(** The candidate display names: the styled name, if a style is asked
    for, then the family itself. *)
Definition candidates (family : string) (bold italic : bool) : list string :=
  let style := style_of bold italic in
  (if Py.truthy style
   then [String.append family (String.append " " style)]
   else [])
  ++ [family].

(** The first loop: a candidate that is a key. *)
Fixpoint exact_match (fonts : table) (cands : list string) : option string :=
  match cands with
  | [] => None
  | candidate :: rest =>
      match dict_lookup fonts candidate with
      | Some path => Some path
      | None => exact_match fonts rest
      end
  end.

(** The second loop: the first font whose lowered name is a lowered
    candidate. *)
Fixpoint case_insensitive_match (fonts : table) (lower_candidates : list string)
  : option string :=
  match fonts with
  | [] => None
  | (name, path) :: rest =>
      if existsb (fun candidate => String.eqb candidate (pdf_export.lower name))
           lower_candidates
      then Some path
      else case_insensitive_match rest lower_candidates
  end.

(** The third loop: the first font whose lowered name starts with the
    lowered family. *)
Fixpoint partial_match (fonts : table) (family_lower : string)
  : option string :=
  match fonts with
  | [] => None
  | (name, path) :: rest =>
      if String.prefix family_lower (pdf_export.lower name)
      then Some path
      else partial_match rest family_lower
  end.

(** [find_font_path], on the dictionary of [discover_fonts]. *)
Definition find_font_path (fonts : table) (family : string)
  (bold italic : bool) : option string :=
  let cands := candidates family bold italic in
  match exact_match fonts cands with
  | Some path => Some path
  | None =>
      match case_insensitive_match fonts (map pdf_export.lower cands) with
      | Some path => Some path
      | None => partial_match fonts (pdf_export.lower family)
      end
  end.

(** A font whose name starts with [family], whatever the case. *)
Definition of_family (family : string) (font : string * string) : bool :=
  String.prefix (pdf_export.lower family) (pdf_export.lower (fst font)).

End fonts.

(* ===================================================================== *)
(** ** web/app.py: the rows of the table *)
(* ===================================================================== *)

Module web_rows.
Import csv_data.

(** [CSVData.is_loaded]. *)
Definition is_loaded (self : CSVData) : bool :=
  0 <? Z.of_nat (length (headers self)).

(** The part of [AppState] the row handlers use. *)
Record AppState := {
  state_csv_data : CSVData;
  state_current_row : Z
}.

(** [AppState()], and [reset_csv]. *)
Definition initial : AppState :=
  {| state_csv_data := {| headers := []; rows := []; file_path := "" |};
     state_current_row := 0 |}.

(** The ["row"] object of a request body: its items in their order, the
    values strings or [null]. *)
Definition pydict : Type := list (string * csv_data.cell).

(** [key in d] *)
Definition dict_contains (d : pydict) (key : string) : bool :=
  existsb (fun kv => String.eqb (fst kv) key) d.

(** [r[key] = val] for each item of [d] in turn, on the row [r]. *)
Definition assign_all (d : pydict) (r : csv_data.row) : csv_data.row :=
  fold_left (fun r kv => csv_data.row_set r (fst kv) (snd kv)) d r.

(** The loop of [add_row] that gives every header a cell. *)
Definition fill_headers (hs : list string) (row : pydict) : pydict :=
  fold_left
    (fun row h => if dict_contains row h then row
                  else row ++ [(h, csv_data.Str "")])
    hs row.

(** What the model keeps of a response: the index it reports, or the
    status of an error. *)
Inductive response :=
| ok (index : option Z)
| error (status : Z).

Definition set_rows (rs : list csv_data.row) (csv : CSVData) : CSVData :=
  {| headers := headers csv; rows := rs; file_path := file_path csv |}.

(** [upload_csv], once [CSVData.load] has succeeded with [loaded]. *)
Definition upload_csv (loaded : CSVData) (s : AppState) : response * AppState :=
  (ok None, {| state_csv_data := loaded; state_current_row := 0 |}).

Definition get_row (idx : Z) (s : AppState) : response * AppState :=
  let csv := state_csv_data s in
  if negb (is_loaded csv) then (error 400, s)
  else if (idx <? 0) || (idx >=? row_count csv) then (error 404, s)
  else (ok (Some idx), {| state_csv_data := csv; state_current_row := idx |}).

(** [add_row]; [data_row] is [None] when the body has no ["row"]. *)
Definition add_row (data_row : option pydict) (s : AppState)
  : response * AppState :=
  let csv := state_csv_data s in
  let row := fill_headers (headers csv) (default [] data_row) in
  let hs := match headers csv with
            | [] => map fst row
            | _ :: _ => headers csv
            end in
  let rs := rows csv ++ [assign_all row []] in
  let idx := Z.of_nat (length rs) - 1 in
  (ok (Some idx),
   {| state_csv_data :=
        {| headers := hs; rows := rs; file_path := file_path csv |};
      state_current_row := idx |}).

Definition update_row (idx : Z) (data_row : option pydict) (s : AppState)
  : response * AppState :=
  let csv := state_csv_data s in
  if (idx <? 0) || (idx >=? row_count csv) then (error 404, s)
  else
    match rows csv !! Z.to_nat idx with
    | None => (error 500, s)                     (* IndexError: not reached *)
    | Some old =>
        let rs := <[Z.to_nat idx := assign_all (default [] data_row) old]>
                    (rows csv) in
        (ok None, {| state_csv_data := set_rows rs csv;
                     state_current_row := state_current_row s |})
    end.

Definition delete_row (idx : Z) (s : AppState) : response * AppState :=
  let csv := state_csv_data s in
  if (idx <? 0) || (idx >=? row_count csv) then (error 404, s)
  else
    let csv' := set_rows (delete (Z.to_nat idx) (rows csv)) csv in
    let current :=
      if (state_current_row s >=? row_count csv') && (0 <? row_count csv')
      then row_count csv' - 1
      else if row_count csv' =? 0 then 0
      else state_current_row s in
    (ok None, {| state_csv_data := csv'; state_current_row := current |}).

(** The requests that touch the table or the current row. *)
Inductive request :=
| UploadCsv (loaded : CSVData)
| GetRow (idx : Z)
| AddRow (data_row : option pydict)
| UpdateRow (idx : Z) (data_row : option pydict)
| DeleteRow (idx : Z).

Definition handle (r : request) (s : AppState) : response * AppState :=
  match r with
  | UploadCsv loaded => upload_csv loaded s
  | GetRow idx => get_row idx s
  | AddRow data_row => add_row data_row s
  | UpdateRow idx data_row => update_row idx data_row s
  | DeleteRow idx => delete_row idx s
  end.

(** The state after a sequence of requests. *)
Definition serve (rs : list request) (s : AppState) : AppState :=
  fold_left (fun s r => snd (handle r s)) rs s.

(** The current row designates a row of the table, or is 0 when the table
    is empty. *)
Definition current_row_valid (s : AppState) : Prop :=
  let n := row_count (state_csv_data s) in
  (n = 0 /\ state_current_row s = 0) \/ 0 <= state_current_row s < n.

End web_rows.

(* ===================================================================== *)
(** ** web/app.py: the fields of the template *)
(* ===================================================================== *)

Module web_fields.
Import badge_config.

Definition FIELD_ALLOWED_KEYS : list string :=
  ["x"; "y"; "font_family"; "font_size"; "font_color";
   "bold"; "italic"; "alignment"; "max_width"]%string.

(** The part of [AppState] the field handlers and the renderer use; the
    objects of the session live in [state_heap]. *)
Record AppState := {
  state_config : BadgeConfig;
  state_background : option loc;
  state_heap : heap
}.

(** What a handler does: it answers 200 and leaves the state [s]; it
    answers with an error status ([abort(...)] or an escaped exception, 500)
    and leaves the state as it was; or it stores a value that has not the
    annotated type of its attribute, which the records of this model cannot
    hold. *)
Inductive outcome :=
| done (s : AppState)
| error (status : Z)
| untyped.

(** The value of the attribute [key] after the loop of [update_field]:
    the item of [data] with that key is assigned when the key is allowed,
    and only then. *)
Definition assigned {A} (data : gmap string json) (key : string)
  (coerce : json -> option A) (current : A) : option A :=
  if bool_decide (key ∈ FIELD_ALLOWED_KEYS)
  then serial.attr data key coerce current
  else Some current.

(** [for key, val in data.items(): if key in FIELD_ALLOWED_KEYS:
    setattr(fp, key, val)], attribute by attribute. *)
Definition update_attrs (data : gmap string json) (fp : FieldPlacement)
  : option FieldPlacement :=
  csv_column ← assigned data "csv_column" serial.as_str (csv_column fp);
  x ← assigned data "x" serial.as_float (x fp);
  y ← assigned data "y" serial.as_float (y fp);
  font_family ← assigned data "font_family" serial.as_str (font_family fp);
  font_size ← assigned data "font_size" serial.as_int (font_size fp);
  font_color ← assigned data "font_color" serial.as_str (font_color fp);
  bold ← assigned data "bold" serial.as_bool (bold fp);
  italic ← assigned data "italic" serial.as_bool (italic fp);
  alignment ← assigned data "alignment" serial.as_str (alignment fp);
  max_width ← assigned data "max_width" serial.as_int (max_width fp);
  Some {| csv_column := csv_column; x := x; y := y;
          font_family := font_family; font_size := font_size;
          font_color := font_color; bold := bold; italic := italic;
          alignment := alignment; max_width := max_width |}.

Definition set_fields (ls : list loc) (s : AppState) : AppState :=
  {| state_config := rendering.with_fields ls (state_config s);
     state_background := state_background s;
     state_heap := state_heap s |}.

Definition set_heap (h : heap) (s : AppState) : AppState :=
  {| state_config := state_config s;
     state_background := state_background s;
     state_heap := h |}.

Definition add_field (data : gmap string json) (s : AppState) : outcome :=
  match serial.field_from_dict data with
  | serial.Raised => error 500
  | serial.Untyped => untyped
  | serial.Built fp =>
      let '(l, h) := Heap.alloc (ObjField fp) (state_heap s) in
      done (set_fields (fields (state_config s) ++ [l]) (set_heap h s))
  end.

Definition update_field (idx : Z) (data : gmap string json) (s : AppState)
  : outcome :=
  let fs := fields (state_config s) in
  if (idx <? 0) || (idx >=? Z.of_nat (length fs)) then error 404
  else
    match csv_data.list_getitem fs idx with
    | Py.Raise _ => error 500
    | Py.Ok l =>
        match Heap.get_field (state_heap s) l with
        | Py.Raise _ => error 500
        | Py.Ok fp =>
            match update_attrs data fp with
            | None => untyped
            | Some fp' => done (set_heap (<[l := ObjField fp']> (state_heap s)) s)
            end
        end
    end.

Definition delete_field (idx : Z) (s : AppState) : outcome :=
  let fs := fields (state_config s) in
  if (idx <? 0) || (idx >=? Z.of_nat (length fs)) then error 404
  else done (set_fields (delete (Z.to_nat idx) fs) s).

(** The requests that touch the fields. *)
Inductive request :=
| AddField (data : gmap string json)
| UpdateField (idx : Z) (data : gmap string json)
| DeleteField (idx : Z).

Definition handle (r : request) (s : AppState) : outcome :=
  match r with
  | AddField data => add_field data s
  | UpdateField idx data => update_field idx data s
  | DeleteField idx => delete_field idx s
  end.

(** The state after a sequence of requests; [None] once a request has
    stored a value of the wrong type. *)
Fixpoint serve (rs : list request) (s : AppState) : option AppState :=
  match rs with
  | [] => Some s
  | r :: rest =>
      match handle r s with
      | done s' => serve rest s'
      | error _ => serve rest s
      | untyped => None
      end
  end.

(** The references of the session point to objects of the right class,
    each field to an object of its own. *)
Definition well_formed (s : AppState) : Prop :=
  Heap.well_formed (fields (state_config s)) (state_background s)
    (state_heap s) /\
  NoDup (fields (state_config s)).

End web_fields.

(* ===================================================================== *)
(** ** web/app.py: the export of one badge *)
(* ===================================================================== *)

Module web_single.
Import csv_data.

(** What the handler answers: the file of a finished export, or an error
    status (500 for an exception that escapes). *)
Inductive response :=
| sent (r : pdf_export.run)
| error (status : Z).

(** The temporary table with the one row [row_idx]. *)
Definition temp_csv (csv : CSVData) (row_idx : Z) : Py.result CSVData :=
  row ← list_getitem (rows csv) row_idx;
  Py.Ok {| headers := headers csv; rows := [row]; file_path := "" |}.

(** [export_single_pdf]: [export_pdf] on the temporary table, without
    callbacks. *)
Definition export_single_pdf (env : Env) (s : web_fields.AppState)
  (csv : CSVData) (output_path : string) (row_idx : Z) : response :=
  if negb (web_rows.is_loaded csv) then error 400
  else if (row_idx <? 0) || (row_idx >=? row_count csv) then error 404
  else
    match temp_csv csv row_idx with
    | Py.Raise _ => error 500
    | Py.Ok temp =>
        let r := pdf_export.export_pdf env (web_fields.state_config s) temp
                   output_path (web_fields.state_background s)
                   {| pdf_export.on_progress := false;
                      pdf_export.is_cancelled := None |}
                   (web_fields.state_heap s) in
        match pdf_export.raised r with
        | Some _ => error 500
        | None => sent r
        end
    end.

End web_single.

(* ===================================================================== *)
(** ** web/app.py: the settings of the template *)
(* ===================================================================== *)

Module web_config.
Import badge_config.

(** The keys [update_config] goes through. *)
Definition CONFIG_KEYS : list string :=
  ["badges_per_row"; "badges_per_col"; "page_size"; "margin_mm";
   "spacing_mm"; "badge_width"; "badge_height"]%string.

(** [update_config]: for each of the seven keys that [data] has,
    [setattr(state.config, key, data[key])]; [None] when a value has not
    the annotated type of its attribute. *)
Definition update_config (data : gmap string json) (config : BadgeConfig)
  : option BadgeConfig :=
  badges_per_row ← serial.attr data "badges_per_row" serial.as_int
                     (badges_per_row config);
  badges_per_col ← serial.attr data "badges_per_col" serial.as_int
                     (badges_per_col config);
  page_size ← serial.attr data "page_size" serial.as_str (page_size config);
  margin_mm ← serial.attr data "margin_mm" serial.as_float (margin_mm config);
  spacing_mm ← serial.attr data "spacing_mm" serial.as_float
                 (spacing_mm config);
  badge_width ← serial.attr data "badge_width" serial.as_int
                  (badge_width config);
  badge_height ← serial.attr data "badge_height" serial.as_int
                   (badge_height config);
  Some {| background_image_path := background_image_path config;
          badge_width := badge_width; badge_height := badge_height;
          fields := fields config;
          badges_per_row := badges_per_row; badges_per_col := badges_per_col;
          page_size := page_size; margin_mm := margin_mm;
          spacing_mm := spacing_mm |}.

End web_config.

(* ===================================================================== *)
(** ** Python floats as they are: IEEE 754 binary64

    The modules above read the [float] arithmetic of the program over the
    rationals.  This module gives the same computations with every
    operation rounded to binary64 (round to nearest, ties to even), after
    the executable specification [SpecFloat] of the standard library.  It
    is used where rounding decides whether a statement about the program
    holds. *)
(* ===================================================================== *)

Module binary64.
Import badge_config.

Definition prec : Z := 53.
Definition emax : Z := 1024.

(** A Python [float]. *)
Definition float : Type := spec_float.

(** The number a finite float stands for. *)
Definition to_Q (x : float) : Q :=
  match x with
  | S754_finite s m e =>
      (inject_Z (if s then Z.neg m else Z.pos m) * Qpower 2 e)%Q
  | _ => 0%Q
  end.

Definition is_zero (x : float) : bool :=
  match x with
  | S754_zero _ => true
  | _ => false
  end.

(** The float nearest to an integer. *)
Definition of_Z (n : Z) : float := binary_normalize prec emax n 0 false.

(** Python's conversion of an [int] operand to [float]: it raises
    [OverflowError] for an integer beyond the range of binary64. *)
Definition of_int (n : Z) : Py.result float :=
  match of_Z n with
  | S754_infinity _ => Py.Raise Py.OverflowError
  | x => Py.Ok x
  end.

(** The float nearest to the quotient of two integers other than 0. *)
Definition quotient (a b : Z) : float :=
  let '(q, e, l) := SFdiv_core_binary prec emax (Z.abs a) 0 (Z.abs b) 0 in
  binary_round_aux prec emax (xorb (a <? 0) (b <? 0)) q e l.

(** The float nearest to a rational: what a decimal literal denotes, and
    what a [float] attribute holds. *)
Definition nearest (q : Q) : float :=
  if Qnum q =? 0 then S754_zero false else quotient (Qnum q) (Z.pos (Qden q)).

(** Python [a / b] on two [int]s: the quotient of the integers, rounded
    once. *)
Definition int_truediv (a b : Z) : Py.result float :=
  if b =? 0 then Py.Raise Py.ZeroDivisionError
  else if a =? 0 then Py.Ok (S754_zero (b <? 0))
  else match quotient a b with
       | S754_infinity _ => Py.Raise Py.OverflowError
       | x => Py.Ok x
       end.

Definition add (x y : float) : float := SFadd prec emax x y.
Definition sub (x y : float) : float := SFsub prec emax x y.
Definition mul (x y : float) : float := SFmul prec emax x y.

(** Python [x / y] on two [float]s. *)
Definition truediv (x y : float) : Py.result float :=
  if is_zero y then Py.Raise Py.ZeroDivisionError
  else Py.Ok (SFdiv prec emax x y).

(** Python [x / 2]. *)
Definition half (x : float) : float := SFdiv prec emax x (of_Z 2).

(** Python [x < y]. *)
Definition ltb (x y : float) : bool := SFltb x y.

(** Python [min(a, b)] and [max(a, b)]. *)
Definition min (a b : float) : float := if ltb b a then b else a.
Definition max (a b : float) : float := if ltb a b then b else a.

(** *** utils/image_utils.py *)

Definition compute_scale_factor
  (image_width image_height canvas_width canvas_height : Z)
  : Py.result float :=
  if (image_width <=? 0) || (image_height <=? 0) then Py.Ok (of_Z 1)
  else
    scale_x ← int_truediv canvas_width image_width;
    scale_y ← int_truediv canvas_height image_height;
    Py.Ok (min scale_x scale_y).

(** *** reportlab.lib.units and reportlab.lib.pagesizes

    [inch = 72.0], [cm = inch / 2.54], [mm = cm * 0.1];
    [letter = (8.5*inch, 11*inch)], [A4 = (210*mm, 297*mm)]. *)
Definition inch : float := of_Z 72.
Definition cm : float := SFdiv prec emax inch (nearest (254 # 100)).
Definition mm : float := mul cm (nearest (1 # 10)).
Definition letter : float * float :=
  (mul (nearest (85 # 10)) inch, mul (of_Z 11) inch).
Definition A4 : float * float := (mul (of_Z 210) mm, mul (of_Z 297) mm).

(** *** export/pdf_export.py *)

Definition _get_page_size (name : string) : float * float :=
  if String.eqb (pdf_export.lower name) "a4" then A4 else letter.

Record layout := {
  page_w : float;
  page_h : float;
  margin : float;
  spacing : float;
  cols : Z;
  rows : Z;
  cell_w : float;
  cell_h : float;
  draw_w : float;
  draw_h : float;
  badges_per_page : Z
}.

(** Lines 34-60 of [export_pdf]; the two lengths in millimetres are the
    floats nearest to the values of the configuration. *)
Definition export_layout (config : BadgeConfig) : Py.result layout :=
  let '(page_w, page_h) := _get_page_size (page_size config) in
  let margin := mul (nearest (margin_mm config)) mm in
  let spacing := mul (nearest (spacing_mm config)) mm in
  let usable_w := sub page_w (mul (of_Z 2) margin) in
  let usable_h := sub page_h (mul (of_Z 2) margin) in
  let cols := badges_per_row config in
  let rows := badges_per_col config in
  gaps_w ← of_int (cols - 1);
  fcols ← of_int cols;
  cell_w ← truediv (sub usable_w (mul gaps_w spacing)) fcols;
  gaps_h ← of_int (rows - 1);
  frows ← of_int rows;
  cell_h ← truediv (sub usable_h (mul gaps_h spacing)) frows;
  badge_aspect ← int_truediv (badge_width config)
                    (Z.max (badge_height config) 1);
  cell_aspect ← truediv cell_w (max cell_h (of_Z 1));
  '(draw_w, draw_h) ←
    (if ltb cell_aspect badge_aspect then
       draw_h ← truediv cell_w badge_aspect;
       Py.Ok (cell_w, draw_h)
     else Py.Ok (mul cell_h badge_aspect, cell_h));
  Py.Ok {| page_w := page_w; page_h := page_h;
           margin := margin; spacing := spacing;
           cols := cols; rows := rows;
           cell_w := cell_w; cell_h := cell_h;
           draw_w := draw_w; draw_h := draw_h;
           badges_per_page := cols * rows |}.

(** Position of badge [i] on its page (lines 79-85).  The column and the
    line are below [cols] and [rows], which [export_layout] has converted
    to [float] already. *)
Definition position (lay : layout) (i : Z) : float * float :=
  let page_idx := i mod badges_per_page lay in
  let col := page_idx mod cols lay in
  let row_on_page := page_idx / cols lay in
  let x := add (add (margin lay)
                  (mul (of_Z col) (add (cell_w lay) (spacing lay))))
             (half (sub (cell_w lay) (draw_w lay))) in
  let y := add (sub (sub (sub (page_h lay) (margin lay))
                       (mul (of_Z (row_on_page + 1)) (cell_h lay)))
                  (mul (of_Z row_on_page) (spacing lay)))
             (half (sub (cell_h lay) (draw_h lay))) in
  (x, y).

(** *** gui/canvas_editor.py *)

Record view := {
  _scale : float;
  _offset_x : float;
  _offset_y : float
}.

(** Lines 109-118 of [refresh]. *)
Definition refresh (config : BadgeConfig) (winfo_width winfo_height : Z)
  : Py.result view :=
  let cw := canvas_editor.or_int winfo_width canvas_editor.CANVAS_MAX_W in
  let ch := canvas_editor.or_int winfo_height canvas_editor.CANVAS_MAX_H in
  let bw := badge_width config in
  let bh := badge_height config in
  scale ← compute_scale_factor bw bh (cw - 20) (ch - 20);
  fbw ← of_int bw;
  fcw ← of_int cw;
  fbh ← of_int bh;
  fch ← of_int ch;
  Py.Ok {| _scale := scale;
           _offset_x := half (sub fcw (mul fbw scale));
           _offset_y := half (sub fch (mul fbh scale)) |}.

(** The right edge [x2 = x1 + bw * self._scale] of the badge border
    (lines 137-139). *)
Definition border_x2 (config : BadgeConfig) (v : view) : float :=
  add (_offset_x v) (mul (of_Z (badge_width config)) (_scale v)).

End binary64.

(* ===================================================================== *)
(** ** gui/canvas_editor.py: searching the table

    [str.lower] follows the Unicode tables; the functions below take the
    lowering function as their first argument [lower], and what is proved
    about them holds for every such function. *)
(* ===================================================================== *)

Module editor_search.

(** Python [needle in hay] on two strings. *)
Fixpoint contains (needle hay : string) : bool :=
  String.prefix needle hay ||
  match hay with
  | EmptyString => false
  | String _ rest => contains needle rest
  end.

(** [term_lower in val.lower()] for one of [row.values()].  A value that is
    not a [str], the [None] of a short line or the list of a long one, has
    no method [lower]: the call raises [AttributeError]. *)
Definition value_matches (lower : string -> string) (term_lower : string)
  (val : csv_data.item) : Py.result bool :=
  match val with
  | csv_data.Field _ (csv_data.Str s) => Py.Ok (contains term_lower (lower s))
  | csv_data.Field _ csv_data.PyNone => Py.Raise Py.AttributeError
  | csv_data.Rest _ => Py.Raise Py.AttributeError
  end.

(** The loop over [row.values()], left at the first value that matches. *)
Fixpoint row_matches (lower : string -> string) (term_lower : string)
  (row : csv_data.row) : Py.result bool :=
  match row with
  | [] => Py.Ok false
  | val :: rest =>
      m ← value_matches lower term_lower val;
      if m : bool then Py.Ok true else row_matches lower term_lower rest
  end.

(** The loop over [enumerate(rows)], counting from [i]. *)
Fixpoint matches_from (lower : string -> string) (term_lower : string)
  (i : Z) (rows : list csv_data.row) : Py.result (list Z) :=
  match rows with
  | [] => Py.Ok []
  | row :: rest =>
      m ← row_matches lower term_lower row;
      ms ← matches_from lower term_lower (i + 1) rest;
      Py.Ok ((if m : bool then [i] else []) ++ ms)
  end.

Definition _build_search_results (lower : string -> string)
  (csv : csv_data.CSVData) (term : string) : Py.result (list Z) :=
  matches_from lower (lower term) 0 (csv_data.rows csv).

(** The attributes [current_row] and [_search_result_idx] of the editor. *)
Record position := {
  current_row : Z;
  _search_result_idx : Z
}.

(** [_goto_search_result]. *)
Definition _goto_search_result (results : list Z) (idx : Z) (st : position)
  : Py.result position :=
  row ← csv_data.list_getitem results idx;
  Py.Ok {| current_row := row; _search_result_idx := idx |}.

(** [_search_next]; [term] is the content of the search box, stripped. *)
Definition _search_next (lower : string -> string) (csv : csv_data.CSVData)
  (term : string) (st : position) : Py.result position :=
  if negb (Py.truthy term) then Py.Ok st
  else
    results ← _build_search_results lower csv term;
    match results with
    | [] => Py.Ok {| current_row := current_row st; _search_result_idx := -1 |}
    | _ :: _ =>
        let idx :=
          match list_find (fun row_idx => current_row st < row_idx) results with
          | Some (i, _) => Z.of_nat i
          | None => 0
          end in
        _goto_search_result results idx st
    end.

(** [_search_prev]: the results are tried from the last one down. *)
Definition _search_prev (lower : string -> string) (csv : csv_data.CSVData)
  (term : string) (st : position) : Py.result position :=
  if negb (Py.truthy term) then Py.Ok st
  else
    results ← _build_search_results lower csv term;
    match results with
    | [] => Py.Ok {| current_row := current_row st; _search_result_idx := -1 |}
    | _ :: _ =>
        let last := Z.of_nat (length results) - 1 in
        let idx :=
          match list_find (fun row_idx => row_idx < current_row st)
                  (reverse results) with
          | Some (k, _) => last - Z.of_nat k
          | None => last
          end in
        _goto_search_result results idx st
    end.

(** Row [j] of the table has a value that contains the term, case
    ignored. *)
Definition hit (lower : string -> string) (csv : csv_data.CSVData)
  (term : string) (j : Z) : Prop :=
  0 <= j /\
  exists row, csv_data.rows csv !! Z.to_nat j = Some row /\
              row_matches lower (lower term) row = Py.Ok true.

(** Every value of every row is a [str]: no line of the file was shorter
    or longer than the header line. *)
Definition text_row (row : csv_data.row) : Prop :=
  Forall (fun val => exists key s, val = csv_data.Field key (csv_data.Str s))
    row.

Definition text_table (csv : csv_data.CSVData) : Prop :=
  Forall text_row (csv_data.rows csv).

(** The scan of the row reaches a value that is not a [str]. *)
Definition row_fails (lower : string -> string) (term : string)
  (row : csv_data.row) : Prop :=
  row_matches lower (lower term) row = Py.Raise Py.AttributeError.

End editor_search.

(* ===================================================================== *)
(** * Properties *)
(* ===================================================================== *)

(** ** Rational arithmetic *)

Lemma truediv_ok (a b : Q) :
  ~ (b == 0)%Q -> Py.truediv a b = Py.Ok (a / b)%Q.
Proof.
  intros Hb. unfold Py.truediv.
  destruct (Qeq_bool b 0) eqn:E; [|reflexivity].
  apply Qeq_bool_iff in E. contradiction.
Qed.


Lemma inject_Z_pos (n : Z) : 0 < n -> (0 < inject_Z n)%Q.
Proof. intros H. change 0%Q with (inject_Z 0). rewrite <- Zlt_Qlt. exact H. Qed.

Lemma pos_nonzero (a : Q) : (0 < a)%Q -> ~ (a == 0)%Q.
Proof. intros H. apply Qnot_eq_sym, Qlt_not_eq, H. Qed.

Lemma py_min_Qmin (a b : Q) : (Py.min a b == Qmin a b)%Q.
Proof.
  unfold Py.min. destruct (Qlt_le_dec b a) as [H|H].
  - symmetry. apply Q.min_r. apply Qlt_le_weak, H.
  - symmetry. apply Q.min_l. exact H.
Qed.

Lemma div_mul_cancel (a c : Q) : (0 < a)%Q -> (a * (c / a) == c)%Q.
Proof. intros Ha. field. intros E. rewrite E in Ha. apply (Qlt_irrefl 0), Ha. Qed.

Lemma div_mul_le (a b c d : Q) :
  (0 < a)%Q -> (0 < b)%Q -> (c / a <= d / b)%Q -> (b * (c / a) <= d)%Q.
Proof.
  intros Ha Hb H.
  rewrite <- (div_mul_cancel b d Hb).
  apply Qmult_le_l; assumption.
Qed.

(** ** utils/image_utils.py *)

Lemma int_truediv_no_zero_division (a b : Z) :
  b <> 0 -> binary64.int_truediv a b <> Py.Raise Py.ZeroDivisionError.
Proof.
  intros Hb. unfold binary64.int_truediv.
  destruct (Z.eqb_spec b 0) as [?|_]; [contradiction|].
  destruct (a =? 0); [discriminate|].
  destruct (binary64.quotient a b); discriminate.
Qed.

(** With a non-positive width or height the binary64 function returns 1.0;
    otherwise it returns the smaller of the two rounded quotients, and the
    only exception it can raise is the [OverflowError] of a quotient beyond
    the range of binary64: it never divides by zero. *)
Lemma compute_scale_factor_binary64 (iw ih cw ch : Z) :
  ((iw <= 0 \/ ih <= 0) ->
     binary64.compute_scale_factor iw ih cw ch = Py.Ok (binary64.of_Z 1)) /\
  binary64.compute_scale_factor iw ih cw ch <> Py.Raise Py.ZeroDivisionError /\
  (0 < iw -> 0 < ih ->
   forall s, binary64.compute_scale_factor iw ih cw ch = Py.Ok s ->
     exists scale_x scale_y,
       binary64.int_truediv cw iw = Py.Ok scale_x /\
       binary64.int_truediv ch ih = Py.Ok scale_y /\
       s = binary64.min scale_x scale_y).
Proof.
  unfold binary64.compute_scale_factor. split; [|split].
  - intros [H|H].
    + apply Z.leb_le in H. rewrite H. reflexivity.
    + apply Z.leb_le in H. rewrite H, orb_true_r. reflexivity.
  - destruct (Z.leb_spec iw 0) as [?|Hw]; [discriminate|].
    destruct (Z.leb_spec ih 0) as [?|Hh]; [discriminate|]. cbn [orb].
    pose proof (int_truediv_no_zero_division cw iw ltac:(lia)) as Hx.
    pose proof (int_truediv_no_zero_division ch ih ltac:(lia)) as Hy.
    destruct (binary64.int_truediv cw iw) as [sx|ex]; cbn;
      [|congruence].
    destruct (binary64.int_truediv ch ih) as [sy|ey]; cbn;
      [discriminate|congruence].
  - intros Hw Hh s.
    destruct (Z.leb_spec iw 0) as [?|_]; [lia|].
    destruct (Z.leb_spec ih 0) as [?|_]; [lia|]. cbn [orb].
    destruct (binary64.int_truediv cw iw) as [sx|ex]; cbn; [|discriminate].
    destruct (binary64.int_truediv ch ih) as [sy|ey]; cbn; [|discriminate].
    intros [= <-]. eauto.
Qed.

(** C5, in exact arithmetic.  [compute_scale_factor] never divides by
    zero.  With a non-positive image width or height it returns 1.0 (also
    in binary64).  With positive image width and height it returns the
    minimum of [canvas_width / image_width] and
    [canvas_height / image_height]; when the quotients and the products are
    not rounded, the scaled image then fits the canvas in both directions
    and fills it exactly in one of them.  In binary64 the function returns
    the smaller of the two rounded quotients and still never divides by
    zero. *)
Theorem compute_scale_factor_fits (iw ih cw ch : Z) :
  ((iw <= 0 \/ ih <= 0) ->
     image_utils.compute_scale_factor iw ih cw ch = Py.Ok 1%Q /\
     binary64.compute_scale_factor iw ih cw ch = Py.Ok (binary64.of_Z 1)) /\
  (0 < iw -> 0 < ih ->
     (exists s : Q,
        image_utils.compute_scale_factor iw ih cw ch = Py.Ok s /\
        (s == Qmin (inject_Z cw / inject_Z iw) (inject_Z ch / inject_Z ih))%Q /\
        (inject_Z iw * s <= inject_Z cw)%Q /\
        (inject_Z ih * s <= inject_Z ch)%Q /\
        ((inject_Z iw * s == inject_Z cw)%Q \/
         (inject_Z ih * s == inject_Z ch)%Q)) /\
     binary64.compute_scale_factor iw ih cw ch
       <> Py.Raise Py.ZeroDivisionError /\
     (forall s, binary64.compute_scale_factor iw ih cw ch = Py.Ok s ->
        exists scale_x scale_y,
          binary64.int_truediv cw iw = Py.Ok scale_x /\
          binary64.int_truediv ch ih = Py.Ok scale_y /\
          s = binary64.min scale_x scale_y)).
Proof.
  destruct (compute_scale_factor_binary64 iw ih cw ch) as (B1 & B2 & B3).
  unfold image_utils.compute_scale_factor. split.
  - intros H. split; [|apply B1, H]. destruct H as [H|H].
    + apply Z.leb_le in H. rewrite H. reflexivity.
    + apply Z.leb_le in H. rewrite H, orb_true_r. reflexivity.
  - intros Hw Hh. split; [|split; [exact B2|exact (B3 Hw Hh)]].
    pose proof (inject_Z_pos _ Hw) as Hqw.
    pose proof (inject_Z_pos _ Hh) as Hqh.
    destruct (iw <=? 0) eqn:E1; [apply Z.leb_le in E1; lia|].
    destruct (ih <=? 0) eqn:E2; [apply Z.leb_le in E2; lia|].
    cbn [orb].
    rewrite !truediv_ok by (intros E; rewrite E in *; eapply Qlt_irrefl; eassumption).
    cbn.
    eexists; split; [reflexivity|].
    split; [apply py_min_Qmin|].
    unfold Py.min.
    destruct (Qlt_le_dec (inject_Z ch / inject_Z ih) (inject_Z cw / inject_Z iw)) as [L|L].
    + repeat split.
      * apply div_mul_le; [assumption..|]. apply Qlt_le_weak, L.
      * rewrite div_mul_cancel by assumption. apply Qle_refl.
      * right. apply div_mul_cancel; assumption.
    + repeat split.
      * rewrite div_mul_cancel by assumption. apply Qle_refl.
      * apply div_mul_le; assumption.
      * left. apply div_mul_cancel; assumption.
Qed.

(** A portrait image in a landscape canvas, and an image without width. *)
Lemma compute_scale_factor_fits_witness :
  (image_utils.compute_scale_factor 0 600 680 480 = Py.Ok 1%Q /\
   binary64.compute_scale_factor 0 600 680 480 = Py.Ok (binary64.of_Z 1)) /\
  exists s : Q,
    image_utils.compute_scale_factor 1050 600 680 480 = Py.Ok s /\
    (s == Qmin (inject_Z 680 / inject_Z 1050) (inject_Z 480 / inject_Z 600))%Q /\
    (inject_Z 1050 * s <= inject_Z 680)%Q /\
    (inject_Z 600 * s <= inject_Z 480)%Q /\
    ((inject_Z 1050 * s == inject_Z 680)%Q \/ (inject_Z 600 * s == inject_Z 480)%Q).
Proof.
  split.
  - apply (proj1 (compute_scale_factor_fits 0 600 680 480)). left. lia.
  - apply (proj1 (proj2 (compute_scale_factor_fits 1050 600 680 480)
                    ltac:(lia) ltac:(lia))).
Defined.

(** C5 as stated fails in the arithmetic the code runs in.  For a
    1050 x 600 image and a 320 x 480 canvas the scale is the float nearest
    to 320/1050, which lies above 320/1050: the product [1050 * scale] is
    320.00000000000006, more than the canvas width, as Python computes it
    and as an exact product; the height [600 * scale] stays far below 480,
    so neither direction is filled exactly. *)
Lemma compute_scale_factor_overshoots :
  exists s : binary64.float,
    binary64.compute_scale_factor 1050 600 320 480 = Py.Ok s /\
    binary64.ltb (binary64.of_Z 320)
      (binary64.mul (binary64.of_Z 1050) s) = true /\
    (inject_Z 320 < inject_Z 1050 * binary64.to_Q s)%Q /\
    binary64.ltb (binary64.mul (binary64.of_Z 600) s)
      (binary64.of_Z 480) = true /\
    (inject_Z 600 * binary64.to_Q s < inject_Z 480)%Q.
Proof.
  eexists. split; [vm_compute; reflexivity|].
  repeat split; vm_compute; reflexivity.
Qed.

(** C6.  For a positive scale, [canvas_to_image] undoes [image_to_canvas]
    (in exact arithmetic); for a zero scale it returns (0, 0) and does not
    divide. *)
Theorem canvas_to_image_roundtrip (a b scale offset_x offset_y : Q) :
  ((0 < scale)%Q ->
     exists a' b' : Q,
       (let '(cx, cy) := image_utils.image_to_canvas a b scale offset_x offset_y in
        image_utils.canvas_to_image cx cy scale offset_x offset_y)
       = Py.Ok (a', b') /\ (a' == a)%Q /\ (b' == b)%Q) /\
  ((scale == 0)%Q ->
     image_utils.canvas_to_image a b scale offset_x offset_y = Py.Ok (0%Q, 0%Q)).
Proof.
  unfold image_utils.image_to_canvas, image_utils.canvas_to_image. split.
  - intros Hs.
    assert (Hne : ~ (scale == 0)%Q).
    { intros E. rewrite E in Hs. apply (Qlt_irrefl 0), Hs. }
    destruct (Qeq_bool scale 0) eqn:E; [apply Qeq_bool_iff in E; contradiction|].
    rewrite !truediv_ok by assumption. cbn.
    do 2 eexists. split; [reflexivity|]. split; field; assumption.
  - intros Hs. apply Qeq_bool_iff in Hs. rewrite Hs. reflexivity.
Qed.

(** The editor's default preview, and a degenerate scale. *)
Lemma canvas_to_image_roundtrip_witness :
  (exists a' b' : Q,
     (let '(cx, cy) := image_utils.image_to_canvas 525 100 (2 # 3) 10 40 in
      image_utils.canvas_to_image cx cy (2 # 3) 10 40)
     = Py.Ok (a', b') /\ (a' == 525)%Q /\ (b' == 100)%Q) /\
  image_utils.canvas_to_image 525 100 (0 # 7) 10 40 = Py.Ok (0%Q, 0%Q).
Proof.
  split.
  - apply (proj1 (canvas_to_image_roundtrip 525 100 (2 # 3) 10 40)). reflexivity.
  - apply (proj2 (canvas_to_image_roundtrip 525 100 (0 # 7) 10 40)). reflexivity.
Defined.

(** ** The heap *)

Ltac unfold_bind := unfold mbind, result_bind, Py.bind in *.

Lemma Ok_inj {A} (a b : A) : Py.Ok a = Py.Ok b -> a = b.
Proof. congruence. Qed.

Lemma bind_inv {A B} (m : Py.result A) (k : A -> Py.result B) (b : B) :
  m ≫= k = Py.Ok b -> exists a, m = Py.Ok a /\ k a = Py.Ok b.
Proof. destruct m as [a|e]; [eauto|discriminate]. Qed.

Lemma alloc_spec (o : obj) (h h' : heap) (l : loc) :
  Heap.alloc o h = (l, h') -> h !! l = None /\ h' = <[l := o]> h.
Proof.
  unfold Heap.alloc. intros [= <- <-]. split; [|reflexivity].
  apply not_elem_of_dom, is_fresh.
Qed.

Lemma unchanged_refl (h : heap) : Heap.unchanged h h.
Proof. intros l _. reflexivity. Qed.

Lemma unchanged_trans (h1 h2 h3 : heap) :
  Heap.unchanged h1 h2 -> Heap.unchanged h2 h3 -> Heap.unchanged h1 h3.
Proof.
  intros H12 H23 l Hl. rewrite H23, H12; auto. rewrite H12; auto.
Qed.

Lemma unchanged_alloc (o : obj) (h h' : heap) (l : loc) :
  Heap.alloc o h = (l, h') -> Heap.unchanged h h'.
Proof.
  intros Ha. apply alloc_spec in Ha as [Hl ->]. intros l' [o' Hl'].
  apply lookup_insert_ne. intros <-. congruence.
Qed.


Lemma get_image_Some (h : heap) (l : loc) (im : PIL.Image) :
  Heap.get_image h l = Py.Ok im <-> h !! l = Some (ObjImage im).
Proof.
  unfold Heap.get_image. destruct (h !! l) as [[?|?]|]; split; congruence.
Qed.

Lemma get_field_Some (h : heap) (l : loc) (fp : badge_config.FieldPlacement) :
  Heap.get_field h l = Py.Ok fp <-> h !! l = Some (ObjField fp).
Proof.
  unfold Heap.get_field. destruct (h !! l) as [[?|?]|]; split; congruence.
Qed.

(** ** models/csv_data.py *)

Lemma list_getitem_in_range {A} (l : list A) (i : Z) :
  0 <= i < Z.of_nat (length l) ->
  exists a, l !! Z.to_nat i = Some a /\ csv_data.list_getitem l i = Py.Ok a.
Proof.
  intros Hi. unfold csv_data.list_getitem.
  destruct (i <? 0) eqn:E; [apply Z.ltb_lt in E; lia|]. rewrite E.
  destruct (lookup_lt_is_Some_2 l (Z.to_nat i)) as [a Ha]; [lia|].
  exists a. rewrite Ha. auto.
Qed.

Lemma get_value_total (csv : csv_data.CSVData) (i : Z) (column : string) :
  exists s, csv_data.get_value csv i column = Py.Ok s.
Proof.
  unfold csv_data.get_value.
  destruct ((0 <=? i) && (i <? Z.of_nat (length (csv_data.rows csv)))) eqn:E;
    [|eauto].
  apply andb_true_iff in E as [E1 E2].
  apply Z.leb_le in E1. apply Z.ltb_lt in E2.
  destruct (list_getitem_in_range (csv_data.rows csv) i) as (row & _ & ->); [lia|].
  cbn. eauto.
Qed.

Lemma get_value_out_of_range (csv : csv_data.CSVData) (i : Z) (column : string) :
  i < 0 \/ csv_data.row_count csv <= i ->
  csv_data.get_value csv i column = Py.Ok (csv_data.Str "").
Proof.
  unfold csv_data.get_value, csv_data.row_count. intros Hi.
  destruct ((0 <=? i) && (i <? Z.of_nat (length (csv_data.rows csv)))) eqn:E;
    [|reflexivity].
  apply andb_true_iff in E as [E1 E2].
  apply Z.leb_le in E1. apply Z.ltb_lt in E2. lia.
Qed.

(** ** export/badge_renderer.py: what a render changes *)

Lemma _draw_field_empty (env : Env) (draw fp : loc) (text : csv_data.cell)
  (h : heap) :
  csv_data.truthy text = false ->
  badge_renderer._draw_field env draw fp text h = Py.Ok h.
Proof.
  destruct text as [s|]; [|reflexivity]. cbn. intros ->. reflexivity.
Qed.

Lemma _draw_field_frame (env : Env) (draw fp : loc) (text : csv_data.cell)
  (h h' : heap) :
  badge_renderer._draw_field env draw fp text h = Py.Ok h' ->
  (forall l, l <> draw -> h' !! l = h !! l) /\
  (forall im, h !! draw = Some (ObjImage im) ->
     exists im', h' !! draw = Some (ObjImage im')).
Proof.
  unfold badge_renderer._draw_field.
  destruct text as [text|]; [|intros [= <-]; eauto].
  destruct (negb (Py.truthy text)).
  - intros [= <-]. eauto.
  - unfold_bind.
    destruct (Heap.get_field h fp); [|discriminate].
    destruct (Heap.get_image h draw); [|discriminate].
    intros [= <-]. split.
    + intros l Hl. apply lookup_insert_ne. congruence.
    + intros im _. rewrite lookup_insert_eq. eauto.
Qed.

Lemma draw_fields_frame (env : Env) (csv : csv_data.CSVData) (i : Z)
  (draw : loc) (fps : list loc) (h h' : heap) :
  badge_renderer.draw_fields env csv i draw fps h = Py.Ok h' ->
  (forall l, l <> draw -> h' !! l = h !! l) /\
  (forall im, h !! draw = Some (ObjImage im) ->
     exists im', h' !! draw = Some (ObjImage im')).
Proof.
  revert h. induction fps as [|fp fps IH]; intros h; cbn.
  - intros [= <-]. eauto.
  - unfold_bind.
    destruct (Heap.get_field h fp); [|discriminate].
    destruct (csv_data.get_value csv i _); [|discriminate].
    destruct (badge_renderer._draw_field env draw fp a0 h) as [h1|] eqn:E;
      [|discriminate].
    intros Hrest. apply _draw_field_frame in E as [E1 E2].
    apply IH in Hrest as [R1 R2]. split.
    + intros l Hl. rewrite R1, E1; auto.
    + intros im Him. destruct (E2 im Him) as [im1 Him1]. eauto.
Qed.

Lemma badge_base_fresh (env : Env) (config : badge_config.BadgeConfig)
  (background : option loc) (h h1 : heap) (badge : loc) :
  badge_renderer.badge_base env config background h = Py.Ok (badge, h1) ->
  h !! badge = None /\ Heap.unchanged h h1 /\
  exists im, h1 !! badge = Some (ObjImage im).
Proof.
  unfold badge_renderer.badge_base.
  assert (Hnew : forall im h0,
    Heap.unchanged h h0 ->
    Heap.alloc (ObjImage im) h0 = (badge, h1) ->
    h !! badge = None /\ Heap.unchanged h h1 /\
    exists im', h1 !! badge = Some (ObjImage im')).
  { intros im h0 Hu Ha. pose proof (unchanged_alloc _ _ _ _ Ha) as Hu'.
    apply alloc_spec in Ha as [Hl ->]. split; [|split].
    - destruct (h !! badge) eqn:E; [|reflexivity].
      rewrite <- Hl, Hu; eauto.
    - eapply unchanged_trans; eassumption.
    - rewrite lookup_insert_eq. eauto. }
  destruct background as [bg|].
  - unfold_bind. destruct (Heap.get_image h bg) as [im|]; [|discriminate].
    destruct (Heap.alloc (ObjImage im) h) as [c hc] eqn:Ec.
    intros E%Ok_inj. eapply Hnew; [|exact E]. eapply unchanged_alloc, Ec.
  - destruct (Py.truthy _); [destruct (image_open env _) as [opened|]|].
    + destruct (Heap.alloc (ObjImage opened) h) as [o ho] eqn:Eo.
      destruct (Heap.alloc _ ho) as [c hc] eqn:Ec.
      intros E%Ok_inj. eapply Hnew; [|exact E].
      eapply unchanged_trans; eapply unchanged_alloc; eassumption.
    + intros E%Ok_inj. eapply Hnew; [|exact E]. apply unchanged_refl.
    + intros E%Ok_inj. eapply Hnew; [|exact E]. apply unchanged_refl.
Qed.

Lemma render_badge_fresh (env : Env) (config : badge_config.BadgeConfig)
  (csv : csv_data.CSVData) (i : Z) (background : option loc)
  (h h' : heap) (badge : loc) :
  badge_renderer.render_badge env config csv i background h = Py.Ok (badge, h') ->
  h !! badge = None /\ Heap.unchanged h h' /\
  exists im, h' !! badge = Some (ObjImage im).
Proof.
  unfold badge_renderer.render_badge. unfold_bind.
  destruct (badge_renderer.badge_base env config background h) as [[b h1]|] eqn:Eb;
    [|discriminate].
  destruct (badge_renderer.draw_fields env csv i b _ h1) as [h2|] eqn:Ed;
    [|discriminate].
  intros [= <- <-].
  apply badge_base_fresh in Eb as (Hb & Hu & im & Him).
  apply draw_fields_frame in Ed as [D1 D2].
  split; [exact Hb|]. split; [|eauto].
  intros l Hl. rewrite D1; [auto|].
  intros ->. destruct Hl as [? ?]. congruence.
Qed.

(** ** export/badge_renderer.py: auto-shrink *)

Lemma shrink_loop_unfold (env : Env) (fp : badge_config.FieldPlacement)
  (text : string) (s : badge_renderer.shrink_state) :
  badge_renderer.shrink_loop env fp text s =
  if Z_gt_dec (badge_renderer.text_width s) (badge_config.max_width fp) then
    if Z_gt_dec (badge_renderer.effective_size s) 8 then
      let size' := badge_renderer.effective_size s - 1 in
      let font' := badge_renderer._load_font env fp (Some size') in
      badge_renderer.shrink_loop env fp text
        {| badge_renderer.font := font';
           badge_renderer.effective_size := size';
           badge_renderer.text_width := badge_renderer.text_width_of env text font';
           badge_renderer.iterations := S (badge_renderer.iterations s) |}
    else s
  else s.
Proof.
  funelim (badge_renderer.shrink_loop env fp text s).
  all: rewrite <- ?Heqcall; clear Heqcall.
  all: repeat match goal with
         | H : Z_gt_dec _ _ = _ |- _ => rewrite H; clear H
         end; reflexivity.
Qed.


Lemma truthy_nonempty (s : string) : s <> ""%string -> Py.truthy s = true.
Proof. destruct s; [congruence|reflexivity]. Qed.

(** A non-empty text is always drawn, with the font the loop ended with. *)
Lemma _draw_field_draws (env : Env) (draw fp : loc) (text : string) (h : heap)
  (f : badge_config.FieldPlacement) (im : PIL.Image) :
  h !! fp = Some (ObjField f) ->
  h !! draw = Some (ObjImage im) ->
  text <> ""%string ->
  badge_renderer._draw_field env draw fp (csv_data.Str text) h =
  Py.Ok (<[draw := ObjImage (PIL.text im
           {| PIL.tc_xy := (badge_config.x f, badge_config.y f);
              PIL.tc_text := text;
              PIL.tc_fill := badge_config.font_color f;
              PIL.tc_font := badge_renderer.font (badge_renderer.auto_shrink env f text);
              PIL.tc_anchor :=
                Py.dict_get badge_renderer.anchor_map (badge_config.alignment f) "mt"
           |})]> h).
Proof.
  intros Hf Hd Ht. unfold badge_renderer._draw_field.
  rewrite (truthy_nonempty _ Ht). cbn [negb].
  apply get_field_Some in Hf. apply get_image_Some in Hd.
  unfold_bind. rewrite Hf, Hd. reflexivity.
Qed.




(** ** export/badge_renderer.py: alignment *)

Lemma shrink_loop_alignment (env : Env) (a : string)
  (f : badge_config.FieldPlacement) (text : string)
  (s : badge_renderer.shrink_state) :
  badge_renderer.shrink_loop env (badge_config.with_alignment a f) text s =
  badge_renderer.shrink_loop env f text s.
Proof.
  remember (Z.to_nat (badge_renderer.effective_size s - 8)) as n eqn:Hn.
  revert s Hn. induction n as [n IH] using lt_wf_ind. intros s Hn.
  rewrite (shrink_loop_unfold env f),
    (shrink_loop_unfold env (badge_config.with_alignment a f)).
  change (badge_config.max_width (badge_config.with_alignment a f))
    with (badge_config.max_width f).
  destruct (Z_gt_dec _ _); [|reflexivity].
  destruct (Z_gt_dec _ _); [|reflexivity].
  cbv zeta. eapply IH; [|reflexivity]. subst n. cbn. lia.
Qed.

Lemma auto_shrink_alignment (env : Env) (a : string)
  (f : badge_config.FieldPlacement) (text : string) :
  badge_renderer.auto_shrink env (badge_config.with_alignment a f) text =
  badge_renderer.auto_shrink env f text.
Proof.
  unfold badge_renderer.auto_shrink.
  change (badge_config.max_width (badge_config.with_alignment a f))
    with (badge_config.max_width f).
  destruct (_ >? 0); [|reflexivity].
  apply shrink_loop_alignment.
Qed.

Lemma anchor_default (a : string) :
  a <> "left"%string -> a <> "center"%string -> a <> "right"%string ->
  Py.dict_get badge_renderer.anchor_map a "mt" = "mt"%string.
Proof.
  intros Hl Hc Hr. unfold Py.dict_get, badge_renderer.anchor_map.
  rewrite !lookup_insert_ne by congruence.
  rewrite lookup_singleton_ne by congruence. reflexivity.
Qed.

(** C10.  A field whose alignment is none of "left", "center", "right" is
    drawn without error, with the anchor "mt": exactly as the same field
    with the alignment "center" is, whatever the cell holds. *)
Theorem unknown_alignment_is_center (env : Env) (draw fp fpc : loc)
  (text : csv_data.cell) (h : heap) (f : badge_config.FieldPlacement)
  (im : PIL.Image) :
  badge_config.alignment f <> "left"%string ->
  badge_config.alignment f <> "center"%string ->
  badge_config.alignment f <> "right"%string ->
  h !! fp = Some (ObjField f) ->
  h !! fpc = Some (ObjField (badge_config.with_alignment "center" f)) ->
  h !! draw = Some (ObjImage im) ->
  (exists h', badge_renderer._draw_field env draw fp text h = Py.Ok h') /\
  badge_renderer._draw_field env draw fp text h =
    badge_renderer._draw_field env draw fpc text h /\
  (csv_data.truthy text = true ->
     exists call,
       badge_renderer._draw_field env draw fp text h =
         Py.Ok (<[draw := ObjImage (PIL.text im call)]> h) /\
       PIL.tc_anchor call = "mt"%string).
Proof.
  intros Hl Hc Hr Hfp Hfpc Hdraw.
  destruct (csv_data.truthy text) eqn:Et.
  2:{ rewrite !_draw_field_empty by assumption.
      split; [eauto|]. split; [reflexivity|]. congruence. }
  destruct text as [text|]; [|discriminate].
  assert (Ht : text <> ""%string) by (intros ->; discriminate).
  - rewrite (_draw_field_draws env draw fp text h f im) by assumption.
    rewrite (_draw_field_draws env draw fpc text h
               (badge_config.with_alignment "center" f) im) by assumption.
    rewrite auto_shrink_alignment. cbn [badge_config.with_alignment
      badge_config.x badge_config.y badge_config.font_color badge_config.alignment].
    rewrite anchor_default by assumption.
    split; [eauto|]. split; [reflexivity|].
    intros _. eexists. split; [reflexivity|reflexivity].
Qed.

(** The caption aligned "justify", next to a centred copy of it. *)
Lemma unknown_alignment_is_center_witness :
  let h : heap :=
    <[4%positive := ObjField (badge_config.with_alignment "center" sample.small_field)]>
      sample.objects in
  (exists h', badge_renderer._draw_field sample.env 3 2 (csv_data.Str "Ann") h
              = Py.Ok h') /\
  badge_renderer._draw_field sample.env 3 2 (csv_data.Str "Ann") h =
    badge_renderer._draw_field sample.env 3 4 (csv_data.Str "Ann") h /\
  (csv_data.truthy (csv_data.Str "Ann") = true ->
     exists call,
       badge_renderer._draw_field sample.env 3 2 (csv_data.Str "Ann") h =
         Py.Ok (<[3%positive := ObjImage (PIL.text sample.background call)]> h) /\
       PIL.tc_anchor call = "mt"%string).
Proof.
  cbv zeta.
  apply (unknown_alignment_is_center sample.env 3 2 4 (csv_data.Str "Ann") _
           sample.small_field
           sample.background).
  - discriminate.
  - discriminate.
  - discriminate.
  - reflexivity.
  - reflexivity.
  - reflexivity.
Defined.

(** ** Reading a cell outside the table *)

Lemma draw_fields_out_of_range (env : Env) (csv : csv_data.CSVData) (i : Z)
  (draw : loc) (fps : list loc) (h : heap) :
  i < 0 \/ csv_data.row_count csv <= i ->
  Forall (fun l => exists fp, h !! l = Some (ObjField fp)) fps ->
  badge_renderer.draw_fields env csv i draw fps h = Py.Ok h.
Proof.
  intros Hi. induction 1 as [|l fps [fp Hl] _ IH]; [reflexivity|].
  cbn. apply get_field_Some in Hl. unfold_bind. rewrite Hl.
  rewrite get_value_out_of_range by assumption.
  rewrite _draw_field_empty by reflexivity. exact IH.
Qed.

Lemma badge_base_ok (env : Env) (config : badge_config.BadgeConfig)
  (background : option loc) (h : heap) :
  (forall bg, background = Some bg -> exists im, h !! bg = Some (ObjImage im)) ->
  exists badge h1,
    badge_renderer.badge_base env config background h = Py.Ok (badge, h1).
Proof.
  intros Hbg. unfold badge_renderer.badge_base.
  destruct background as [bg|].
  - destruct (Hbg bg eq_refl) as [im Him]. apply get_image_Some in Him.
    unfold_bind. rewrite Him.
    destruct (Heap.alloc (ObjImage im) h) as [c hc].
    destruct (Heap.alloc _ hc) as [b hb]. eauto.
  - destruct (Py.truthy _); [destruct (image_open env _)|].
    + destruct (Heap.alloc _ h) as [o ho].
      destruct (Heap.alloc _ ho) as [c hc].
      destruct (Heap.alloc _ hc) as [b hb]. eauto.
    + destruct (Heap.alloc _ h) as [b hb]. eauto.
    + destruct (Heap.alloc _ h) as [b hb]. eauto.
Qed.

(** C8.  The claim is what the docstring of [get_value] promises
    ("returning empty string for missing data"), and the code misses it for
    a line with fewer fields than the header line: [load] keeps the
    dictionary [csv.DictReader] builds, which holds [None] under the
    headers left over, and [get_value] hands that [None] out.  For the
    file with the two lines [Name,Email] and [Ada], the cell of row 0 under
    [Email] is [None], not a string. *)
Theorem get_value_none_for_short_line :
  let csv := csv_data.load [["Name"; "Email"]; ["Ada"]]%string "people.csv" in
  csv_data.headers csv = ["Name"; "Email"]%string /\
  csv_data.rows csv =
    [[csv_data.Field "Name" (csv_data.Str "Ada");
      csv_data.Field "Email" csv_data.PyNone]] /\
  csv_data.get_value csv 0 "Name" = Py.Ok (csv_data.Str "Ada") /\
  csv_data.get_value csv 0 "Email" = Py.Ok csv_data.PyNone.
Proof. cbv zeta. repeat split; reflexivity. Qed.

(** [get_value] never raises.  It returns the empty string when the row
    dictionary has no such key and when the index is outside the table;
    otherwise it returns what the row holds under the key.  Rendering a row
    outside the table therefore succeeds, and yields the canvas base with
    no text on it. *)
Theorem get_value_never_raises (csv : csv_data.CSVData) (i : Z) (column : string) :
  (exists c, csv_data.get_value csv i column = Py.Ok c) /\
  (forall row,
     0 <= i -> csv_data.rows csv !! Z.to_nat i = Some row ->
     csv_data.row_lookup row column = None ->
     csv_data.get_value csv i column = Py.Ok (csv_data.Str "")) /\
  (forall row c,
     0 <= i -> csv_data.rows csv !! Z.to_nat i = Some row ->
     csv_data.row_lookup row column = Some c ->
     csv_data.get_value csv i column = Py.Ok c) /\
  (i < 0 \/ csv_data.row_count csv <= i ->
     csv_data.get_value csv i column = Py.Ok (csv_data.Str "")) /\
  (forall env config background h,
     i < 0 \/ csv_data.row_count csv <= i ->
     Heap.well_formed (badge_config.fields config) background h ->
     exists badge h',
       badge_renderer.render_badge env config csv i background h = Py.Ok (badge, h') /\
       badge_renderer.badge_base env config background h = Py.Ok (badge, h')).
Proof.
  assert (Hin : forall row,
            0 <= i -> csv_data.rows csv !! Z.to_nat i = Some row ->
            csv_data.get_value csv i column =
              Py.Ok (csv_data.row_get row column (csv_data.Str ""))).
  { intros row Hi Hrow.
    assert (Hlen : i < Z.of_nat (length (csv_data.rows csv))).
    { apply lookup_lt_Some in Hrow. lia. }
    destruct (list_getitem_in_range (csv_data.rows csv) i) as (row' & Hrow' & Hget);
      [lia|].
    assert (row' = row) as -> by congruence.
    unfold csv_data.get_value.
    destruct (0 <=? i) eqn:E1; [|apply Z.leb_gt in E1; lia].
    destruct (i <? _) eqn:E2; [|apply Z.ltb_ge in E2; lia].
    cbn [andb]. rewrite Hget. reflexivity. }
  split; [apply get_value_total|]. split; [|split; [|split]].
  - intros row Hi Hrow Hcol. rewrite (Hin row Hi Hrow).
    unfold csv_data.row_get. rewrite Hcol. reflexivity.
  - intros row c Hi Hrow Hcol. rewrite (Hin row Hi Hrow).
    unfold csv_data.row_get. rewrite Hcol. reflexivity.
  - apply get_value_out_of_range.
  - intros env config background h Hi [Hfields Hbg].
    destruct (badge_base_ok env config background h Hbg) as (badge & h1 & Hbase).
    exists badge, h1. split; [|exact Hbase].
    unfold badge_renderer.render_badge. unfold_bind. rewrite Hbase.
    apply badge_base_fresh in Hbase as (_ & Hu & _).
    rewrite draw_fields_out_of_range; [reflexivity|assumption|].
    eapply Forall_impl; [exact Hfields|].
    intros l [fp Hl]. exists fp. rewrite Hu; eauto.
Qed.

(** A column the sheet does not have, and the row before the first. *)
Lemma get_value_never_raises_witness :
  csv_data.get_value (sample.sheet 3) 1 "Email" = Py.Ok (csv_data.Str "") /\
  csv_data.get_value (sample.sheet 3) 1 "Name" =
    Py.Ok (csv_data.Str "A VERY LONG NAME THAT MUST SHRINK") /\
  csv_data.get_value (sample.sheet 3) (-1) "Name" = Py.Ok (csv_data.Str "") /\
  exists badge h',
    badge_renderer.render_badge sample.env sample.config (sample.sheet 3) (-1)
      (Some 3%positive) sample.objects = Py.Ok (badge, h') /\
    badge_renderer.badge_base sample.env sample.config (Some 3%positive)
      sample.objects = Py.Ok (badge, h').
Proof.
  split; [|split; [|split]].
  - apply (proj1 (proj2 (get_value_never_raises (sample.sheet 3) 1 "Email"))
             (sample.person "A VERY LONG NAME THAT MUST SHRINK")).
    + lia.
    + reflexivity.
    + reflexivity.
  - apply (proj1 (proj2 (proj2 (get_value_never_raises (sample.sheet 3) 1 "Name")))
             (sample.person "A VERY LONG NAME THAT MUST SHRINK")).
    + lia.
    + reflexivity.
    + reflexivity.
  - apply (proj1 (proj2 (proj2 (proj2
             (get_value_never_raises (sample.sheet 3) (-1) "Name"))))).
    left. lia.
  - apply (proj2 (proj2 (proj2 (proj2
             (get_value_never_raises (sample.sheet 3) (-1) "Name"))))).
    + left. lia.
    + split.
      * repeat constructor; eexists; reflexivity.
      * intros bg [= <-]. eexists. reflexivity.
Defined.

(** ** export/pdf_export.py: the size of a badge on the page *)

Lemma truediv_inv (a b q : Q) :
  Py.truediv a b = Py.Ok q -> ~ (b == 0)%Q /\ q = (a / b)%Q.
Proof.
  unfold Py.truediv. destruct (Qeq_bool b 0) eqn:E; [discriminate|].
  intros [= <-]. split; [|reflexivity].
  intros Hb. apply Qeq_bool_iff in Hb. congruence.
Qed.

Lemma py_max_ge_1 (a : Q) : (1 <= a)%Q -> Py.max a 1 = a.
Proof.
  intros Ha. unfold Py.max. destruct (Qlt_le_dec a 1) as [H|H]; [|reflexivity].
  exfalso. apply (Qlt_irrefl a). eapply Qlt_le_trans; eassumption.
Qed.

(** The wider badge: full cell width, less than the cell height. *)
Lemma fit_wide (cw ch ba : Q) :
  (0 < cw)%Q -> (0 < ch)%Q -> (cw / ch < ba)%Q ->
  (cw / (cw / ba) == ba)%Q /\ (cw / ba < ch)%Q.
Proof.
  intros Hcw Hch Hlt.
  assert (Hq : (0 < cw / ch)%Q).
  { apply Qlt_shift_div_l; [assumption|]. rewrite Qmult_0_l. assumption. }
  assert (Hba : (0 < ba)%Q) by (eapply Qlt_trans; eassumption).
  split.
  - field. split; apply pos_nonzero; assumption.
  - apply Qlt_shift_div_r; [assumption|].
    apply (Qmult_lt_r _ _ ch Hch) in Hlt.
    assert (E : (cw / ch * ch == cw)%Q) by (field; apply pos_nonzero, Hch).
    rewrite E in Hlt. rewrite (Qmult_comm ch ba). exact Hlt.
Qed.

(** The taller badge: full cell height, at most the cell width. *)
Lemma fit_tall (cw ch ba : Q) :
  (0 < ch)%Q -> (ba <= cw / ch)%Q ->
  (ch * ba / ch == ba)%Q /\ (ch * ba <= cw)%Q.
Proof.
  intros Hch Hle.
  pose proof (pos_nonzero ch Hch) as Hne.
  split.
  - field. assumption.
  - apply (Qmult_le_l _ _ ch Hch) in Hle.
    assert (E : (ch * (cw / ch) == cw)%Q) by (field; assumption).
    rewrite E in Hle. exact Hle.
Qed.

(** C7, as the code has it, in exact arithmetic.  For a template of
    positive width and height and a cell of positive width and of height at
    least 1 pt, the drawn size (the quotients and products not rounded) has
    the proportions of the template, fits the cell, and fills the cell in
    one direction at least: the full width with less than the full height,
    or the full height with at most the full width. *)
Theorem export_layout_fits (config : badge_config.BadgeConfig)
  (lay : pdf_export.layout) :
  pdf_export.export_layout config = Py.Ok lay ->
  0 < badge_config.badge_width config ->
  0 < badge_config.badge_height config ->
  (0 < pdf_export.cell_w lay)%Q ->
  (1 <= pdf_export.cell_h lay)%Q ->
  (pdf_export.draw_w lay / pdf_export.draw_h lay ==
   inject_Z (badge_config.badge_width config)
   / inject_Z (badge_config.badge_height config))%Q /\
  (pdf_export.draw_w lay <= pdf_export.cell_w lay)%Q /\
  (pdf_export.draw_h lay <= pdf_export.cell_h lay)%Q /\
  ((pdf_export.draw_w lay = pdf_export.cell_w lay /\
    (pdf_export.draw_h lay < pdf_export.cell_h lay)%Q) \/
   (pdf_export.draw_h lay = pdf_export.cell_h lay /\
    (pdf_export.draw_w lay <= pdf_export.cell_w lay)%Q)).
Proof.
  unfold pdf_export.export_layout.
  destruct (pdf_export._get_page_size _) as [pw ph].
  intros Hlay Hbw Hbh.
  apply bind_inv in Hlay as (cw & Ecw & Hlay).
  apply bind_inv in Hlay as (ch & Ech & Hlay).
  apply bind_inv in Hlay as (ba0 & Eba & Hlay).
  apply bind_inv in Hlay as (ca & Eca & Hlay).
  apply bind_inv in Hlay as ([dw dh] & Edraw & Hlay).
  apply truediv_inv in Eba as [_ ->]. rewrite Z.max_l in * by lia.
  set (ba := (inject_Z (badge_config.badge_width config)
              / inject_Z (badge_config.badge_height config))%Q) in *.
  destruct (Qlt_le_dec ca ba) as [Hlt|Hle].
  - apply bind_inv in Edraw as (dh' & Edh & [= <- <-]).
    injection Hlay as <-. cbn. intros Hcw Hch.
    rewrite py_max_ge_1 in Eca by assumption.
    apply truediv_inv in Eca as [_ ->]. apply truediv_inv in Edh as [_ ->].
    assert (Hch0 : (0 < ch)%Q) by (eapply Qlt_le_trans; [|exact Hch]; reflexivity).
    destruct (fit_wide cw ch ba Hcw Hch0 Hlt) as [R L].
    split; [exact R|]. split; [apply Qle_refl|].
    split; [apply Qlt_le_weak, L|]. left. split; [reflexivity|exact L].
  - injection Edraw as <- <-.
    injection Hlay as <-. cbn. intros Hcw Hch.
    rewrite py_max_ge_1 in Eca by assumption.
    apply truediv_inv in Eca as [_ ->].
    assert (Hch0 : (0 < ch)%Q) by (eapply Qlt_le_trans; [|exact Hch]; reflexivity).
    destruct (fit_tall cw ch ba Hch0 Hle) as [R L].
    split; [exact R|]. split; [exact L|]. split; [apply Qle_refl|].
    right. split; [reflexivity|exact L].
Qed.

(** The default layout: badges of 1050 x 600 in cells of about 275 x 180 pt. *)
Lemma export_layout_fits_witness :
  exists lay,
    pdf_export.export_layout sample.config = Py.Ok lay /\
    (pdf_export.draw_w lay / pdf_export.draw_h lay ==
     inject_Z 1050 / inject_Z 600)%Q /\
    (pdf_export.draw_w lay <= pdf_export.cell_w lay)%Q /\
    (pdf_export.draw_h lay <= pdf_export.cell_h lay)%Q /\
    ((pdf_export.draw_w lay = pdf_export.cell_w lay /\
      (pdf_export.draw_h lay < pdf_export.cell_h lay)%Q) \/
     (pdf_export.draw_h lay = pdf_export.cell_h lay /\
      (pdf_export.draw_w lay <= pdf_export.cell_w lay)%Q)).
Proof.
  eexists. split; [vm_compute; reflexivity|].
  apply (export_layout_fits sample.config).
  - vm_compute. reflexivity.
  - reflexivity.
  - reflexivity.
  - reflexivity.
  - vm_compute. discriminate.
Defined.

(** C7 as stated fails when the template has the proportions of the cell:
    a 612 x 792 badge alone on a letter page without margins is drawn over
    the whole cell, in width and in height. *)
Lemma export_layout_tie :
  exists lay,
    pdf_export.export_layout sample.full_page = Py.Ok lay /\
    0 < badge_config.badge_width sample.full_page /\
    0 < badge_config.badge_height sample.full_page /\
    (0 < pdf_export.cell_w lay)%Q /\
    (0 < pdf_export.cell_h lay)%Q /\
    (pdf_export.draw_w lay == pdf_export.cell_w lay)%Q /\
    (pdf_export.draw_h lay == pdf_export.cell_h lay)%Q /\
    ~ (((pdf_export.draw_w lay == pdf_export.cell_w lay)%Q /\
        (pdf_export.draw_h lay < pdf_export.cell_h lay)%Q) \/
       ((pdf_export.draw_h lay == pdf_export.cell_h lay)%Q /\
        (pdf_export.draw_w lay < pdf_export.cell_w lay)%Q)).
Proof.
  eexists. split; [vm_compute; reflexivity|].
  cbn [pdf_export.cell_w pdf_export.cell_h pdf_export.draw_w pdf_export.draw_h].
  repeat split; try (vm_compute; reflexivity).
  intros [[_ H]|[_ H]]; vm_compute in H; discriminate.
Qed.

(** In binary64 the drawn size can exceed the cell by a rounding error.
    Eleven 17 x 242 badges across a letter page without margins and gaps
    have cells of the badge's proportions; the rounded proportions compare
    equal or lower, the badge gets the cell height 792, and its width
    [792 * (17/242)] is 55.63636363636364, one unit in the last place
    above the cell width 55.63636363636363. *)
Lemma export_layout_rounding :
  exists lay,
    binary64.export_layout sample.eleven_columns = Py.Ok lay /\
    binary64.draw_h lay = binary64.cell_h lay /\
    binary64.ltb (binary64.cell_w lay) (binary64.draw_w lay) = true /\
    (binary64.to_Q (binary64.cell_w lay)
     < binary64.to_Q (binary64.draw_w lay))%Q.
Proof.
  eexists. split; [vm_compute; reflexivity|].
  repeat split; vm_compute; reflexivity.
Qed.

(** In a cell less than 1 pt high the comparison of the proportions uses 1
    for the cell height: a 700 x 1 badge in one of a thousand rows of a
    letter page is drawn higher than its cell. *)
Lemma export_layout_thin_cell :
  exists lay,
    pdf_export.export_layout sample.thin_cells = Py.Ok lay /\
    (0 < pdf_export.cell_h lay)%Q /\
    (pdf_export.cell_h lay < 1)%Q /\
    (pdf_export.cell_h lay < pdf_export.draw_h lay)%Q.
Proof.
  eexists. split; [vm_compute; reflexivity|].
  repeat split; vm_compute; reflexivity.
Qed.

(** ** export/pdf_export.py: the loop *)

Lemma poll_spec (cb : pdf_export.callbacks) (st st1 : pdf_export.state)
  (answer : bool) :
  pdf_export.poll cb st = (answer, st1) ->
  answer = pdf_export.answer_at cb (pdf_export.st_polls st) /\
  pdf_export.st_heap st1 = pdf_export.st_heap st /\
  pdf_export.st_trace st1 =
    pdf_export.st_trace st ++ pdf_export.poll_events cb answer /\
  (forall n j, pdf_export.answer_at cb (pdf_export.st_polls st1 + j)%nat = n ->
               pdf_export.answer_at cb (pdf_export.st_polls st + S j)%nat = n).
Proof.
  unfold pdf_export.poll, pdf_export.answer_at, pdf_export.poll_events.
  destruct (pdf_export.is_cancelled cb) as [f|].
  - intros [= <- <-]. cbn. repeat split.
    intros n j <-. f_equal. lia.
  - intros [= <- <-]. rewrite app_nil_r. repeat split. auto.
Qed.

Lemma export_row_inv (env : Env) (config : badge_config.BadgeConfig)
  (csv : csv_data.CSVData) (background : option loc)
  (cb : pdf_export.callbacks) (lay : pdf_export.layout) (total_rows i : Z)
  (h h' : heap) (evs : list pdf_export.event) :
  pdf_export.export_row env config csv background cb lay total_rows i h
    = Py.Ok (h', evs) ->
  Heap.unchanged h h' /\
  exists rgb, evs = pdf_export.row_events cb lay total_rows i rgb.
Proof.
  unfold pdf_export.export_row. intros H.
  apply bind_inv in H as ([badge h1] & Er & H).
  apply bind_inv in H as (img & _ & H).
  destruct (Heap.alloc _ h1) as [l h2] eqn:Ea.
  injection H as <- <-.
  apply render_badge_fresh in Er as (_ & Hu & _).
  split; [|eauto].
  eapply unchanged_trans; [exact Hu|]. eapply unchanged_alloc, Ea.
Qed.

(** The shape of every run of the loop: [m] full turns, then the end of
    the range, a cancellation, or an exception. *)
Lemma export_loop_shape (env : Env) (config : badge_config.BadgeConfig)
  (csv : csv_data.CSVData) (background : option loc)
  (cb : pdf_export.callbacks) (lay : pdf_export.layout) (total_rows : Z)
  (range : list Z) (st st' : pdf_export.state) (res : option Py.exn) :
  pdf_export.export_loop env config csv background cb lay total_rows range st
    = (st', res) ->
  exists (m : nat) (imgs : list PIL.Image) (tail : list pdf_export.event),
    length imgs = m /\ (m <= length range)%nat /\
    (forall j, (j < m)%nat ->
       pdf_export.answer_at cb (pdf_export.st_polls st + j)%nat = false) /\
    Heap.unchanged (pdf_export.st_heap st) (pdf_export.st_heap st') /\
    pdf_export.st_trace st' =
      pdf_export.st_trace st
      ++ concat (zip_with (pdf_export.completed_row cb lay total_rows)
                   (take m range) imgs)
      ++ tail /\
    ((res = None /\ m = length range /\ tail = []) \/
     (res = None /\ (m < length range)%nat /\
      tail = [pdf_export.IsCancelled true] /\
      pdf_export.answer_at cb (pdf_export.st_polls st + m)%nat = true) \/
     (exists e, res = Some e /\ (m < length range)%nat /\
                tail = pdf_export.poll_events cb false)).
Proof.
  revert st. induction range as [|i rest IH]; intros st; cbn.
  - intros [= <- <-]. exists 0%nat, [], []. cbn. rewrite app_nil_r.
    repeat split; auto using unchanged_refl; lia.
  - destruct (pdf_export.poll cb st) as [answer st1] eqn:Ep.
    apply poll_spec in Ep as (Ha & Hh & Ht & Hshift).
    destruct answer.
    + intros [= <- <-]. exists 0%nat, [], [pdf_export.IsCancelled true].
      cbn. rewrite Nat.add_0_r. rewrite Hh.
      split; [reflexivity|]. split; [lia|]. split; [lia|].
      split; [apply unchanged_refl|]. split.
      * rewrite Ht. unfold pdf_export.poll_events, pdf_export.answer_at in *.
        destruct (pdf_export.is_cancelled cb); [reflexivity|discriminate].
      * right. left. repeat split; auto; lia.
    + destruct (pdf_export.export_row _ _ _ _ _ _ _ _ _) as [[h evs]|e] eqn:Er.
      * intros Hloop. apply IH in Hloop
          as (m & imgs & tail & Hlen & Hm & Hans & Hu & Htr & Hend).
        cbn in *.
        apply export_row_inv in Er as (Hu1 & rgb & ->).
        exists (S m), (rgb :: imgs), tail. cbn.
        split; [lia|]. split; [lia|]. split; [|split; [|split]].
        -- intros [|j] Hj.
           ++ rewrite Nat.add_0_r. auto.
           ++ apply Hshift, Hans. lia.
        -- rewrite <- Hh. eapply unchanged_trans; eassumption.
        -- rewrite Htr, Ht. unfold pdf_export.completed_row.
           rewrite <- !app_assoc. reflexivity.
        -- destruct Hend as [(-> & -> & ->)|[(-> & Hlt & -> & Htrue)|(e & -> & Hlt & ->)]].
           ++ left. auto.
           ++ right. left. split; [reflexivity|]. split; [lia|].
              split; [reflexivity|]. apply Hshift, Htrue.
           ++ right. right. exists e. repeat split; auto; lia.
      * intros [= <- <-]. exists 0%nat, [], (pdf_export.poll_events cb false).
        cbn. rewrite Hh.
        split; [reflexivity|]. split; [lia|]. split; [lia|].
        split; [apply unchanged_refl|]. split; [exact Ht|].
        right. right. exists e. repeat split; auto; lia.
Qed.

(** ** Rendering succeeds on a well-formed heap *)

Lemma _draw_field_ok (env : Env) (draw fp : loc) (text : csv_data.cell)
  (h : heap) (f : badge_config.FieldPlacement) (im : PIL.Image) :
  h !! fp = Some (ObjField f) ->
  h !! draw = Some (ObjImage im) ->
  exists h', badge_renderer._draw_field env draw fp text h = Py.Ok h'.
Proof.
  intros Hf Hd. destruct text as [text|]; [|cbn; eauto].
  destruct (decide (text = ""%string)) as [->|Ht].
  - rewrite _draw_field_empty by reflexivity. eauto.
  - erewrite _draw_field_draws by eassumption. eauto.
Qed.

Lemma draw_fields_ok (env : Env) (csv : csv_data.CSVData) (i : Z)
  (draw : loc) (fps : list loc) (h : heap) (im : PIL.Image) :
  Forall (fun l => exists fp, h !! l = Some (ObjField fp)) fps ->
  h !! draw = Some (ObjImage im) ->
  exists h', badge_renderer.draw_fields env csv i draw fps h = Py.Ok h'.
Proof.
  revert h im. induction fps as [|l fps IH]; intros h im Hfs Hd; cbn; [eauto|].
  inversion Hfs as [|? ? [f Hl] Hrest]; subst.
  pose proof Hl as Hg. apply get_field_Some in Hg. unfold_bind. rewrite Hg.
  destruct (get_value_total csv i (badge_config.csv_column f)) as [text ->].
  destruct (_draw_field_ok env draw l text h f im Hl Hd) as [h1 E].
  rewrite E. apply _draw_field_frame in E as [E1 E2].
  destruct (E2 im Hd) as [im1 Hd1].
  apply (IH h1 im1); [|exact Hd1].
  eapply Forall_impl; [exact Hrest|].
  intros l' [f' Hl']. exists f'. rewrite E1; [exact Hl'|]. congruence.
Qed.

Lemma render_badge_ok (env : Env) (config : badge_config.BadgeConfig)
  (csv : csv_data.CSVData) (i : Z) (background : option loc) (h : heap) :
  Heap.well_formed (badge_config.fields config) background h ->
  exists badge h',
    badge_renderer.render_badge env config csv i background h = Py.Ok (badge, h').
Proof.
  intros [Hfs Hbg].
  destruct (badge_base_ok env config background h Hbg) as (badge & h1 & Hbase).
  unfold badge_renderer.render_badge. unfold_bind. rewrite Hbase.
  apply badge_base_fresh in Hbase as (_ & Hu & im & Him).
  destruct (draw_fields_ok env csv i badge (badge_config.fields config) h1 im)
    as [h2 ->]; [|exact Him|eauto].
  eapply Forall_impl; [exact Hfs|].
  intros l [f Hl]. exists f. rewrite Hu; eauto.
Qed.

Lemma well_formed_unchanged (fps : list loc) (background : option loc)
  (h h' : heap) :
  Heap.unchanged h h' -> Heap.well_formed fps background h ->
  Heap.well_formed fps background h'.
Proof.
  intros Hu [Hfs Hbg]. split.
  - eapply Forall_impl; [exact Hfs|].
    intros l [f Hl]. exists f. rewrite Hu; eauto.
  - intros bg Hb. destruct (Hbg bg Hb) as [im Him].
    exists im. rewrite Hu; eauto.
Qed.

Lemma export_row_ok (env : Env) (config : badge_config.BadgeConfig)
  (csv : csv_data.CSVData) (background : option loc)
  (cb : pdf_export.callbacks) (lay : pdf_export.layout) (total_rows i : Z)
  (h : heap) :
  Heap.well_formed (badge_config.fields config) background h ->
  exists h' evs,
    pdf_export.export_row env config csv background cb lay total_rows i h
      = Py.Ok (h', evs).
Proof.
  intros Hwf. unfold pdf_export.export_row.
  destruct (render_badge_ok env config csv i background h Hwf) as (badge & h1 & E).
  unfold_bind. rewrite E.
  apply render_badge_fresh in E as (_ & _ & im & Him).
  apply get_image_Some in Him. rewrite Him.
  destruct (Heap.alloc _ h1). eauto.
Qed.

(** On a well-formed heap the loop ends without an exception. *)
Lemma export_loop_no_raise (env : Env) (config : badge_config.BadgeConfig)
  (csv : csv_data.CSVData) (background : option loc)
  (cb : pdf_export.callbacks) (lay : pdf_export.layout) (total_rows : Z)
  (range : list Z) (st st' : pdf_export.state) (res : option Py.exn) :
  Heap.well_formed (badge_config.fields config) background (pdf_export.st_heap st) ->
  pdf_export.export_loop env config csv background cb lay total_rows range st
    = (st', res) ->
  res = None.
Proof.
  revert st. induction range as [|i rest IH]; intros st Hwf; cbn.
  - congruence.
  - destruct (pdf_export.poll cb st) as [answer st1] eqn:Ep.
    apply poll_spec in Ep as (_ & Hh & _ & _).
    destruct answer; [congruence|].
    rewrite <- Hh in Hwf.
    destruct (export_row_ok env config csv background cb lay total_rows i
                (pdf_export.st_heap st1) Hwf) as (h' & evs & E).
    rewrite E. apply IH. cbn.
    apply export_row_inv in E as [Hu _].
    eapply well_formed_unchanged; eassumption.
Qed.

(** [export_pdf] returns normally whenever the layout can be computed. *)
Lemma export_pdf_returns (env : Env) (config : badge_config.BadgeConfig)
  (csv : csv_data.CSVData) (output_path : string) (background : option loc)
  (cb : pdf_export.callbacks) (h : heap) (lay : pdf_export.layout) :
  pdf_export.export_layout config = Py.Ok lay ->
  Heap.well_formed (badge_config.fields config) background h ->
  pdf_export.raised
    (pdf_export.export_pdf env config csv output_path background cb h) = None.
Proof.
  intros Hlay Hwf. unfold pdf_export.export_pdf. rewrite Hlay.
  destruct (pdf_export.export_loop _ _ _ _ _ _ _ _ _) as [st res] eqn:E.
  apply export_loop_no_raise in E; [|exact Hwf]. subst res. reflexivity.
Qed.

(** The trace of a call that returned: the canvas, [m] full turns, a
    cancellation unless the range is exhausted, and the save. *)
Lemma export_pdf_shape (env : Env) (config : badge_config.BadgeConfig)
  (csv : csv_data.CSVData) (output_path : string) (background : option loc)
  (cb : pdf_export.callbacks) (h : heap) :
  let r := pdf_export.export_pdf env config csv output_path background cb h in
  let n := csv_data.row_count csv in
  pdf_export.raised r = None ->
  exists lay (m : nat) (imgs : list PIL.Image),
    pdf_export.export_layout config = Py.Ok lay /\
    length imgs = m /\ (m <= Z.to_nat n)%nat /\
    (forall j, (j < m)%nat -> pdf_export.answer_at cb j = false) /\
    Heap.unchanged h (pdf_export.st_heap (pdf_export.final r)) /\
    ((m = Z.to_nat n /\
      pdf_export.st_trace (pdf_export.final r) =
        pdf_export.NewCanvas output_path
          (pdf_export.page_w lay, pdf_export.page_h lay)
        :: concat (zip_with (pdf_export.completed_row cb lay n) (Py.range n) imgs)
        ++ [pdf_export.Save]) \/
     ((m < Z.to_nat n)%nat /\ pdf_export.answer_at cb m = true /\
      pdf_export.st_trace (pdf_export.final r) =
        pdf_export.NewCanvas output_path
          (pdf_export.page_w lay, pdf_export.page_h lay)
        :: concat (zip_with (pdf_export.completed_row cb lay n)
                     (take m (Py.range n)) imgs)
        ++ [pdf_export.IsCancelled true; pdf_export.Save])).
Proof.
  cbv zeta. unfold pdf_export.export_pdf.
  destruct (pdf_export.export_layout config) as [lay|e]; [|discriminate].
  destruct (pdf_export.export_loop _ _ _ _ _ _ _ _ _) as [st res] eqn:E.
  destruct res as [e|]; [discriminate|]. intros _. cbn.
  apply export_loop_shape in E
    as (m & imgs & tail & Hlen & Hm & Hans & Hu & Htr & Hend).
  cbn in *. unfold Py.range in *. rewrite length_seqZ in *.
  exists lay, m, imgs. split; [reflexivity|]. split; [exact Hlen|].
  split; [exact Hm|]. split; [exact Hans|]. split; [exact Hu|].
  destruct Hend as [(_ & -> & ->)|[(_ & Hlt & -> & Htrue)|(e & [=] & _)]].
  - left. split; [reflexivity|]. rewrite Htr.
    rewrite firstn_all2 by (rewrite length_seqZ; lia).
    rewrite app_nil_r. reflexivity.
  - right. split; [exact Hlt|]. split; [exact Htrue|]. rewrite Htr.
    cbn. rewrite <- app_assoc. reflexivity.
Qed.

(** ** Reading the trace of an export *)

Lemma progress_calls_app (t1 t2 : list pdf_export.event) :
  pdf_export.progress_calls (t1 ++ t2) =
  pdf_export.progress_calls t1 ++ pdf_export.progress_calls t2.
Proof. apply omap_app. Qed.

Lemma rendered_rows_app (t1 t2 : list pdf_export.event) :
  pdf_export.rendered_rows (t1 ++ t2) =
  pdf_export.rendered_rows t1 ++ pdf_export.rendered_rows t2.
Proof. apply omap_app. Qed.

(** A full turn of the loop: the check, the render, the placement, the end
    of the page if any, and only then the progress call. *)
Lemma completed_row_order (cb : pdf_export.callbacks) (lay : pdf_export.layout)
  (total_rows i : Z) (rgb : PIL.Image) :
  pdf_export.on_progress cb = true ->
  exists pre d,
    pdf_export.completed_row cb lay total_rows i rgb =
      pre ++ [pdf_export.RenderBadge i; pdf_export.DrawImage d]
      ++ (if (i mod pdf_export.badges_per_page lay
              =? pdf_export.badges_per_page lay - 1)
             && (i <? total_rows - 1)
          then [pdf_export.ShowPage] else [])
      ++ [pdf_export.OnProgress (i + 1)] /\
    pre = pdf_export.poll_events cb false /\
    reportlab.dr_image d = rgb /\
    (reportlab.dr_x d, reportlab.dr_y d) = pdf_export.position lay i /\
    reportlab.dr_width d = pdf_export.draw_w lay /\
    reportlab.dr_height d = pdf_export.draw_h lay.
Proof.
  intros Hon. unfold pdf_export.completed_row, pdf_export.row_events.
  destruct (pdf_export.position lay i) as [px py]. rewrite Hon.
  do 2 eexists. split; [reflexivity|]. cbn. auto.
Qed.

Lemma progress_calls_row (cb : pdf_export.callbacks) (lay : pdf_export.layout)
  (total_rows i : Z) (rgb : PIL.Image) :
  pdf_export.on_progress cb = true ->
  pdf_export.progress_calls (pdf_export.completed_row cb lay total_rows i rgb)
  = [i + 1].
Proof.
  intros Hon.
  destruct (completed_row_order cb lay total_rows i rgb Hon)
    as (pre & d & -> & -> & _).
  unfold pdf_export.poll_events.
  destruct (pdf_export.is_cancelled cb); destruct (_ && _); reflexivity.
Qed.

Lemma rendered_rows_row (cb : pdf_export.callbacks) (lay : pdf_export.layout)
  (total_rows i : Z) (rgb : PIL.Image) :
  pdf_export.rendered_rows (pdf_export.completed_row cb lay total_rows i rgb)
  = [i].
Proof.
  unfold pdf_export.completed_row, pdf_export.row_events, pdf_export.poll_events.
  destruct (pdf_export.position lay i).
  destruct (pdf_export.is_cancelled cb); destruct (_ && _);
    destruct (pdf_export.on_progress cb); reflexivity.
Qed.

Lemma progress_calls_rows (cb : pdf_export.callbacks) (lay : pdf_export.layout)
  (total_rows : Z) (range : list Z) (imgs : list PIL.Image) :
  pdf_export.on_progress cb = true ->
  length imgs = length range ->
  pdf_export.progress_calls
    (concat (zip_with (pdf_export.completed_row cb lay total_rows) range imgs))
  = (fun i => i + 1) <$> range.
Proof.
  intros Hon. revert imgs.
  induction range as [|i range IH]; intros [|rgb imgs] Hlen;
    try discriminate; [reflexivity|].
  cbn. rewrite progress_calls_app, progress_calls_row by assumption.
  rewrite IH by (cbn in Hlen; lia). reflexivity.
Qed.

Lemma rendered_rows_rows (cb : pdf_export.callbacks) (lay : pdf_export.layout)
  (total_rows : Z) (range : list Z) (imgs : list PIL.Image) :
  length imgs = length range ->
  pdf_export.rendered_rows
    (concat (zip_with (pdf_export.completed_row cb lay total_rows) range imgs))
  = range.
Proof.
  revert imgs.
  induction range as [|i range IH]; intros [|rgb imgs] Hlen;
    try discriminate; [reflexivity|].
  cbn. rewrite rendered_rows_app, rendered_rows_row.
  rewrite IH by (cbn in Hlen; lia). reflexivity.
Qed.

Lemma range_succ (n : Z) : (fun i => i + 1) <$> seqZ 0 n = seqZ 1 n.
Proof.
  change 1 with (1 + 0) at 2. rewrite <- fmap_add_seqZ.
  apply list_fmap_ext. intros _ i _. lia.
Qed.

Lemma take_range (m : nat) (n : Z) :
  (m <= Z.to_nat n)%nat -> take m (seqZ 0 n) = seqZ 0 (Z.of_nat m).
Proof.
  intros Hm. apply list_eq. intros j.
  destruct (decide (j < m)%nat) as [Hj|Hj].
  - rewrite lookup_take_lt by assumption.
    rewrite !lookup_seqZ_lt by lia. reflexivity.
  - rewrite lookup_take_ge by lia.
    rewrite lookup_seqZ_ge by lia. reflexivity.
Qed.

Lemma trace_cons_progress (ev : pdf_export.event) (t : list pdf_export.event) :
  (forall n, ev <> pdf_export.OnProgress n) ->
  pdf_export.progress_calls (ev :: t) = pdf_export.progress_calls t.
Proof. intros H. destruct ev; try reflexivity. destruct (H n eq_refl). Qed.

Lemma trace_cons_rendered (ev : pdf_export.event) (t : list pdf_export.event) :
  (forall i, ev <> pdf_export.RenderBadge i) ->
  pdf_export.rendered_rows (ev :: t) = pdf_export.rendered_rows t.
Proof. intros H. destruct ev; try reflexivity. destruct (H row_index eq_refl). Qed.

(** ** export/pdf_export.py: progress and cancellation *)

(** C3.  When [export_pdf] returns without an exception and the
    cancellation flag was never found set, [on_progress] has been called
    once per row, with 1, 2, ..., N in this order; the trace is a sequence
    of N full turns of the loop, and in each turn the progress call comes
    last, after the render and the placement of that row. *)
Theorem on_progress_once_per_row (env : Env) (config : badge_config.BadgeConfig)
  (csv : csv_data.CSVData) (output_path : string) (background : option loc)
  (cb : pdf_export.callbacks) (h : heap) :
  let r := pdf_export.export_pdf env config csv output_path background cb h in
  let n := csv_data.row_count csv in
  let tr := pdf_export.st_trace (pdf_export.final r) in
  pdf_export.on_progress cb = true ->
  pdf_export.never_cancelled cb ->
  pdf_export.raised r = None ->
  pdf_export.progress_calls tr = seqZ 1 n /\
  length (pdf_export.progress_calls tr) = length (csv_data.rows csv) /\
  (forall j, 0 <= j < n ->
     pdf_export.progress_calls tr !! Z.to_nat j = Some (j + 1)) /\
  pdf_export.rendered_rows tr = Py.range n /\
  exists lay imgs,
    pdf_export.export_layout config = Py.Ok lay /\
    length imgs = length (csv_data.rows csv) /\
    tr = pdf_export.NewCanvas output_path
           (pdf_export.page_w lay, pdf_export.page_h lay)
         :: concat (zip_with (pdf_export.completed_row cb lay n) (Py.range n) imgs)
         ++ [pdf_export.Save] /\
    forall i rgb, exists d,
      pdf_export.completed_row cb lay n i rgb =
        pdf_export.poll_events cb false
        ++ [pdf_export.RenderBadge i; pdf_export.DrawImage d]
        ++ (if (i mod pdf_export.badges_per_page lay
                =? pdf_export.badges_per_page lay - 1) && (i <? n - 1)
            then [pdf_export.ShowPage] else [])
        ++ [pdf_export.OnProgress (i + 1)].
Proof.
  cbv zeta. intros Hon Hnever Hret.
  destruct (export_pdf_shape env config csv output_path background cb h Hret)
    as (lay & m & imgs & Hlay & Hlen & Hm & _ & _ & Hshape).
  destruct Hshape as [[-> Htr]|(_ & Htrue & _)];
    [|rewrite Hnever in Htrue; discriminate].
  set (n := csv_data.row_count csv) in *.
  assert (Hn : Z.to_nat n = length (csv_data.rows csv)).
  { subst n. unfold csv_data.row_count. lia. }
  assert (Hrange : length imgs = length (Py.range n)).
  { unfold Py.range. rewrite length_seqZ. exact Hlen. }
  assert (Hp : pdf_export.progress_calls
                 (pdf_export.st_trace (pdf_export.final
                    (pdf_export.export_pdf env config csv output_path background cb h)))
               = seqZ 1 n).
  { rewrite Htr. rewrite trace_cons_progress by discriminate.
    rewrite progress_calls_app, progress_calls_rows by assumption.
    cbn. rewrite app_nil_r. apply range_succ. }
  split; [exact Hp|]. split; [rewrite Hp, length_seqZ; exact Hn|].
  split; [intros j Hj; rewrite Hp, lookup_seqZ_lt by lia; f_equal; lia|].
  split.
  - rewrite Htr. rewrite trace_cons_rendered by discriminate.
    rewrite rendered_rows_app, rendered_rows_rows by assumption.
    cbn. apply app_nil_r.
  - exists lay, imgs. split; [exact Hlay|]. split; [lia|]. split; [exact Htr|].
    intros i rgb.
    destruct (completed_row_order cb lay n i rgb Hon) as (pre & d & E & -> & _).
    exists d. exact E.
Qed.

(** Three rows, exported without a cancellation callback. *)
Lemma on_progress_once_per_row_witness :
  let r := pdf_export.export_pdf sample.env sample.config (sample.sheet 3)
             "badges.pdf" (Some 3%positive) sample.quiet sample.objects in
  pdf_export.progress_calls (pdf_export.st_trace (pdf_export.final r)) = [1; 2; 3] /\
  pdf_export.rendered_rows (pdf_export.st_trace (pdf_export.final r)) = [0; 1; 2].
Proof.
  cbv zeta.
  destruct (on_progress_once_per_row sample.env sample.config (sample.sheet 3)
              "badges.pdf" (Some 3%positive) sample.quiet sample.objects)
    as (Hp & _ & _ & Hr & _).
  - reflexivity.
  - intros n. reflexivity.
  - vm_compute. reflexivity.
  - split; [exact Hp|exact Hr].
Defined.

(** A run that is never cancelled and returns has rendered every row. *)
Lemma complete_export_calls (env : Env) (config : badge_config.BadgeConfig)
  (csv : csv_data.CSVData) (output_path : string) (background : option loc)
  (cb : pdf_export.callbacks) (h : heap) :
  let r := pdf_export.export_pdf env config csv output_path background cb h in
  let n := csv_data.row_count csv in
  let tr := pdf_export.st_trace (pdf_export.final r) in
  pdf_export.on_progress cb = true ->
  pdf_export.never_cancelled cb ->
  pdf_export.raised r = None ->
  pdf_export.progress_calls tr = seqZ 1 n /\
  pdf_export.rendered_rows tr = Py.range n.
Proof.
  cbv zeta. intros Hon Hnever Hret.
  destruct (export_pdf_shape env config csv output_path background cb h Hret)
    as (lay & m & imgs & Hlay & Hlen & Hm & _ & _ & Hshape).
  destruct Hshape as [[-> Htr]|(_ & Htrue & _)];
    [|rewrite Hnever in Htrue; discriminate].
  assert (Hrange : length imgs = length (Py.range (csv_data.row_count csv))).
  { unfold Py.range. rewrite length_seqZ. exact Hlen. }
  rewrite Htr. split.
  - rewrite trace_cons_progress by discriminate.
    rewrite progress_calls_app, progress_calls_rows by assumption.
    cbn. rewrite app_nil_r. apply range_succ.
  - rewrite trace_cons_rendered by discriminate.
    rewrite rendered_rows_app, rendered_rows_rows by assumption.
    cbn. apply app_nil_r.
Qed.

(** ** web/app.py: the status of the task *)

Lemma progress_fold (l : list Z) (t : web_app.task) :
  web_app.progress (fold_left web_app.on_progress l t) =
  default (web_app.progress t) (last l).
Proof.
  revert t. induction l as [|a l IH]; intros t; [reflexivity|].
  cbn [fold_left]. rewrite IH, last_cons. destruct (last l); reflexivity.
Qed.

Lemma last_seqZ_1 (n : Z) : 0 <= n -> default 0 (last (seqZ 1 n)) = n.
Proof.
  intros Hn. rewrite last_lookup, length_seqZ.
  destruct (Z.to_nat n) as [|k] eqn:E.
  - cbn. rewrite lookup_seqZ_ge by lia. cbn. lia.
  - cbn [Nat.pred]. rewrite lookup_seqZ_lt by lia. cbn. lia.
Qed.

Lemma status_finish (t : web_app.task) (raised : option Py.exn) :
  web_app.status (web_app.finish t raised) =
    (if raised is None then "done" else "error")%string /\
  web_app.status (web_app.finish t raised) <> "cancelled"%string.
Proof. destruct raised; split; (reflexivity || discriminate). Qed.

(** The task of the web front end ends in "done" or in "error". *)
Lemma run_export_status (env : Env) (config : badge_config.BadgeConfig)
  (csv : csv_data.CSVData) (output_path : string) (bg : option loc) (h : heap) :
  let t := fst (web_app.run_export env config csv output_path bg h) in
  (web_app.status t = "done"%string \/ web_app.status t = "error"%string) /\
  web_app.status t <> "cancelled"%string.
Proof.
  cbv zeta. unfold web_app.run_export. cbn [fst].
  split; [|apply status_finish].
  rewrite (proj1 (status_finish _ _)).
  destruct (pdf_export.raised _); auto.
Qed.

(** When the flag is first found set by the check that follows row [k],
    exactly rows 0 .. k-1 have been rendered and placed and [on_progress]
    has been called with 1 .. k; every row that was started is complete, no
    event of a further row follows, the document is saved and [export_pdf]
    returns. *)
Lemma export_pdf_cancelled (env : Env) (config : badge_config.BadgeConfig)
  (csv : csv_data.CSVData) (output_path : string) (background : option loc)
  (cb : pdf_export.callbacks) (h : heap) (lay : pdf_export.layout) (k : nat) :
  let r := pdf_export.export_pdf env config csv output_path background cb h in
  let n := csv_data.row_count csv in
  let tr := pdf_export.st_trace (pdf_export.final r) in
  pdf_export.export_layout config = Py.Ok lay ->
  Heap.well_formed (badge_config.fields config) background h ->
  pdf_export.on_progress cb = true ->
  pdf_export.cancelled_after cb k ->
  (k < length (csv_data.rows csv))%nat ->
  pdf_export.raised r = None /\
  pdf_export.rendered_rows tr = seqZ 0 (Z.of_nat k) /\
  pdf_export.progress_calls tr = seqZ 1 (Z.of_nat k) /\
  (exists imgs,
     length imgs = k /\
     tr = pdf_export.NewCanvas output_path
            (pdf_export.page_w lay, pdf_export.page_h lay)
          :: concat (zip_with (pdf_export.completed_row cb lay n)
                       (seqZ 0 (Z.of_nat k)) imgs)
          ++ [pdf_export.IsCancelled true; pdf_export.Save]).
Proof.
  cbv zeta. intros Hlay Hwf Hon [Hbefore Hat] Hk.
  pose proof (export_pdf_returns env config csv output_path background cb h lay
                Hlay Hwf) as Hret.
  split; [exact Hret|].
  destruct (export_pdf_shape env config csv output_path background cb h Hret)
    as (lay' & m & imgs & Hlay' & Hlen & Hm & Hans & _ & Hshape).
  assert (lay' = lay) as -> by congruence.
  assert (Hn : Z.to_nat (csv_data.row_count csv) = length (csv_data.rows csv)).
  { unfold csv_data.row_count. lia. }
  assert (Hmk : m = k /\
    pdf_export.st_trace (pdf_export.final
      (pdf_export.export_pdf env config csv output_path background cb h)) =
    pdf_export.NewCanvas output_path (pdf_export.page_w lay, pdf_export.page_h lay)
    :: concat (zip_with (pdf_export.completed_row cb lay (csv_data.row_count csv))
                 (take m (Py.range (csv_data.row_count csv))) imgs)
    ++ [pdf_export.IsCancelled true; pdf_export.Save]).
  { destruct Hshape as [[-> _]|(Hlt & Htrue & Htr)].
    - rewrite Hans in Hat by lia. discriminate.
    - split; [|exact Htr].
      destruct (Nat.lt_trichotomy m k) as [L|[E|L]]; [|exact E|].
      + rewrite Hbefore in Htrue by assumption. discriminate.
      + rewrite Hans in Hat by assumption. discriminate. }
  destruct Hmk as [-> Htr]. clear Hshape.
  unfold Py.range in Htr. rewrite take_range in Htr by lia.
  assert (Hrange : length imgs = length (seqZ 0 (Z.of_nat k))).
  { rewrite length_seqZ. lia. }
  split; [|split].
  - rewrite Htr. rewrite trace_cons_rendered by discriminate.
    rewrite rendered_rows_app, rendered_rows_rows by assumption.
    cbn. apply app_nil_r.
  - rewrite Htr. rewrite trace_cons_progress by discriminate.
    rewrite progress_calls_app, progress_calls_rows by assumption.
    cbn. rewrite app_nil_r. apply range_succ.
  - exists imgs. split; [exact Hlen|exact Htr].
Qed.

(** Without an [is_cancelled] callback the flag is never read. *)
Lemma export_loop_no_polls (env : Env) (config : badge_config.BadgeConfig)
  (csv : csv_data.CSVData) (background : option loc)
  (cb : pdf_export.callbacks) (lay : pdf_export.layout) (total_rows : Z)
  (range : list Z) (st : pdf_export.state) :
  pdf_export.is_cancelled cb = None ->
  pdf_export.st_polls
    (fst (pdf_export.export_loop env config csv background cb lay total_rows
            range st)) = pdf_export.st_polls st.
Proof.
  intros Hcb. revert st. induction range as [|i rest IH]; intros st;
    [reflexivity|].
  cbn [pdf_export.export_loop]. unfold pdf_export.poll. rewrite Hcb.
  destruct (pdf_export.export_row _ _ _ _ _ _ _ _ _) as [[h evs]|e];
    [|reflexivity].
  rewrite IH. reflexivity.
Qed.

Lemma run_export_no_polls (env : Env) (config : badge_config.BadgeConfig)
  (csv : csv_data.CSVData) (output_path : string) (bg : option loc) (h : heap) :
  pdf_export.st_polls
    (pdf_export.final
       (snd (web_app.run_export env config csv output_path bg h))) = 0%nat.
Proof.
  unfold web_app.run_export. cbn [snd]. unfold pdf_export.export_pdf.
  destruct (pdf_export.export_layout config) as [lay|e]; [|reflexivity].
  set (cb := {| pdf_export.on_progress := true;
                pdf_export.is_cancelled := None |}).
  pose proof (export_loop_no_polls env config csv bg cb lay
                (csv_data.row_count csv) (Py.range (csv_data.row_count csv))
                {| pdf_export.st_heap := h;
                   pdf_export.st_trace :=
                     [pdf_export.NewCanvas output_path
                        (pdf_export.page_w lay, pdf_export.page_h lay)];
                   pdf_export.st_polls := 0 |} eq_refl) as Hp.
  destruct (pdf_export.export_loop _ _ _ _ _ _ _ _ _) as [st [e|]];
    cbn in Hp |- *; exact Hp.
Qed.

(** C4.  [export_pdf] checks [is_cancelled] before it renders a row.  In
    the export of the desktop application, the one runner that passes an
    [is_cancelled], let Cancel be pressed when the flag has been read [k]
    times, that is after the check for row [k] (counting from 1) and
    before the check for row [k+1].  Then exactly the rows 0 .. k-1 are
    rendered and placed, [on_progress] is called [k] times, with 1 .. k,
    every row that was started is complete and no event of a further row
    follows; [export_pdf] returns without an exception, the dialog ends
    with [_cancelled] set and no [_error], and [_export_pdf] reports
    "Export cancelled.", not "PDF exported" and no error.  The export task
    of the web application passes no [is_cancelled]: it never reads a flag,
    so a cancellation cannot be requested there. *)
Theorem cancellation_between_rows (env : Env) (config : badge_config.BadgeConfig)
  (csv : csv_data.CSVData) (path : string) (background : option loc)
  (h : heap) (lay : pdf_export.layout) (k : nat) :
  let cb := {| pdf_export.on_progress := true;
               pdf_export.is_cancelled :=
                 Some (gui_export._is_cancelled (Some k)) |} in
  let n := csv_data.row_count csv in
  pdf_export.export_layout config = Py.Ok lay ->
  Heap.well_formed (badge_config.fields config) background h ->
  csv_data.is_loaded csv = true ->
  badge_config.fields config <> [] ->
  path <> ""%string ->
  (k < length (csv_data.rows csv))%nat ->
  (exists r imgs,
     gui_export._export_pdf env config csv path background (Some k) h
       = (Some "Export cancelled."%string, Some r) /\
     r = pdf_export.export_pdf env config csv path background cb h /\
     fst (gui_export.ExportProgressDialog
            (fun cb => pdf_export.export_pdf env config csv path background cb h)
            (Some k))
       = {| gui_export._cancelled := true; gui_export._error := None |} /\
     pdf_export.raised r = None /\
     pdf_export.rendered_rows (pdf_export.st_trace (pdf_export.final r))
       = seqZ 0 (Z.of_nat k) /\
     pdf_export.progress_calls (pdf_export.st_trace (pdf_export.final r))
       = seqZ 1 (Z.of_nat k) /\
     length imgs = k /\
     pdf_export.st_trace (pdf_export.final r)
       = pdf_export.NewCanvas path
           (pdf_export.page_w lay, pdf_export.page_h lay)
         :: concat (zip_with (pdf_export.completed_row cb lay n)
                      (seqZ 0 (Z.of_nat k)) imgs)
         ++ [pdf_export.IsCancelled true; pdf_export.Save]) /\
  (forall env' config' csv' path' bg' h',
     pdf_export.st_polls
       (pdf_export.final
          (snd (web_app.run_export env' config' csv' path' bg' h'))) = 0%nat).
Proof.
  cbv zeta. intros Hlay Hwf Hloaded Hfields Hpath Hk.
  split; [|intros; apply run_export_no_polls].
  set (cb := {| pdf_export.on_progress := true;
                pdf_export.is_cancelled :=
                  Some (gui_export._is_cancelled (Some k)) |}).
  assert (Hc : pdf_export.cancelled_after cb k).
  { split.
    - intros j Hj. cbn. apply Nat.leb_gt. exact Hj.
    - cbn. apply Nat.leb_refl. }
  destruct (export_pdf_cancelled env config csv path background cb h lay k
              Hlay Hwf eq_refl Hc Hk) as (Hret & Hrows & Hprog & imgs & Hlen & Htr).
  exists (pdf_export.export_pdf env config csv path background cb h), imgs.
  split; [|split; [reflexivity|split; [|auto 6]]].
  - unfold gui_export._export_pdf. rewrite Hloaded. cbn [negb].
    destruct (badge_config.fields config) as [|l ls]; [contradiction|].
    rewrite (truthy_nonempty _ Hpath). cbn [negb].
    unfold gui_export.ExportProgressDialog. fold cb.
    cbn [gui_export._error gui_export._cancelled]. rewrite Hret. reflexivity.
  - unfold gui_export.ExportProgressDialog. fold cb. cbn [fst].
    rewrite Hret. reflexivity.
Qed.

(** Cancel is pressed while the first of three rows is rendered. *)
Lemma cancellation_between_rows_witness :
  exists (r : pdf_export.run) (imgs : list PIL.Image),
    gui_export._export_pdf sample.env sample.config (sample.sheet 3)
      "badges.pdf" (Some 3%positive) (Some 1%nat) sample.objects
      = (Some "Export cancelled."%string, Some r) /\
    pdf_export.raised r = None /\
    pdf_export.rendered_rows (pdf_export.st_trace (pdf_export.final r)) = [0] /\
    pdf_export.progress_calls (pdf_export.st_trace (pdf_export.final r)) = [1] /\
    length imgs = 1%nat.
Proof.
  destruct (pdf_export.export_layout sample.config) as [lay|e] eqn:Hlay;
    [|vm_compute in Hlay; discriminate].
  destruct (cancellation_between_rows sample.env sample.config (sample.sheet 3)
              "badges.pdf" (Some 3%positive) sample.objects lay 1 Hlay)
    as [(r & imgs & Hout & _ & _ & Hret & Hrows & Hprog & Hlen & _) _].
  - split.
    + repeat constructor; eexists; reflexivity.
    + intros bg [= <-]. eexists. reflexivity.
  - reflexivity.
  - discriminate.
  - discriminate.
  - cbn. lia.
  - exists r, imgs. repeat split; assumption.
Defined.

(** ** export/pdf_export.py: pages *)

Lemma slot_drawImage_old (c : reportlab.Canvas) (d d' : reportlab.drawn)
  (p s : nat) :
  reportlab.slot c p s = Some d ->
  reportlab.slot (reportlab.drawImage c d') p s = Some d.
Proof.
  unfold reportlab.slot, reportlab.drawImage. cbn.
  destruct (decide (p < length (reportlab.pages c))%nat) as [Hp|Hp].
  - rewrite !lookup_app_l by assumption. auto.
  - rewrite !lookup_app_r by lia.
    destruct (p - length (reportlab.pages c))%nat as [|q]; cbn.
    + intros H. apply lookup_app_l_Some. exact H.
    + auto.
Qed.

Lemma slot_drawImage_new (c : reportlab.Canvas) (d : reportlab.drawn) :
  reportlab.slot (reportlab.drawImage c d)
    (length (reportlab.pages c)) (length (reportlab.page c)) = Some d.
Proof.
  unfold reportlab.slot, reportlab.drawImage. cbn.
  rewrite lookup_app_r by lia. rewrite Nat.sub_diag. cbn.
  rewrite lookup_app_r by lia. rewrite Nat.sub_diag. reflexivity.
Qed.

Lemma slot_showPage (c : reportlab.Canvas) (d : reportlab.drawn) (p s : nat) :
  reportlab.slot c p s = Some d ->
  reportlab.slot (reportlab.showPage c) p s = Some d.
Proof.
  unfold reportlab.slot, reportlab.showPage. cbn.
  destruct ((reportlab.pages c ++ [reportlab.page c]) !! p) as [pg|] eqn:E;
    [|discriminate].
  intros H. rewrite (lookup_app_l_Some _ _ _ _ E). exact H.
Qed.

Lemma slot_save (c : reportlab.Canvas) (d : reportlab.drawn) (p s : nat) :
  reportlab.slot c p s = Some d ->
  exists pg, reportlab.pages (reportlab.save c) !! p = Some pg /\ pg !! s = Some d.
Proof.
  unfold reportlab.slot, reportlab.save, reportlab.showPage.
  destruct (reportlab.page c) as [|d0 pg0] eqn:Epg; cbn.
  - destruct (decide (p < length (reportlab.pages c))%nat) as [Hp|Hp].
    + rewrite lookup_app_l by assumption.
      destruct (reportlab.pages c !! p) as [pg|]; [eauto|discriminate].
    + rewrite lookup_app_r by lia.
      destruct (p - length (reportlab.pages c))%nat; cbn; discriminate.
  - destruct (_ !! p) as [pg|]; [eauto|discriminate].
Qed.

Lemma length_save (c : reportlab.Canvas) :
  length (reportlab.pages (reportlab.save c)) =
  (length (reportlab.pages c)
   + (if reportlab.page c is [] then 0 else 1))%nat.
Proof.
  unfold reportlab.save, reportlab.showPage.
  destruct (reportlab.page c); cbn; [lia|].
  rewrite length_app. reflexivity.
Qed.

(** One full turn of the loop on the canvas. *)
Lemma canvas_row (cb : pdf_export.callbacks) (lay : pdf_export.layout)
  (total_rows i : Z) (rgb : PIL.Image) (c : reportlab.Canvas) :
  exists d,
    (reportlab.dr_x d, reportlab.dr_y d) = pdf_export.position lay i /\
    fold_left pdf_export.canvas_step
      (pdf_export.completed_row cb lay total_rows i rgb) c =
    if (i mod pdf_export.badges_per_page lay
        =? pdf_export.badges_per_page lay - 1) && (i <? total_rows - 1)
    then reportlab.showPage (reportlab.drawImage c d)
    else reportlab.drawImage c d.
Proof.
  unfold pdf_export.completed_row, pdf_export.row_events, pdf_export.poll_events.
  destruct (pdf_export.position lay i) as [px py].
  eexists. split; [|destruct (pdf_export.is_cancelled cb); destruct (_ && _);
                     destruct (pdf_export.on_progress cb); reflexivity].
  reflexivity.
Qed.

Lemma div_mod_succ_full (n b : Z) :
  1 <= b -> 0 <= n -> n mod b = b - 1 ->
  (n + 1) / b = n / b + 1 /\ (n + 1) mod b = 0.
Proof.
  intros Hb Hn Hm. pose proof (Z.div_mod n b ltac:(lia)) as Hdm.
  split; symmetry.
  - apply (Z.div_unique _ _ _ 0); [left; lia|]. lia.
  - apply (Z.mod_unique _ _ (n / b + 1)); [left; lia|]. lia.
Qed.

Lemma div_mod_succ_open (n b : Z) :
  1 <= b -> 0 <= n -> n mod b <> b - 1 ->
  (n + 1) / b = n / b /\ (n + 1) mod b = n mod b + 1.
Proof.
  intros Hb Hn Hm. pose proof (Z.div_mod n b ltac:(lia)) as Hdm.
  pose proof (Z.mod_pos_bound n b ltac:(lia)) as Hbound.
  split; symmetry.
  - apply (Z.div_unique _ _ _ (n mod b + 1)); [left; lia|]. lia.
  - apply (Z.mod_unique _ _ (n / b)); [left; lia|]. lia.
Qed.

Lemma pageCount_cases (c r n : Z) :
  1 <= c -> 1 <= r -> 0 <= n ->
  packing.pageCount c r n =
    n / (c * r) + (if n mod (c * r) =? 0 then 0 else 1).
Proof.
  intros Hc Hr Hn. unfold packing.pageCount, packing.badgesPerPage.
  assert (Hb : 1 <= c * r) by nia. generalize dependent (c * r). intros b Hb.
  pose proof (Z.div_mod n b ltac:(lia)) as Hdm.
  pose proof (Z.mod_pos_bound n b ltac:(lia)) as Hbound.
  destruct (n mod b =? 0) eqn:E.
  - apply Z.eqb_eq in E. symmetry.
    apply (Z.div_unique _ _ _ (b - 1)); [left; lia|]. lia.
  - apply Z.eqb_neq in E. symmetry.
    apply (Z.div_unique _ _ _ (n mod b - 1)); [left; lia|]. lia.
Qed.

Lemma placed_drawImage (lay : pdf_export.layout) (n : Z) (c : reportlab.Canvas)
  (d : reportlab.drawn) :
  0 <= n -> 1 <= pdf_export.badges_per_page lay ->
  packing.packed lay n c ->
  (reportlab.dr_x d, reportlab.dr_y d) = pdf_export.position lay n ->
  packing.placed lay (n + 1) (reportlab.drawImage c d).
Proof.
  intros Hn Hb (Hpages & Hpage & Hplaced) Hd j Hj.
  destruct (decide (j = n)) as [->|Hne].
  - exists d. split; [|exact Hd].
    replace (Z.to_nat (n / pdf_export.badges_per_page lay))
      with (length (reportlab.pages c)) by lia.
    replace (Z.to_nat (n mod pdf_export.badges_per_page lay))
      with (length (reportlab.page c)) by lia.
    apply slot_drawImage_new.
  - destruct (Hplaced j) as (d0 & Hs & Hxy); [lia|].
    exists d0. split; [|exact Hxy]. apply slot_drawImage_old, Hs.
Qed.

Lemma placed_showPage (lay : pdf_export.layout) (n : Z) (c : reportlab.Canvas) :
  packing.placed lay n c -> packing.placed lay n (reportlab.showPage c).
Proof.
  intros Hplaced j Hj. destruct (Hplaced j Hj) as (d & Hs & Hxy).
  exists d. split; [|exact Hxy]. apply slot_showPage, Hs.
Qed.

(** The canvas after the turn of badge [n]: ready for badge [n + 1], or,
    after the last badge when it fills its page, left with that full page. *)
Lemma packed_step (lay : pdf_export.layout) (total_rows n : Z)
  (c : reportlab.Canvas) (d : reportlab.drawn) :
  let bpp := pdf_export.badges_per_page lay in
  let c1 := if (n mod bpp =? bpp - 1) && (n <? total_rows - 1)
            then reportlab.showPage (reportlab.drawImage c d)
            else reportlab.drawImage c d in
  1 <= bpp -> 0 <= n < total_rows ->
  packing.packed lay n c ->
  (reportlab.dr_x d, reportlab.dr_y d) = pdf_export.position lay n ->
  packing.packed lay (n + 1) c1 \/
  (n + 1 = total_rows /\ (n + 1) mod bpp = 0 /\
   packing.placed lay (n + 1) c1 /\
   Z.of_nat (length (reportlab.pages c1)) = (n + 1) / bpp - 1 /\
   Z.of_nat (length (reportlab.page c1)) = bpp).
Proof.
  cbv zeta. intros Hb Hn Hpacked Hd.
  pose proof (placed_drawImage lay n c d (proj1 Hn) Hb Hpacked Hd) as Hplaced.
  destruct Hpacked as (Hpages & Hpage & _).
  destruct (n mod pdf_export.badges_per_page lay
            =? pdf_export.badges_per_page lay - 1) eqn:Efull.
  - apply Z.eqb_eq in Efull.
    destruct (div_mod_succ_full n _ Hb (proj1 Hn) Efull) as [Hdiv Hmod].
    destruct (n <? total_rows - 1) eqn:Elast; cbn [andb].
    + left. split; [|split].
      * cbn. rewrite length_app. cbn. lia.
      * cbn. lia.
      * apply placed_showPage, Hplaced.
    + apply Z.ltb_ge in Elast. right.
      split; [lia|]. split; [exact Hmod|]. split; [exact Hplaced|].
      cbn. rewrite length_app. cbn. lia.
  - apply Z.eqb_neq in Efull. cbn [andb].
    destruct (div_mod_succ_open n _ Hb (proj1 Hn) Efull) as [Hdiv Hmod].
    left. split; [|split].
    + cbn. lia.
    + cbn. rewrite length_app. cbn. lia.
    + exact Hplaced.
Qed.

(** The canvas after the turns of badges [n .. n + k - 1], the last ones of
    the export. *)
Lemma packed_rows (cb : pdf_export.callbacks) (lay : pdf_export.layout)
  (total_rows : Z) (k : nat) :
  let bpp := pdf_export.badges_per_page lay in
  1 <= bpp ->
  forall (n : Z) (imgs : list PIL.Image) (c : reportlab.Canvas),
    0 <= n -> n + Z.of_nat k = total_rows -> length imgs = k ->
    packing.packed lay n c ->
    let c' := fold_left pdf_export.canvas_step
                (concat (zip_with (pdf_export.completed_row cb lay total_rows)
                           (seqZ n (Z.of_nat k)) imgs)) c in
    packing.packed lay total_rows c' \/
    (0 < total_rows /\ total_rows mod bpp = 0 /\
     packing.placed lay total_rows c' /\
     Z.of_nat (length (reportlab.pages c')) = total_rows / bpp - 1 /\
     Z.of_nat (length (reportlab.page c')) = bpp).
Proof.
  cbv zeta. intros Hb. induction k as [|k IH]; intros n imgs c Hn Hsum Hlen Hpacked.
  - cbn. left. replace total_rows with n by lia. exact Hpacked.
  - destruct imgs as [|rgb imgs]; [discriminate|].
    rewrite seqZ_cons by lia. cbn [zip_with concat].
    rewrite fold_left_app.
    destruct (canvas_row cb lay total_rows n rgb c) as (d & Hd & ->).
    replace (Z.pred (Z.of_nat (S k))) with (Z.of_nat k) by lia.
    destruct (packed_step lay total_rows n c d Hb ltac:(lia) Hpacked Hd)
      as [Hnext|(Hend & Hmod & Hplaced & Hpages & Hpage)].
    + apply IH; [lia|lia|cbn in Hlen; lia|exact Hnext].
    + assert (k = 0%nat) as -> by lia.
      destruct imgs; [|discriminate].
      replace (zip_with (pdf_export.completed_row cb lay total_rows)
                 (seqZ (Z.succ n) (Z.of_nat 0)) [])
        with (@nil (list pdf_export.event))
        by (destruct (seqZ _ _); reflexivity).
      cbn [concat fold_left].
      right. rewrite Hend in Hmod, Hplaced, Hpages.
      split; [lia|]. split; [exact Hmod|]. split; [exact Hplaced|].
      split; [exact Hpages|exact Hpage].
Qed.

Lemma export_layout_grid (config : badge_config.BadgeConfig)
  (lay : pdf_export.layout) :
  pdf_export.export_layout config = Py.Ok lay ->
  pdf_export.cols lay = badge_config.badges_per_row config /\
  pdf_export.rows lay = badge_config.badges_per_col config /\
  pdf_export.badges_per_page lay =
    badge_config.badges_per_row config * badge_config.badges_per_col config.
Proof.
  unfold pdf_export.export_layout.
  destruct (pdf_export._get_page_size _) as [pw ph]. intros Hlay.
  apply bind_inv in Hlay as (cw & _ & Hlay).
  apply bind_inv in Hlay as (ch & _ & Hlay).
  apply bind_inv in Hlay as (ba & _ & Hlay).
  apply bind_inv in Hlay as (ca & _ & Hlay).
  apply bind_inv in Hlay as ([dw dh] & _ & Hlay).
  injection Hlay as <-. cbn. auto.
Qed.

Lemma position_corner (config : badge_config.BadgeConfig)
  (lay : pdf_export.layout) (i : Z) :
  pdf_export.export_layout config = Py.Ok lay ->
  pdf_export.position lay i =
  packing.corner lay
    (packing.col (badge_config.badges_per_row config)
       (badge_config.badges_per_col config) i)
    (packing.rowOnPage (badge_config.badges_per_row config)
       (badge_config.badges_per_col config) i).
Proof.
  intros Hlay. apply export_layout_grid in Hlay as (Hc & Hr & Hb).
  unfold pdf_export.position, packing.corner, packing.col, packing.rowOnPage,
    packing.pageLocalIndex, packing.badgesPerPage.
  rewrite Hb, Hc. reflexivity.
Qed.

Lemma pageCount_ceiling (c r n : Z) :
  1 <= c -> 1 <= r -> 0 <= n ->
  packing.pageCount c r n = Qceiling (inject_Z n / inject_Z (c * r)).
Proof.
  intros Hc Hr Hn. rewrite pageCount_cases by assumption.
  assert (Hb : 1 <= c * r) by nia. generalize dependent (c * r). intros b Hb.
  destruct b as [|p|p]; try lia.
  unfold Qceiling, Qdiv, Qinv, Qmult, Qopp, Qfloor, inject_Z. cbn.
  rewrite Z.mul_1_r. change (1 * p)%positive with p.
  pose proof (Z.div_mod n (Z.pos p) ltac:(lia)) as Hdm.
  pose proof (Z.mod_pos_bound n (Z.pos p) ltac:(lia)) as Hbound.
  destruct (n mod Z.pos p =? 0) eqn:E.
  - apply Z.eqb_eq in E.
    rewrite <- (Z.div_unique (- n) (Z.pos p) (- (n / Z.pos p)) 0); lia.
  - apply Z.eqb_neq in E.
    rewrite <- (Z.div_unique (- n) (Z.pos p) (- (n / Z.pos p) - 1)
                  (Z.pos p - n mod Z.pos p)); lia.
Qed.

(** The document of a complete export: its pages, and the slot of every
    badge. *)
Lemma complete_export_document (env : Env) (config : badge_config.BadgeConfig)
  (csv : csv_data.CSVData) (output_path : string) (background : option loc)
  (cb : pdf_export.callbacks) (h : heap) (lay : pdf_export.layout) :
  let r := pdf_export.export_pdf env config csv output_path background cb h in
  let n := csv_data.row_count csv in
  let bpp := pdf_export.badges_per_page lay in
  let doc := pdf_export.document (pdf_export.st_trace (pdf_export.final r)) in
  pdf_export.export_layout config = Py.Ok lay ->
  1 <= bpp ->
  pdf_export.never_cancelled cb ->
  pdf_export.raised r = None ->
  Z.of_nat (length doc) = n / bpp + (if n mod bpp =? 0 then 0 else 1) /\
  forall i, 0 <= i < n ->
    exists pg d,
      doc !! Z.to_nat (i / bpp) = Some pg /\
      pg !! Z.to_nat (i mod bpp) = Some d /\
      (reportlab.dr_x d, reportlab.dr_y d) = pdf_export.position lay i.
Proof.
  cbv zeta. intros Hlay Hb Hnever Hret.
  destruct (export_pdf_shape env config csv output_path background cb h Hret)
    as (lay' & m & imgs & Hlay' & Hlen & Hm & _ & _ & Hshape).
  assert (lay' = lay) as -> by congruence.
  destruct Hshape as [[-> Htr]|(_ & Htrue & _)];
    [|rewrite Hnever in Htrue; discriminate].
  set (n := csv_data.row_count csv) in *.
  assert (Hn : 0 <= n) by (subst n; unfold csv_data.row_count; lia).
  unfold pdf_export.document, pdf_export.canvas_of. rewrite Htr.
  cbn [fold_left pdf_export.canvas_step]. rewrite fold_left_app.
  cbn [fold_left pdf_export.canvas_step].
  assert (H0 : packing.packed lay 0 reportlab.new_canvas).
  { split; [|split].
    - cbn. rewrite Z.div_0_l by lia. reflexivity.
    - cbn. rewrite Z.mod_0_l by lia. reflexivity.
    - intros j Hj. lia. }
  pose proof (packed_rows cb lay n (Z.to_nat n) Hb 0 imgs reportlab.new_canvas
                ltac:(lia) ltac:(lia) Hlen H0) as Hrows.
  cbv zeta in Hrows. rewrite Z2Nat.id in Hrows by lia.
  unfold Py.range.
  set (c' := fold_left pdf_export.canvas_step _ reportlab.new_canvas) in *.
  assert (Hplaced : packing.placed lay n c').
  { destruct Hrows as [(_ & _ & Hp)|(_ & _ & Hp & _)]; exact Hp. }
  split.
  - rewrite length_save.
    destruct Hrows as [(Hpages & Hpage & _)|(Hpos & Hmod & _ & Hpages & Hpage)].
    + destruct (n mod _ =? 0) eqn:E;
        [apply Z.eqb_eq in E|apply Z.eqb_neq in E];
        destruct (reportlab.page c'); cbn [length] in Hpage; lia.
    + rewrite Hmod. change (0 =? 0) with true. cbv iota.
      destruct (reportlab.page c'); cbn [length] in Hpage; lia.
  - intros i Hi. destruct (Hplaced i Hi) as (d & Hs & Hxy).
    apply slot_save in Hs as (pg & Hpg & Hd). eauto.
Qed.

(** C1.  In a complete export with a grid of [cols] x [rows] cells, the
    document has ceil(rowCount / (cols * rows)) pages, and badge [i] is the
    image number [i mod (cols * rows)] of page [i div (cols * rows)], drawn
    at the corner of column [(i mod (cols * rows)) mod cols] and row
    [(i mod (cols * rows)) div cols].  With 2 x 4 cells and 10 rows there
    are 2 pages; badge 7 is the last image of page 0, in column 1 of row 3,
    and badge 8 the first image of page 1, in column 0 of row 0. *)
Theorem export_packs_grid (env : Env) (config : badge_config.BadgeConfig)
  (csv : csv_data.CSVData) (output_path : string) (background : option loc)
  (cb : pdf_export.callbacks) (h : heap) (lay : pdf_export.layout) :
  let cols := badge_config.badges_per_row config in
  let rows := badge_config.badges_per_col config in
  let n := csv_data.row_count csv in
  let r := pdf_export.export_pdf env config csv output_path background cb h in
  let doc := pdf_export.document (pdf_export.st_trace (pdf_export.final r)) in
  pdf_export.export_layout config = Py.Ok lay ->
  1 <= cols -> 1 <= rows ->
  Heap.well_formed (badge_config.fields config) background h ->
  pdf_export.never_cancelled cb ->
  Z.of_nat (length doc) = packing.pageCount cols rows n /\
  packing.pageCount cols rows n =
    Qceiling (inject_Z n / inject_Z (cols * rows)) /\
  (forall i, 0 <= i < n ->
     exists pg d,
       doc !! Z.to_nat (packing.pageIndex cols rows i) = Some pg /\
       pg !! Z.to_nat (packing.pageLocalIndex cols rows i) = Some d /\
       (reportlab.dr_x d, reportlab.dr_y d) =
         packing.corner lay (packing.col cols rows i)
           (packing.rowOnPage cols rows i)) /\
  (cols = 2 -> rows = 4 -> n = 10 ->
     length doc = 2%nat /\
     (exists pg d,
        doc !! 0%nat = Some pg /\ pg !! 7%nat = Some d /\
        (reportlab.dr_x d, reportlab.dr_y d) = packing.corner lay 1 3) /\
     (exists pg d,
        doc !! 1%nat = Some pg /\ pg !! 0%nat = Some d /\
        (reportlab.dr_x d, reportlab.dr_y d) = packing.corner lay 0 0)).
Proof.
  cbv zeta. intros Hlay Hc Hr Hwf Hnever.
  pose proof (export_pdf_returns env config csv output_path background cb h lay
                Hlay Hwf) as Hret.
  pose proof (export_layout_grid config lay Hlay) as (_ & _ & Hbpp).
  assert (Hb : 1 <= pdf_export.badges_per_page lay) by (rewrite Hbpp; nia).
  assert (Hn : 0 <= csv_data.row_count csv)
    by (unfold csv_data.row_count; lia).
  destruct (complete_export_document env config csv output_path background cb h
              lay Hlay Hb Hnever Hret) as [Hlen Hslots].
  rewrite Hbpp in Hlen, Hslots.
  assert (Hall : forall i, 0 <= i < csv_data.row_count csv ->
     exists pg d,
       pdf_export.document (pdf_export.st_trace (pdf_export.final
         (pdf_export.export_pdf env config csv output_path background cb h)))
       !! Z.to_nat (packing.pageIndex (badge_config.badges_per_row config)
                      (badge_config.badges_per_col config) i) = Some pg /\
       pg !! Z.to_nat (packing.pageLocalIndex (badge_config.badges_per_row config)
                         (badge_config.badges_per_col config) i) = Some d /\
       (reportlab.dr_x d, reportlab.dr_y d) =
         packing.corner lay
           (packing.col (badge_config.badges_per_row config)
              (badge_config.badges_per_col config) i)
           (packing.rowOnPage (badge_config.badges_per_row config)
              (badge_config.badges_per_col config) i)).
  { intros i Hi. destruct (Hslots i Hi) as (pg & d & Hpg & Hd & Hxy).
    exists pg, d. split; [exact Hpg|]. split; [exact Hd|].
    rewrite Hxy. apply position_corner, Hlay. }
  split; [rewrite pageCount_cases by assumption; exact Hlen|].
  split; [apply pageCount_ceiling; assumption|].
  split; [exact Hall|].
  intros Ec Er En. rewrite Ec, Er, En in *.
  change (10 / (2 * 4) + (if 10 mod (2 * 4) =? 0 then 0 else 1)) with 2 in Hlen.
  split; [lia|]. split.
  - apply (Hall 7). lia.
  - apply (Hall 8). lia.
Qed.

(** The scenario of the specification: ten rows on the default 2 x 4 grid. *)
Lemma export_packs_grid_witness :
  let r := pdf_export.export_pdf sample.env sample.config (sample.sheet 10)
             "badges.pdf" (Some 3%positive) sample.quiet sample.objects in
  let doc := pdf_export.document (pdf_export.st_trace (pdf_export.final r)) in
  exists lay,
    pdf_export.export_layout sample.config = Py.Ok lay /\
    length doc = 2%nat /\
    (exists pg d,
       doc !! 0%nat = Some pg /\ pg !! 7%nat = Some d /\
       (reportlab.dr_x d, reportlab.dr_y d) = packing.corner lay 1 3) /\
    (exists pg d,
       doc !! 1%nat = Some pg /\ pg !! 0%nat = Some d /\
       (reportlab.dr_x d, reportlab.dr_y d) = packing.corner lay 0 0).
Proof.
  cbv zeta.
  destruct (pdf_export.export_layout sample.config) as [lay|e] eqn:Hlay;
    [|vm_compute in Hlay; discriminate].
  exists lay. split; [reflexivity|].
  apply (export_packs_grid sample.env sample.config (sample.sheet 10)
           "badges.pdf" (Some 3%positive) sample.quiet sample.objects lay Hlay).
  - cbn. lia.
  - cbn. lia.
  - split.
    + repeat constructor; eexists; reflexivity.
    + intros bg [= <-]. eexists. reflexivity.
  - intros k. reflexivity.
  - reflexivity.
  - reflexivity.
  - reflexivity.
Defined.

(** ** What rendering and exporting leave untouched *)

Lemma _draw_field_keeps_field (env : Env) (draw fp : loc)
  (text : csv_data.cell) (h h' : heap) (f : badge_config.FieldPlacement) :
  badge_renderer._draw_field env draw fp text h = Py.Ok h' ->
  h !! fp = Some (ObjField f) ->
  h' !! fp = Some (ObjField f).
Proof.
  intros Hdraw Hf. pose proof Hdraw as Hframe.
  apply _draw_field_frame in Hframe as [Hother _].
  destruct (decide (fp = draw)) as [->|Hne]; [|rewrite Hother; assumption].
  unfold badge_renderer._draw_field in Hdraw.
  destruct text as [text|]; [|congruence].
  destruct (negb (Py.truthy text)); [congruence|].
  apply bind_inv in Hdraw as (f' & _ & Hdraw).
  apply bind_inv in Hdraw as (im & Him & _).
  apply get_image_Some in Him. congruence.
Qed.

Lemma render_badge_background (env : Env) (config : badge_config.BadgeConfig)
  (csv : csv_data.CSVData) (i : Z) (bg : loc) (h h' : heap) (badge : loc) :
  badge_renderer.render_badge env config csv i (Some bg) h = Py.Ok (badge, h') ->
  exists im, h !! bg = Some (ObjImage im).
Proof.
  unfold badge_renderer.render_badge. intros H.
  apply bind_inv in H as ([b h1] & Hbase & _).
  unfold badge_renderer.badge_base in Hbase.
  apply bind_inv in Hbase as (im & Him & _).
  apply get_image_Some in Him. eauto.
Qed.

Lemma export_pdf_unchanged (env : Env) (config : badge_config.BadgeConfig)
  (csv : csv_data.CSVData) (output_path : string) (background : option loc)
  (cb : pdf_export.callbacks) (h : heap) :
  Heap.unchanged h
    (pdf_export.st_heap (pdf_export.final
       (pdf_export.export_pdf env config csv output_path background cb h))).
Proof.
  unfold pdf_export.export_pdf.
  destruct (pdf_export.export_layout config) as [lay|e];
    [|apply unchanged_refl].
  destruct (pdf_export.export_loop _ _ _ _ _ _ _ _ _) as [st res] eqn:E.
  apply export_loop_shape in E as (m & imgs & tail & _ & _ & _ & Hu & _).
  destruct res; exact Hu.
Qed.

(** C9.  [_draw_field] changes no object but the image it draws on: the
    [FieldPlacement] it reads is afterwards what it was before, [font_size]
    included.  [render_badge] returns an image that did not exist before
    the call and leaves every object that did exist as it was, the
    background passed by the caller in particular; so does a whole
    [export_pdf], whatever its outcome. *)
Theorem render_mutates_only_the_badge :
  (forall env draw fp text h h' f,
     badge_renderer._draw_field env draw fp text h = Py.Ok h' ->
     h !! fp = Some (ObjField f) ->
     h' !! fp = Some (ObjField f) /\
     (forall f', h' !! fp = Some (ObjField f') ->
        badge_config.font_size f' = badge_config.font_size f) /\
     (forall l, l <> draw -> h' !! l = h !! l)) /\
  (forall env config csv i bg h badge h',
     badge_renderer.render_badge env config csv i (Some bg) h = Py.Ok (badge, h') ->
     h !! badge = None /\ badge <> bg /\
     h' !! bg = h !! bg /\
     Heap.unchanged h h') /\
  (forall env config csv output_path background cb h,
     Heap.unchanged h
       (pdf_export.st_heap (pdf_export.final
          (pdf_export.export_pdf env config csv output_path background cb h)))).
Proof.
  split; [|split].
  - intros env draw fp text h h' f Hdraw Hf.
    pose proof (_draw_field_keeps_field env draw fp text h h' f Hdraw Hf) as Hkeep.
    split; [exact Hkeep|]. split.
    + intros f' Hf'. congruence.
    + apply _draw_field_frame in Hdraw as [Hother _]. exact Hother.
  - intros env config csv i bg h badge h' Hrender.
    destruct (render_badge_background _ _ _ _ _ _ _ _ Hrender) as [im Hbg].
    apply render_badge_fresh in Hrender as (Hfresh & Hu & _).
    split; [exact Hfresh|]. split; [congruence|]. split; [|exact Hu].
    apply Hu. eauto.
  - apply export_pdf_unchanged.
Qed.

(** The name field drawn on the shared background object, and a badge
    rendered from it. *)
Lemma render_mutates_only_the_badge_witness :
  (exists h',
     badge_renderer._draw_field sample.env 3 1 (csv_data.Str "Ann") sample.objects = Py.Ok h' /\
     h' !! 1%positive = Some (ObjField sample.name_field)) /\
  (exists badge h',
     badge_renderer.render_badge sample.env sample.config (sample.sheet 3) 0
       (Some 3%positive) sample.objects = Py.Ok (badge, h') /\
     badge <> 3%positive /\
     h' !! 3%positive = Some (ObjImage sample.background)).
Proof.
  split.
  - destruct (badge_renderer._draw_field sample.env 3 1 (csv_data.Str "Ann") sample.objects)
      as [h'|e] eqn:E; [|vm_compute in E; discriminate].
    exists h'. split; [reflexivity|].
    destruct (proj1 render_mutates_only_the_badge sample.env 3%positive
                1%positive (csv_data.Str "Ann") sample.objects h' sample.name_field E
                eq_refl) as [Hkeep _].
    exact Hkeep.
  - destruct (badge_renderer.render_badge sample.env sample.config
                (sample.sheet 3) 0 (Some 3%positive) sample.objects)
      as [[badge h']|e] eqn:E; [|vm_compute in E; discriminate].
    exists badge, h'. split; [reflexivity|].
    destruct (proj1 (proj2 render_mutates_only_the_badge) sample.env
                sample.config (sample.sheet 3) 0 3%positive sample.objects
                badge h' E) as (_ & Hne & Hbg & _).
    split; [exact Hne|]. rewrite Hbg. reflexivity.
Defined.

(* ===================================================================== *)
(** * Further properties *)
(* ===================================================================== *)

(** ** export/pdf_export.py: the geometry of a page *)

(** What [export_pdf] has computed when it reaches its loop. *)
Lemma export_layout_inv (config : badge_config.BadgeConfig)
  (lay : pdf_export.layout) :
  pdf_export.export_layout config = Py.Ok lay ->
  (pdf_export.page_w lay, pdf_export.page_h lay)
    = pdf_export._get_page_size (badge_config.page_size config) /\
  pdf_export.margin lay = (badge_config.margin_mm config * reportlab.mm)%Q /\
  pdf_export.spacing lay = (badge_config.spacing_mm config * reportlab.mm)%Q /\
  pdf_export.usable_w lay = (pdf_export.page_w lay - 2 * pdf_export.margin lay)%Q /\
  pdf_export.usable_h lay = (pdf_export.page_h lay - 2 * pdf_export.margin lay)%Q /\
  pdf_export.cols lay = badge_config.badges_per_row config /\
  pdf_export.rows lay = badge_config.badges_per_col config /\
  pdf_export.badges_per_page lay = pdf_export.cols lay * pdf_export.rows lay /\
  ~ (inject_Z (pdf_export.cols lay) == 0)%Q /\
  ~ (inject_Z (pdf_export.rows lay) == 0)%Q /\
  pdf_export.cell_w lay =
    ((pdf_export.usable_w lay
      - inject_Z (pdf_export.cols lay - 1) * pdf_export.spacing lay)
     / inject_Z (pdf_export.cols lay))%Q /\
  pdf_export.cell_h lay =
    ((pdf_export.usable_h lay
      - inject_Z (pdf_export.rows lay - 1) * pdf_export.spacing lay)
     / inject_Z (pdf_export.rows lay))%Q.
Proof.
  unfold pdf_export.export_layout.
  destruct (pdf_export._get_page_size _) as [pw ph]. intros Hlay.
  apply bind_inv in Hlay as (cw & Ecw & Hlay).
  apply bind_inv in Hlay as (ch & Ech & Hlay).
  apply bind_inv in Hlay as (ba & _ & Hlay).
  apply bind_inv in Hlay as (ca & _ & Hlay).
  apply bind_inv in Hlay as ([dw dh] & _ & Hlay).
  apply truediv_inv in Ecw as [Hc ->]. apply truediv_inv in Ech as [Hr ->].
  injection Hlay as <-. cbn. repeat split; assumption.
Qed.

Lemma cells_tile (config : badge_config.BadgeConfig)
  (lay : pdf_export.layout) :
  pdf_export.export_layout config = Py.Ok lay ->
  (inject_Z (pdf_export.cols lay) * pdf_export.cell_w lay
   + inject_Z (pdf_export.cols lay - 1) * pdf_export.spacing lay
   == pdf_export.page_w lay - 2 * pdf_export.margin lay)%Q /\
  (inject_Z (pdf_export.rows lay) * pdf_export.cell_h lay
   + inject_Z (pdf_export.rows lay - 1) * pdf_export.spacing lay
   == pdf_export.page_h lay - 2 * pdf_export.margin lay)%Q.
Proof.
  intros Hlay.
  destruct (export_layout_inv config lay Hlay)
    as (_ & _ & _ & Huw & Huh & _ & _ & _ & Hc & Hr & Hcw & Hch).
  rewrite Hcw, Hch, Huw, Huh. split; field; assumption.
Qed.

(** X1.  The cells of a row and the gaps between them fill the usable
    width exactly, and so do the cells of a column for the usable height:
    nothing of the area between the margins is left over. *)
Theorem cells_fill_usable_area (config : badge_config.BadgeConfig)
  (lay : pdf_export.layout) :
  pdf_export.export_layout config = Py.Ok lay ->
  (inject_Z (pdf_export.cols lay) * pdf_export.cell_w lay
   + inject_Z (pdf_export.cols lay - 1) * pdf_export.spacing lay
   == pdf_export.page_w lay - 2 * pdf_export.margin lay)%Q /\
  (inject_Z (pdf_export.rows lay) * pdf_export.cell_h lay
   + inject_Z (pdf_export.rows lay - 1) * pdf_export.spacing lay
   == pdf_export.page_h lay - 2 * pdf_export.margin lay)%Q.
Proof.
  intros Hlay.
  destruct (export_layout_inv config lay Hlay)
    as (_ & _ & _ & Huw & Huh & _ & _ & _ & Hc & Hr & Hcw & Hch).
  rewrite Hcw, Hch, Huw, Huh. split; field; assumption.
Qed.

Lemma cells_fill_usable_area_witness :
  exists lay,
    pdf_export.export_layout sample.config = Py.Ok lay /\
    (inject_Z 2 * pdf_export.cell_w lay + inject_Z (2 - 1) * pdf_export.spacing lay
     == pdf_export.page_w lay - 2 * pdf_export.margin lay)%Q.
Proof.
  destruct (pdf_export.export_layout sample.config) as [lay|e] eqn:Hlay;
    [|vm_compute in Hlay; discriminate].
  exists lay. split; [reflexivity|].
  pose proof (proj1 (cells_fill_usable_area sample.config lay Hlay)) as H.
  replace (pdf_export.cols lay) with 2 in H; [exact H|].
  injection Hlay as <-. reflexivity.
Defined.

(** The drawn size does not exceed the cell (cells of height at least 1). *)
Lemma layout_draw_le (config : badge_config.BadgeConfig)
  (lay : pdf_export.layout) :
  pdf_export.export_layout config = Py.Ok lay ->
  0 < badge_config.badge_width config ->
  0 < badge_config.badge_height config ->
  (0 < pdf_export.cell_w lay)%Q ->
  (1 <= pdf_export.cell_h lay)%Q ->
  (pdf_export.draw_w lay <= pdf_export.cell_w lay)%Q /\
  (pdf_export.draw_h lay <= pdf_export.cell_h lay)%Q.
Proof.
  unfold pdf_export.export_layout.
  destruct (pdf_export._get_page_size _) as [pw ph].
  intros Hlay Hbw Hbh.
  apply bind_inv in Hlay as (cw & _ & Hlay).
  apply bind_inv in Hlay as (ch & _ & Hlay).
  apply bind_inv in Hlay as (ba & _ & Hlay).
  apply bind_inv in Hlay as (ca & Eca & Hlay).
  apply bind_inv in Hlay as ([dw dh] & Edraw & Hlay).
  injection Hlay as <-. cbn. intros Hcw Hch.
  rewrite py_max_ge_1 in Eca by assumption.
  apply truediv_inv in Eca as [_ ->].
  assert (Hch0 : (0 < ch)%Q) by (eapply Qlt_le_trans; [|exact Hch]; reflexivity).
  destruct (Qlt_le_dec (cw / ch) ba) as [Hlt|Hle].
  - apply bind_inv in Edraw as (dh' & Edh & [= <- <-]).
    apply truediv_inv in Edh as [_ ->].
    destruct (fit_wide cw ch ba Hcw Hch0 Hlt) as [_ L].
    split; [apply Qle_refl|apply Qlt_le_weak, L].
  - injection Edraw as <- <-.
    destruct (fit_tall cw ch ba Hch0 Hle) as [_ L].
    split; [exact L|apply Qle_refl].
Qed.

(** Column and row of a badge lie in the grid. *)
Lemma grid_cell_bounds (cols rows i : Z) :
  1 <= cols -> 1 <= rows ->
  0 <= packing.col cols rows i <= cols - 1 /\
  0 <= packing.rowOnPage cols rows i <= rows - 1 /\
  packing.pageLocalIndex cols rows i =
    packing.rowOnPage cols rows i * cols + packing.col cols rows i.
Proof.
  intros Hc Hr.
  unfold packing.col, packing.rowOnPage, packing.pageLocalIndex,
    packing.badgesPerPage.
  pose proof (Z.mod_pos_bound i (cols * rows) ltac:(nia)) as Hp.
  set (p := i mod (cols * rows)) in *.
  pose proof (Z.mod_pos_bound p cols ltac:(lia)) as Hcol.
  pose proof (Z.div_mod p cols ltac:(lia)) as Hdm.
  assert (Hrow : 0 <= p / cols) by (apply Z.div_pos; lia).
  assert (Hrow' : p / cols < rows) by (apply Z.div_lt_upper_bound; lia).
  lia.
Qed.

Lemma inject_Z_le (a b : Z) : a <= b -> (inject_Z a <= inject_Z b)%Q.
Proof. intros H. rewrite <- Zle_Qle. exact H. Qed.

Lemma inject_Z_pred (a : Z) : (inject_Z (a - 1) == inject_Z a - 1)%Q.
Proof.
  unfold Z.sub. rewrite inject_Z_plus, inject_Z_opp. reflexivity.
Qed.

(** A badge in cell [C] of [K] cells, along one axis: it starts after the
    margin and ends before the opposite one. *)
Lemma slot_inside (M S c d U K C : Q) :
  (0 <= S)%Q -> (0 <= c)%Q -> (d <= c)%Q -> (0 <= C)%Q -> (C <= K - 1)%Q ->
  (K * c + (K - 1) * S == U)%Q ->
  (M <= M + C * (c + S) + (c - d) / 2)%Q /\
  (M + C * (c + S) + (c - d) / 2 + d <= M + U)%Q.
Proof.
  intros HS Hc Hd HC HK HU.
  assert (H1 : (0 <= C * (c + S))%Q) by (apply Qmult_le_0_compat; lra).
  assert (H2 : (0 <= (K - 1 - C) * (c + S))%Q)
    by (apply Qmult_le_0_compat; lra).
  assert (Hh : (2 * ((c - d) / 2) == c - d)%Q) by field.
  set (h := ((c - d) / 2)%Q) in *.
  set (p := (C * (c + S))%Q) in *.
  assert (H3 : ((K - 1 - C) * (c + S) == K * c + (K - 1) * S - c - p)%Q)
    by (subst p; ring).
  rewrite H3 in H2. split; lra.
Qed.

(** X2.  In exact arithmetic: with a grid of at least one column and one
    row, a non-negative spacing, a template of positive size and cells at
    least 1 pt high, every badge is drawn inside the page margins (the
    sums, products and quotients of the layout not rounded). *)
Theorem badge_inside_margins (config : badge_config.BadgeConfig)
  (lay : pdf_export.layout) (i : Z) :
  pdf_export.export_layout config = Py.Ok lay ->
  1 <= badge_config.badges_per_row config ->
  1 <= badge_config.badges_per_col config ->
  (0 <= badge_config.spacing_mm config)%Q ->
  0 < badge_config.badge_width config ->
  0 < badge_config.badge_height config ->
  (0 < pdf_export.cell_w lay)%Q ->
  (1 <= pdf_export.cell_h lay)%Q ->
  let x := fst (pdf_export.position lay i) in
  let y := snd (pdf_export.position lay i) in
  (pdf_export.margin lay <= x)%Q /\
  (x + pdf_export.draw_w lay <= pdf_export.page_w lay - pdf_export.margin lay)%Q /\
  (pdf_export.margin lay <= y)%Q /\
  (y + pdf_export.draw_h lay <= pdf_export.page_h lay - pdf_export.margin lay)%Q.
Proof.
  intros Hlay Hc Hr Hs Hbw Hbh Hcw Hch. cbv zeta.
  destruct (layout_draw_le config lay Hlay Hbw Hbh Hcw Hch) as [Hdw Hdh].
  destruct (cells_tile config lay Hlay) as [Htw Hth].
  destruct (export_layout_inv config lay Hlay)
    as (_ & _ & Hsp & _ & _ & Ecols & Erows & _).
  rewrite (position_corner config lay i Hlay). unfold packing.corner. cbn [fst snd].
  destruct (grid_cell_bounds _ _ i Hc Hr) as (Hcol & Hrow & _).
  set (c := packing.col _ _ i) in *. set (r := packing.rowOnPage _ _ i) in *.
  rewrite Ecols in Htw. rewrite Erows in Hth.
  assert (HS : (0 <= pdf_export.spacing lay)%Q).
  { rewrite Hsp. apply Qmult_le_0_compat; [exact Hs|]. discriminate. }
  assert (Hch0 : (0 <= pdf_export.cell_h lay)%Q) by lra.
  assert (HC : (0 <= inject_Z c)%Q /\
               (inject_Z c <= inject_Z (badge_config.badges_per_row config) - 1)%Q).
  { split; [apply (inject_Z_le 0); lia|].
    rewrite <- inject_Z_pred. apply inject_Z_le. lia. }
  assert (HR : (0 <= inject_Z (badge_config.badges_per_col config) - 1 - inject_Z r)%Q /\
               (inject_Z (badge_config.badges_per_col config) - 1 - inject_Z r
                <= inject_Z (badge_config.badges_per_col config) - 1)%Q).
  { assert (H0 : (0 <= inject_Z r)%Q) by (apply (inject_Z_le 0); lia).
    assert (H1 : (inject_Z r <= inject_Z (badge_config.badges_per_col config) - 1)%Q).
    { rewrite <- inject_Z_pred. apply inject_Z_le. lia. }
    split; lra. }
  rewrite inject_Z_pred in Htw, Hth.
  destruct (slot_inside (pdf_export.margin lay) (pdf_export.spacing lay)
              (pdf_export.cell_w lay) (pdf_export.draw_w lay) _ _ (inject_Z c)
              HS (Qlt_le_weak _ _ Hcw) Hdw (proj1 HC) (proj2 HC) Htw) as [X1 X2].
  destruct (slot_inside (pdf_export.margin lay) (pdf_export.spacing lay)
              (pdf_export.cell_h lay) (pdf_export.draw_h lay) _ _ _
              HS Hch0 Hdh (proj1 HR) (proj2 HR) Hth) as [Y1 Y2].
  rewrite inject_Z_plus. change (inject_Z 1) with 1%Q.
  set (h := ((pdf_export.cell_h lay - pdf_export.draw_h lay) / 2)%Q) in *.
  set (g := ((pdf_export.cell_w lay - pdf_export.draw_w lay) / 2)%Q) in *.
  repeat split; nra.
Qed.

Lemma badge_inside_margins_witness :
  exists lay,
    pdf_export.export_layout sample.config = Py.Ok lay /\
    let x := fst (pdf_export.position lay 7) in
    let y := snd (pdf_export.position lay 7) in
    (pdf_export.margin lay <= x)%Q /\
    (x + pdf_export.draw_w lay <= pdf_export.page_w lay - pdf_export.margin lay)%Q /\
    (pdf_export.margin lay <= y)%Q /\
    (y + pdf_export.draw_h lay <= pdf_export.page_h lay - pdf_export.margin lay)%Q.
Proof.
  eexists. split; [vm_compute; reflexivity|].
  apply (badge_inside_margins sample.config).
  - vm_compute. reflexivity.
  - cbn. lia.
  - cbn. lia.
  - vm_compute. discriminate.
  - reflexivity.
  - reflexivity.
  - reflexivity.
  - vm_compute. discriminate.
Defined.

(** In binary64 a badge of the last column can end one unit in the last
    place beyond the margin.  With the default configuration the second
    badge of a line ends at 583.6535433070867, and the right margin is at
    583.6535433070866. *)
Lemma margin_rounding_binary64 :
  exists lay,
    binary64.export_layout sample.config = Py.Ok lay /\
    let x := fst (binary64.position lay 1) in
    binary64.ltb (binary64.sub (binary64.page_w lay) (binary64.margin lay))
      (binary64.add x (binary64.draw_w lay)) = true.
Proof. eexists. split; [vm_compute; reflexivity|]. vm_compute. reflexivity. Qed.

(** Cells [C1 < C2] along one axis: the badge of the first ends at least
    the spacing before the badge of the second starts. *)
Lemma slot_gap (S c d C1 C2 : Q) :
  (0 <= S)%Q -> (0 <= c)%Q -> (d <= c)%Q -> (C1 + 1 <= C2)%Q ->
  (C1 * (c + S) + d + S <= C2 * (c + S))%Q.
Proof.
  intros HS Hc Hd HC.
  assert (H : (0 <= (C2 - C1 - 1) * (c + S))%Q)
    by (apply Qmult_le_0_compat; lra).
  assert (E : ((C2 - C1 - 1) * (c + S)
               == C2 * (c + S) - C1 * (c + S) - c - S)%Q) by ring.
  rewrite E in H. lra.
Qed.

(** X3.  In exact arithmetic: two badges of the same page never overlap,
    and they follow the reading order: the later one is drawn on the same
    line, at least the spacing to the right of the right edge of the
    earlier one, or entirely below it, at least the spacing lower. *)
Theorem badges_in_reading_order (config : badge_config.BadgeConfig)
  (lay : pdf_export.layout) (i j : Z) :
  pdf_export.export_layout config = Py.Ok lay ->
  1 <= badge_config.badges_per_row config ->
  1 <= badge_config.badges_per_col config ->
  (0 <= badge_config.spacing_mm config)%Q ->
  0 < badge_config.badge_width config ->
  0 < badge_config.badge_height config ->
  (0 < pdf_export.cell_w lay)%Q ->
  (1 <= pdf_export.cell_h lay)%Q ->
  i < j ->
  i / pdf_export.badges_per_page lay = j / pdf_export.badges_per_page lay ->
  let xi := fst (pdf_export.position lay i) in
  let yi := snd (pdf_export.position lay i) in
  let xj := fst (pdf_export.position lay j) in
  let yj := snd (pdf_export.position lay j) in
  ((yj == yi)%Q /\
   (xi + pdf_export.draw_w lay + pdf_export.spacing lay <= xj)%Q) \/
  (yj + pdf_export.draw_h lay + pdf_export.spacing lay <= yi)%Q.
Proof.
  intros Hlay Hc Hr Hs Hbw Hbh Hcw Hch Hij Hpage. cbv zeta.
  destruct (layout_draw_le config lay Hlay Hbw Hbh Hcw Hch) as [Hdw Hdh].
  destruct (export_layout_inv config lay Hlay)
    as (_ & _ & Hsp & _ & _ & Ecols & Erows & Ebpp & _).
  rewrite Ecols, Erows in Ebpp. rewrite Ebpp in Hpage.
  rewrite !(position_corner config lay _ Hlay). unfold packing.corner.
  cbn [fst snd].
  destruct (grid_cell_bounds _ _ i Hc Hr) as (Hci & Hri & Hpi).
  destruct (grid_cell_bounds _ _ j Hc Hr) as (Hcj & Hrj & Hpj).
  assert (Hp : packing.pageLocalIndex (badge_config.badges_per_row config)
                 (badge_config.badges_per_col config) i
               < packing.pageLocalIndex (badge_config.badges_per_row config)
                   (badge_config.badges_per_col config) j).
  { unfold packing.pageLocalIndex, packing.badgesPerPage.
    pose proof (Z.div_mod i (badge_config.badges_per_row config
                             * badge_config.badges_per_col config) ltac:(nia)).
    pose proof (Z.div_mod j (badge_config.badges_per_row config
                             * badge_config.badges_per_col config) ltac:(nia)).
    rewrite Hpage in *. lia. }
  rewrite Hpi, Hpj in Hp. clear Hpi Hpj.
  set (ci := packing.col _ _ i) in *. set (ri := packing.rowOnPage _ _ i) in *.
  set (cj := packing.col _ _ j) in *. set (rj := packing.rowOnPage _ _ j) in *.
  assert (HS : (0 <= pdf_export.spacing lay)%Q).
  { rewrite Hsp. apply Qmult_le_0_compat; [exact Hs|]. discriminate. }
  assert (Hch0 : (0 <= pdf_export.cell_h lay)%Q) by lra.
  assert (Hrows : ri = rj /\ ci + 1 <= cj \/ ri + 1 <= rj) by nia.
  destruct Hrows as [[-> Hcol]|Hrow].
  - left. split; [reflexivity|].
    assert (HC : (inject_Z ci + 1 <= inject_Z cj)%Q).
    { change 1%Q with (inject_Z 1). rewrite <- inject_Z_plus.
      apply inject_Z_le. exact Hcol. }
    pose proof (slot_gap _ _ _ _ _ HS (Qlt_le_weak _ _ Hcw) Hdw HC) as G.
    set (g := ((pdf_export.cell_w lay - pdf_export.draw_w lay) / 2)%Q) in *.
    lra.
  - right.
    assert (HR : (inject_Z ri + 1 <= inject_Z rj)%Q).
    { change 1%Q with (inject_Z 1). rewrite <- inject_Z_plus.
      apply inject_Z_le. exact Hrow. }
    pose proof (slot_gap _ _ _ _ _ HS Hch0 Hdh HR) as G.
    rewrite !inject_Z_plus. change (inject_Z 1) with 1%Q.
    set (h := ((pdf_export.cell_h lay - pdf_export.draw_h lay) / 2)%Q) in *.
    nra.
Qed.

Lemma badges_in_reading_order_witness :
  exists lay,
    pdf_export.export_layout sample.config = Py.Ok lay /\
    let xi := fst (pdf_export.position lay 2) in
    let yi := snd (pdf_export.position lay 2) in
    let xj := fst (pdf_export.position lay 5) in
    let yj := snd (pdf_export.position lay 5) in
    ((yj == yi)%Q /\
     (xi + pdf_export.draw_w lay + pdf_export.spacing lay <= xj)%Q) \/
    (yj + pdf_export.draw_h lay + pdf_export.spacing lay <= yi)%Q.
Proof.
  eexists. split; [vm_compute; reflexivity|].
  apply (badges_in_reading_order sample.config).
  - vm_compute. reflexivity.
  - cbn. lia.
  - cbn. lia.
  - vm_compute. discriminate.
  - reflexivity.
  - reflexivity.
  - reflexivity.
  - vm_compute. discriminate.
  - lia.
  - reflexivity.
Defined.

(** ** export/pdf_export.py: every run *)

Lemma export_layout_zero_grid (config : badge_config.BadgeConfig) :
  badge_config.badges_per_row config = 0 \/
  badge_config.badges_per_col config = 0 ->
  pdf_export.export_layout config = Py.Raise Py.ZeroDivisionError.
Proof.
  intros H. unfold pdf_export.export_layout.
  destruct (pdf_export._get_page_size _) as [pw ph].
  destruct H as [H|H]; rewrite H.
  - reflexivity.
  - destruct (Py.truediv _ (inject_Z (badge_config.badges_per_row config)))
      as [cw|e] eqn:E.
    + reflexivity.
    + unfold Py.truediv in E. destruct (Qeq_bool _ _); [|discriminate].
      injection E as <-. reflexivity.
Qed.

(** X4.  With zero columns or zero rows [export_pdf] raises
    [ZeroDivisionError] before it creates the canvas: nothing is rendered,
    nothing is reported, no object is created; the web task ends in
    "error" with progress 0. *)
Theorem zero_grid_raises (env : Env) (config : badge_config.BadgeConfig)
  (csv : csv_data.CSVData) (output_path : string) (background : option loc)
  (cb : pdf_export.callbacks) (h : heap) :
  badge_config.badges_per_row config = 0 \/
  badge_config.badges_per_col config = 0 ->
  pdf_export.export_pdf env config csv output_path background cb h =
    {| pdf_export.final := {| pdf_export.st_heap := h;
                              pdf_export.st_trace := [];
                              pdf_export.st_polls := 0 |};
       pdf_export.raised := Some Py.ZeroDivisionError |} /\
  let t := fst (web_app.run_export env config csv output_path background h) in
  web_app.status t = "error"%string /\
  web_app.error t = Some Py.ZeroDivisionError /\
  web_app.progress t = 0.
Proof.
  intros H. apply export_layout_zero_grid in H.
  unfold web_app.run_export, pdf_export.export_pdf. rewrite H. cbn. auto.
Qed.

Lemma zero_grid_raises_witness :
  let config :=
    {| badge_config.background_image_path := "";
       badge_config.badge_width := 1050; badge_config.badge_height := 600;
       badge_config.fields := [1%positive];
       badge_config.badges_per_row := 2; badge_config.badges_per_col := 0;
       badge_config.page_size := "A4";
       badge_config.margin_mm := 10; badge_config.spacing_mm := 2 |} in
  pdf_export.raised
    (pdf_export.export_pdf sample.env config (sample.sheet 3) "badges.pdf"
       None sample.quiet sample.objects) = Some Py.ZeroDivisionError /\
  web_app.status
    (fst (web_app.run_export sample.env config (sample.sheet 3) "badges.pdf"
            None sample.objects)) = "error"%string.
Proof.
  cbv zeta.
  destruct (zero_grid_raises sample.env
              {| badge_config.background_image_path := "";
                 badge_config.badge_width := 1050; badge_config.badge_height := 600;
                 badge_config.fields := [1%positive];
                 badge_config.badges_per_row := 2; badge_config.badges_per_col := 0;
                 badge_config.page_size := "A4";
                 badge_config.margin_mm := 10; badge_config.spacing_mm := 2 |}
              (sample.sheet 3) "badges.pdf" None sample.quiet sample.objects)
    as (Hrun & Hstatus & _).
  - right. reflexivity.
  - rewrite Hrun. split; [reflexivity|exact Hstatus].
Defined.

Lemma saves_app (t1 t2 : list pdf_export.event) :
  trace.saves (t1 ++ t2) = (trace.saves t1 + trace.saves t2)%nat.
Proof. unfold trace.saves. rewrite omap_app, length_app. reflexivity. Qed.

Lemma saves_row (cb : pdf_export.callbacks) (lay : pdf_export.layout)
  (total_rows i : Z) (rgb : PIL.Image) :
  trace.saves (pdf_export.completed_row cb lay total_rows i rgb) = 0%nat.
Proof.
  unfold pdf_export.completed_row, pdf_export.row_events, pdf_export.poll_events.
  destruct (pdf_export.position lay i).
  destruct (pdf_export.is_cancelled cb); destruct (_ && _);
    destruct (pdf_export.on_progress cb); reflexivity.
Qed.

Lemma saves_rows (cb : pdf_export.callbacks) (lay : pdf_export.layout)
  (total_rows : Z) (range : list Z) (imgs : list PIL.Image) :
  trace.saves
    (concat (zip_with (pdf_export.completed_row cb lay total_rows) range imgs))
  = 0%nat.
Proof.
  revert imgs. induction range as [|i range IH]; intros [|rgb imgs];
    try reflexivity.
  cbn [zip_with concat]. rewrite saves_app, saves_row, IH. reflexivity.
Qed.

Lemma progress_calls_row_any (cb : pdf_export.callbacks)
  (lay : pdf_export.layout) (total_rows i : Z) (rgb : PIL.Image) :
  pdf_export.progress_calls (pdf_export.completed_row cb lay total_rows i rgb)
  = if pdf_export.on_progress cb then [i + 1] else [].
Proof.
  unfold pdf_export.completed_row, pdf_export.row_events, pdf_export.poll_events.
  destruct (pdf_export.position lay i).
  destruct (pdf_export.is_cancelled cb); destruct (_ && _);
    destruct (pdf_export.on_progress cb); reflexivity.
Qed.

Lemma progress_calls_rows_any (cb : pdf_export.callbacks)
  (lay : pdf_export.layout) (total_rows : Z) (range : list Z)
  (imgs : list PIL.Image) :
  length imgs = length range ->
  pdf_export.progress_calls
    (concat (zip_with (pdf_export.completed_row cb lay total_rows) range imgs))
  = if pdf_export.on_progress cb then (fun i => i + 1) <$> range else [].
Proof.
  revert imgs.
  induction range as [|i range IH]; intros [|rgb imgs] Hlen; try discriminate.
  - destruct (pdf_export.on_progress cb); reflexivity.
  - cbn [zip_with concat]. rewrite progress_calls_app, progress_calls_row_any.
    rewrite IH by (cbn in Hlen; lia).
    destruct (pdf_export.on_progress cb); reflexivity.
Qed.

Lemma poll_events_silent (cb : pdf_export.callbacks) (answer : bool) :
  pdf_export.progress_calls (pdf_export.poll_events cb answer) = [] /\
  pdf_export.rendered_rows (pdf_export.poll_events cb answer) = [] /\
  trace.saves (pdf_export.poll_events cb answer) = 0%nat.
Proof.
  unfold pdf_export.poll_events.
  destruct (pdf_export.is_cancelled cb); repeat split.
Qed.

(** The trace of any call: empty when the layout cannot be computed, and
    otherwise the canvas, [m] full turns, possibly a last cancellation
    check, and the save unless an exception escaped. *)
Lemma export_pdf_trace (env : Env) (config : badge_config.BadgeConfig)
  (csv : csv_data.CSVData) (output_path : string) (background : option loc)
  (cb : pdf_export.callbacks) (h : heap) :
  let r := pdf_export.export_pdf env config csv output_path background cb h in
  let n := csv_data.row_count csv in
  let tr := pdf_export.st_trace (pdf_export.final r) in
  (tr = [] /\ pdf_export.raised r <> None) \/
  exists lay (m : nat) (imgs : list PIL.Image) (tail : list pdf_export.event),
    length imgs = m /\ (m <= length (csv_data.rows csv))%nat /\
    (tail = [] \/ tail = [pdf_export.IsCancelled true] \/
     tail = pdf_export.poll_events cb false) /\
    tr = [pdf_export.NewCanvas output_path
            (pdf_export.page_w lay, pdf_export.page_h lay)]
         ++ concat (zip_with (pdf_export.completed_row cb lay n)
                      (seqZ 0 (Z.of_nat m)) imgs)
         ++ tail
         ++ (if pdf_export.raised r is None then [pdf_export.Save] else []).
Proof.
  cbv zeta. unfold pdf_export.export_pdf.
  destruct (pdf_export.export_layout config) as [lay|e];
    [|left; split; [reflexivity|discriminate]].
  right.
  destruct (pdf_export.export_loop _ _ _ _ _ _ _ _ _) as [st res] eqn:E.
  apply export_loop_shape in E
    as (m & imgs & tail & Hlen & Hm & _ & _ & Htr & Hend).
  unfold Py.range in *. rewrite length_seqZ in Hm.
  unfold csv_data.row_count in Hm. rewrite Nat2Z.id in Hm.
  rewrite take_range in Htr by (unfold csv_data.row_count; lia).
  exists lay, m, imgs, tail. split; [exact Hlen|]. split; [exact Hm|].
  split.
  - destruct Hend as [(_ & _ & ->)|[(_ & _ & -> & _)|(e & _ & _ & ->)]]; auto.
  - cbn [pdf_export.st_trace] in Htr.
    destruct res as [e|]; cbn; rewrite Htr; cbn.
    + rewrite app_nil_r. reflexivity.
    + rewrite <- !app_assoc. reflexivity.
Qed.

Lemma tail_silent (cb : pdf_export.callbacks) (tail : list pdf_export.event) :
  tail = [] \/ tail = [pdf_export.IsCancelled true] \/
  tail = pdf_export.poll_events cb false ->
  pdf_export.progress_calls tail = [] /\
  pdf_export.rendered_rows tail = [] /\
  trace.saves tail = 0%nat.
Proof.
  intros [H|[H|H]]; subst tail;
    [repeat split|repeat split|apply poll_events_silent].
Qed.

(** X5.  Whatever the outcome of [export_pdf] (complete, cancelled or
    failed), the rows rendered are the first [m] rows in order, for some
    [m] up to the number of rows; the progress calls are exactly 1 .. m when
    a callback was given and none otherwise; and the document is saved once
    when the call returns and never when an exception escapes. *)
Theorem every_run_is_a_prefix (env : Env) (config : badge_config.BadgeConfig)
  (csv : csv_data.CSVData) (output_path : string) (background : option loc)
  (cb : pdf_export.callbacks) (h : heap) :
  let r := pdf_export.export_pdf env config csv output_path background cb h in
  let tr := pdf_export.st_trace (pdf_export.final r) in
  exists m : nat,
    (m <= length (csv_data.rows csv))%nat /\
    pdf_export.rendered_rows tr = seqZ 0 (Z.of_nat m) /\
    pdf_export.progress_calls tr =
      (if pdf_export.on_progress cb then seqZ 1 (Z.of_nat m) else []) /\
    trace.saves tr = (if pdf_export.raised r is None then 1 else 0)%nat.
Proof.
  cbv zeta.
  destruct (export_pdf_trace env config csv output_path background cb h)
    as [[Htr Hraised]|(lay & m & imgs & tail & Hlen & Hm & Htail & Htr)].
  - exists 0%nat. rewrite Htr. split; [lia|]. split; [reflexivity|].
    split; [destruct (pdf_export.on_progress cb); reflexivity|].
    destruct (pdf_export.raised _); [reflexivity|congruence].
  - exists m. split; [exact Hm|].
    destruct (tail_silent cb tail Htail) as (Tp & Tr & Ts).
    assert (Hrange : length imgs = length (seqZ 0 (Z.of_nat m)))
      by (rewrite length_seqZ; lia).
    rewrite Htr. split; [|split].
    + rewrite !rendered_rows_app, rendered_rows_rows, Tr by assumption.
      destruct (pdf_export.raised _); cbn; rewrite ?app_nil_r; reflexivity.
    + rewrite !progress_calls_app, progress_calls_rows_any, Tp by assumption.
      destruct (pdf_export.raised _), (pdf_export.on_progress cb); cbn;
        rewrite ?app_nil_r; try reflexivity; apply range_succ.
    + rewrite !saves_app, saves_rows, Ts.
      destruct (pdf_export.raised _); reflexivity.
Qed.

Lemma finish_keeps (t : web_app.task) (e : option Py.exn) :
  web_app.progress (web_app.finish t e) = web_app.progress t /\
  web_app.total (web_app.finish t e) = web_app.total t.
Proof. destruct e; split; reflexivity. Qed.

Lemma total_fold (l : list Z) (t : web_app.task) :
  web_app.total (fold_left web_app.on_progress l t) = web_app.total t.
Proof.
  revert t. induction l as [|a l IH]; intros t; [reflexivity|].
  cbn [fold_left]. rewrite IH. reflexivity.
Qed.

(** X6.  The progress of the web task always equals the number of rows
    already rendered and placed, also when the export fails half-way, and
    it never exceeds the total of the task. *)
Theorem web_progress_counts_rows (env : Env) (config : badge_config.BadgeConfig)
  (csv : csv_data.CSVData) (output_path : string) (bg : option loc) (h : heap) :
  let web := web_app.run_export env config csv output_path bg h in
  let tr := pdf_export.st_trace (pdf_export.final (snd web)) in
  web_app.progress (fst web) = Z.of_nat (length (pdf_export.rendered_rows tr)) /\
  0 <= web_app.progress (fst web) <= web_app.total (fst web).
Proof.
  cbv zeta. unfold web_app.run_export. cbn [fst snd].
  set (cbw := {| pdf_export.on_progress := true;
                 pdf_export.is_cancelled := None |}).
  rewrite !(proj1 (finish_keeps _ _)), (proj2 (finish_keeps _ _)).
  rewrite progress_fold, total_fold.
  cbn [web_app.new_task web_app.progress web_app.total].
  assert (Hn : csv_data.row_count csv = Z.of_nat (length (csv_data.rows csv)))
    by reflexivity.
  destruct (export_pdf_trace env config csv output_path bg cbw h)
    as [[Htr Hraised]|(lay & m & imgs & tail & Hlen & Hm & Htail & Htr)].
  - rewrite Htr. cbn. lia.
  - destruct (tail_silent cbw tail Htail) as (Tp & Tr & _).
    assert (Hrange : length imgs = length (seqZ 0 (Z.of_nat m)))
      by (rewrite length_seqZ; lia).
    assert (Hp : pdf_export.progress_calls
                   (pdf_export.st_trace (pdf_export.final
                      (pdf_export.export_pdf env config csv output_path bg cbw h)))
                 = seqZ 1 (Z.of_nat m)).
    { rewrite Htr, !progress_calls_app, progress_calls_rows_any, Tp by assumption.
      destruct (pdf_export.raised _); cbn; rewrite ?app_nil_r; apply range_succ. }
    assert (Hr : pdf_export.rendered_rows
                   (pdf_export.st_trace (pdf_export.final
                      (pdf_export.export_pdf env config csv output_path bg cbw h)))
                 = seqZ 0 (Z.of_nat m)).
    { rewrite Htr, !rendered_rows_app, rendered_rows_rows, Tr by assumption.
      destruct (pdf_export.raised _); cbn; rewrite ?app_nil_r; reflexivity. }
    rewrite Hp, Hr, length_seqZ, last_seqZ_1 by lia. lia.
Qed.

(** ** export/badge_renderer.py: the rendered badge *)

Lemma truthy_empty (s : string) : Py.truthy s = false -> s = ""%string.
Proof. destruct s; [reflexivity|discriminate]. Qed.

(** What [_draw_field] does to the image it draws on. *)
Lemma _draw_field_image (env : Env) (draw fp : loc) (text : csv_data.cell)
  (h h' : heap) (f : badge_config.FieldPlacement) (im : PIL.Image) :
  h !! fp = Some (ObjField f) ->
  h !! draw = Some (ObjImage im) ->
  badge_renderer._draw_field env draw fp text h = Py.Ok h' ->
  exists im',
    h' !! draw = Some (ObjImage im') /\
    PIL.size im' = PIL.size im /\
    PIL.mode im' = PIL.mode im /\
    PIL.texts (PIL.data im') =
      PIL.texts (PIL.data im)
      ++ match drawing.text_call env f text with
         | Some call => [call]
         | None => []
         end.
Proof.
  intros Hf Hd. unfold drawing.text_call.
  destruct text as [text|];
    [|cbn; intros [= <-]; exists im; rewrite app_nil_r; auto].
  destruct (Py.truthy text) eqn:Et.
  - rewrite (_draw_field_draws env draw fp text h f im Hf Hd)
      by (intros ->; discriminate).
    intros [= <-]. eexists. rewrite lookup_insert_eq.
    split; [reflexivity|]. cbn. auto.
  - apply truthy_empty in Et as ->. rewrite _draw_field_empty by reflexivity.
    intros [= <-]. exists im. rewrite app_nil_r. auto.
Qed.

Lemma draw_fields_image (env : Env) (csv : csv_data.CSVData) (i : Z)
  (draw : loc) (fps : list loc) (fs : list badge_config.FieldPlacement)
  (h h' : heap) (im : PIL.Image) :
  drawing.fields_at h fps fs ->
  h !! draw = Some (ObjImage im) ->
  badge_renderer.draw_fields env csv i draw fps h = Py.Ok h' ->
  exists im',
    h' !! draw = Some (ObjImage im') /\
    PIL.size im' = PIL.size im /\
    PIL.mode im' = PIL.mode im /\
    PIL.texts (PIL.data im') =
      PIL.texts (PIL.data im) ++ omap (drawing.field_call env csv i) fs.
Proof.
  revert fs h im.
  induction fps as [|l fps IH]; intros fs0 h0 im Hfs0 Hd Hdraw.
  - inversion Hfs0; subst.
    cbn in Hdraw. injection Hdraw as <-. exists im. rewrite app_nil_r. auto.
  - inversion Hfs0 as [|? f ? fs Hl0 Hrest0]; subst.
    cbn in Hdraw.
    apply bind_inv in Hdraw as (f0 & Hg & Hdraw).
    apply get_field_Some in Hg. assert (f0 = f) as -> by congruence.
    apply bind_inv in Hdraw as (text & Hv & Hdraw).
    apply bind_inv in Hdraw as (h1 & H1 & Hdraw).
    destruct (_draw_field_image env draw l text h0 h1 f im Hl0 Hd H1)
      as (im1 & Hd1 & Hs1 & Hm1 & Ht1).
    apply _draw_field_frame in H1 as [Hother _].
    assert (Hfs1 : drawing.fields_at h1 fps fs).
    { eapply Forall2_impl; [exact Hrest0|]. intros l' f' Hl'. cbn in Hl'.
      rewrite Hother; [exact Hl'|]. congruence. }
    destruct (IH fs h1 im1 Hfs1 Hd1 Hdraw) as (im' & Hd' & Hs' & Hm' & Ht').
    exists im'. split; [exact Hd'|]. split; [congruence|]. split; [congruence|].
    rewrite Ht', Ht1, <- app_assoc. f_equal.
    assert (E : drawing.field_call env csv i f = drawing.text_call env f text).
    { unfold drawing.field_call. rewrite Hv. reflexivity. }
    change (omap (drawing.field_call env csv i) (f :: fs))
      with (match drawing.field_call env csv i f with
            | Some c => c :: omap (drawing.field_call env csv i) fs
            | None => omap (drawing.field_call env csv i) fs
            end).
    rewrite E. destruct (drawing.text_call env f text); reflexivity.
Qed.

Lemma alloc_lookup (o : obj) (h h' : heap) (l : loc) :
  Heap.alloc o h = (l, h') -> h' !! l = Some o.
Proof. intros Ha. apply alloc_spec in Ha as [_ ->]. apply lookup_insert_eq. Qed.

(** The canvas base is a new object holding [canvas_base.base_image]. *)
Lemma badge_base_image (env : Env) (config : badge_config.BadgeConfig)
  (background : option loc) (h h1 : heap) (badge : loc) :
  badge_renderer.badge_base env config background h = Py.Ok (badge, h1) ->
  (background = None \/ exists im, canvas_base.image_at h background = Some im) /\
  h1 !! badge =
    Some (ObjImage (canvas_base.base_image env config
                      (canvas_base.image_at h background))).
Proof.
  unfold badge_renderer.badge_base, canvas_base.base_image, canvas_base.image_at.
  destruct background as [bg|].
  - intros H. apply bind_inv in H as (im & Him & H).
    apply get_image_Some in Him. rewrite Him.
    destruct (Heap.alloc (ObjImage im) h) as [c hc].
    apply Ok_inj, alloc_lookup in H. split; [eauto|exact H].
  - destruct (Py.truthy _); [destruct (image_open env _) as [opened|]|].
    + destruct (Heap.alloc (ObjImage opened) h) as [o ho].
      destruct (Heap.alloc _ ho) as [c hc].
      intros H. apply Ok_inj, alloc_lookup in H. auto.
    + intros H. apply Ok_inj, alloc_lookup in H. auto.
    + intros H. apply Ok_inj, alloc_lookup in H. auto.
Qed.

Lemma base_image_size (env : Env) (config : badge_config.BadgeConfig)
  (background : option PIL.Image) :
  PIL.size (canvas_base.base_image env config background) =
  (badge_config.badge_width config, badge_config.badge_height config).
Proof.
  unfold canvas_base.base_image.
  destruct background; [reflexivity|].
  destruct (Py.truthy _); [destruct (image_open env _)|]; reflexivity.
Qed.

Lemma _draw_field_field_back (env : Env) (draw fp l : loc)
  (text : csv_data.cell) (h h' : heap) (f : badge_config.FieldPlacement) :
  badge_renderer._draw_field env draw fp text h = Py.Ok h' ->
  h' !! l = Some (ObjField f) -> h !! l = Some (ObjField f).
Proof.
  unfold badge_renderer._draw_field.
  destruct text as [text|]; [|congruence].
  destruct (negb (Py.truthy text)); [congruence|].
  intros H. apply bind_inv in H as (f' & _ & H).
  apply bind_inv in H as (im & _ & H). injection H as <-.
  destruct (decide (l = draw)) as [->|Hne].
  - rewrite lookup_insert_eq. discriminate.
  - rewrite lookup_insert_ne by congruence. auto.
Qed.

(** A render that succeeds has found a field behind every reference. *)
Lemma draw_fields_fields (env : Env) (csv : csv_data.CSVData) (i : Z)
  (draw : loc) (fps : list loc) (h h' : heap) :
  badge_renderer.draw_fields env csv i draw fps h = Py.Ok h' ->
  exists fs, drawing.fields_at h fps fs.
Proof.
  revert h. induction fps as [|l fps IH]; intros h Hdraw.
  - exists []. constructor.
  - cbn in Hdraw.
    apply bind_inv in Hdraw as (f & Hg & Hdraw). apply get_field_Some in Hg.
    apply bind_inv in Hdraw as (text & _ & Hdraw).
    apply bind_inv in Hdraw as (h1 & H1 & Hdraw).
    destruct (IH h1 Hdraw) as [fs Hfs].
    exists (f :: fs). constructor; [exact Hg|].
    eapply Forall2_impl; [exact Hfs|]. intros l' f' Hl'. cbn in Hl'.
    eapply _draw_field_field_back; eassumption.
Qed.

(** X7.  Every badge that [render_badge] returns has exactly the size of
    the template, whichever canvas base was used and whatever was drawn. *)
Theorem rendered_badge_size (env : Env) (config : badge_config.BadgeConfig)
  (csv : csv_data.CSVData) (i : Z) (background : option loc)
  (h h' : heap) (badge : loc) :
  badge_renderer.render_badge env config csv i background h = Py.Ok (badge, h') ->
  exists im,
    h' !! badge = Some (ObjImage im) /\
    PIL.size im =
      (badge_config.badge_width config, badge_config.badge_height config).
Proof.
  unfold badge_renderer.render_badge. intros H.
  apply bind_inv in H as ([b h1] & Hbase & H).
  apply bind_inv in H as (h2 & Hdraw & H). injection H as <- <-.
  pose proof (badge_base_fresh _ _ _ _ _ _ Hbase) as (_ & Hu & _).
  apply badge_base_image in Hbase as [_ Hb].
  destruct (draw_fields_fields _ _ _ _ _ _ _ Hdraw) as [fs Hfs].
  destruct (draw_fields_image _ _ _ _ _ _ _ _ _ Hfs Hb Hdraw)
    as (im & Him & Hsize & _).
  exists im. split; [exact Him|]. rewrite Hsize. apply base_image_size.
Qed.

Lemma rendered_badge_size_witness :
  exists badge h' im,
    badge_renderer.render_badge sample.env sample.config (sample.sheet 3) 0
      (Some 3%positive) sample.objects = Py.Ok (badge, h') /\
    h' !! badge = Some (ObjImage im) /\
    PIL.size im = (1050, 600).
Proof.
  destruct (badge_renderer.render_badge sample.env sample.config
              (sample.sheet 3) 0 (Some 3%positive) sample.objects)
    as [[badge h']|e] eqn:E; [|vm_compute in E; discriminate].
  destruct (rendered_badge_size _ _ _ _ _ _ _ _ E) as (im & Him & Hsize).
  exists badge, h', im. auto.
Defined.

(** X8.  The texts on a rendered badge are those of its canvas base
    followed by one [draw.text] call per field whose cell is not empty, in
    the order of the template's field list; a field whose column is missing
    or empty, or any field of a row outside the table, draws nothing. *)
Theorem fields_drawn_in_list_order (env : Env) (config : badge_config.BadgeConfig)
  (csv : csv_data.CSVData) (i : Z) (background : option loc)
  (h h' : heap) (badge : loc) (fs : list badge_config.FieldPlacement) :
  badge_renderer.render_badge env config csv i background h = Py.Ok (badge, h') ->
  drawing.fields_at h (badge_config.fields config) fs ->
  exists im,
    h' !! badge = Some (ObjImage im) /\
    PIL.texts (PIL.data im) =
      PIL.texts (PIL.data (canvas_base.base_image env config
                             (canvas_base.image_at h background)))
      ++ omap (drawing.field_call env csv i) fs /\
    ((i < 0 \/ csv_data.row_count csv <= i) ->
       omap (drawing.field_call env csv i) fs = []).
Proof.
  unfold badge_renderer.render_badge. intros H Hfs.
  apply bind_inv in H as ([b h1] & Hbase & H).
  apply bind_inv in H as (h2 & Hdraw & H). injection H as <- <-.
  pose proof (badge_base_fresh _ _ _ _ _ _ Hbase) as (_ & Hu & _).
  apply badge_base_image in Hbase as [_ Hb].
  assert (Hfs1 : drawing.fields_at h1 (badge_config.fields config) fs).
  { eapply Forall2_impl; [exact Hfs|]. intros l f Hl. cbn in Hl.
    rewrite Hu; eauto. }
  destruct (draw_fields_image _ _ _ _ _ _ _ _ _ Hfs1 Hb Hdraw)
    as (im & Him & _ & _ & Htexts).
  exists im. split; [exact Him|]. split; [exact Htexts|].
  intros Hi. clear -Hi. induction fs as [|f fs IH]; [reflexivity|].
  change (omap (drawing.field_call env csv i) (f :: fs))
    with (match drawing.field_call env csv i f with
          | Some c => c :: omap (drawing.field_call env csv i) fs
          | None => omap (drawing.field_call env csv i) fs
          end).
  unfold drawing.field_call at 1.
  rewrite get_value_out_of_range by assumption. exact IH.
Qed.

Lemma fields_drawn_in_list_order_witness :
  exists badge h' im,
    badge_renderer.render_badge sample.env sample.config (sample.sheet 3) 0
      None sample.objects = Py.Ok (badge, h') /\
    h' !! badge = Some (ObjImage im) /\
    PIL.tc_text <$> PIL.texts (PIL.data im) =
      ["A VERY LONG NAME THAT MUST SHRINK"; "A VERY LONG NAME THAT MUST SHRINK"]%string /\
    PIL.tc_anchor <$> PIL.texts (PIL.data im) = ["mt"; "mt"]%string.
Proof.
  destruct (badge_renderer.render_badge sample.env sample.config
              (sample.sheet 3) 0 None sample.objects)
    as [[badge h']|e] eqn:E; [|vm_compute in E; discriminate].
  destruct (fields_drawn_in_list_order _ _ _ _ _ _ _ _
              [sample.name_field; sample.small_field] E)
    as (im & Him & Htexts & _).
  - repeat constructor.
  - exists badge, h', im. split; [reflexivity|]. split; [exact Him|].
    rewrite Htexts. split; reflexivity.
Defined.

(** ** models/badge_config.py: templates as JSON *)

Lemma field_round_trip_aux (fp : badge_config.FieldPlacement) :
  serial.field_from_dict (serial.field_to_dict fp) = serial.Built fp.
Proof. destruct fp. vm_compute. reflexivity. Qed.

(** X9.  A field placement survives serialisation: [from_dict] of its
    [to_dict] is the same field, and the dictionary has exactly the ten
    attribute names as keys. *)
Theorem field_round_trip (fp : badge_config.FieldPlacement) :
  serial.field_from_dict (serial.field_to_dict fp) = serial.Built fp /\
  (forall key, is_Some (serial.field_to_dict fp !! key) <->
               key ∈ serial.field_names).
Proof.
  split; [apply field_round_trip_aux|].
  intros key. unfold serial.field_to_dict, serial.field_names.
  rewrite !elem_of_cons, elem_of_nil.
  split.
  - intros [v Hv].
    repeat (apply lookup_insert_Some in Hv as [[<- _]|[_ Hv]]; [tauto|]).
    apply lookup_singleton_Some in Hv as [<- _]. tauto.
  - intros H. repeat (destruct H as [->|H]; [eexists; reflexivity|]).
    destruct H.
Qed.

Lemma attr_insert_ne {A} (d : gmap string json) (key k : string) (v : json)
  (coerce : json -> option A) (dflt : A) :
  key <> k -> serial.attr (<[key := v]> d) k coerce dflt = serial.attr d k coerce dflt.
Proof. intros H. unfold serial.attr. rewrite lookup_insert_ne by exact H. reflexivity. Qed.

(** X10.  [FieldPlacement.from_dict] ignores every key that is not an
    attribute name; it raises exactly when the key [csv_column] is absent;
    and with [csv_column] alone it fills in the defaults of the
    dataclass. *)
Theorem field_from_dict_keys (d : gmap string json) (key : string) (v : json)
  (column : string) :
  (key ∉ serial.field_names ->
     serial.field_from_dict (<[key := v]> d) = serial.field_from_dict d) /\
  (serial.field_from_dict d = serial.Raised <->
     d !! "csv_column"%string = None) /\
  serial.field_from_dict {[ "csv_column"%string := JStr column ]} =
    serial.Built
      {| badge_config.csv_column := column;
         badge_config.x := 0; badge_config.y := 0;
         badge_config.font_family := "Arial"; badge_config.font_size := 24;
         badge_config.font_color := "#000000";
         badge_config.bold := false; badge_config.italic := false;
         badge_config.alignment := "center"; badge_config.max_width := 0 |}.
Proof.
  split; [|split].
  - unfold serial.field_names. rewrite !not_elem_of_cons.
    intros (H1 & H2 & H3 & H4 & H5 & H6 & H7 & H8 & H9 & H10 & _).
    unfold serial.field_from_dict.
    rewrite lookup_insert_ne by exact H1.
    rewrite !attr_insert_ne by assumption. reflexivity.
  - unfold serial.field_from_dict.
    destruct (d !! "csv_column"%string) as [c|]; [|tauto].
    split; [|discriminate].
    destruct (_ ≫= _); discriminate.
  - vm_compute. reflexivity.
Qed.

Lemma field_from_dict_keys_witness :
  serial.field_from_dict
    (<["locked"%string := JBool true]>
       (serial.field_to_dict sample.name_field)) =
    serial.Built sample.name_field /\
  serial.field_from_dict {[ "x"%string := JInt 7 ]} = serial.Raised.
Proof.
  split.
  - rewrite (proj1 (field_from_dict_keys (serial.field_to_dict sample.name_field)
                      "locked" (JBool true) "")).
    + apply field_round_trip_aux.
    + vm_compute. intros H. repeat (inversion H as [|? ? ? H']; subst; clear H; rename H' into H).
  - apply (proj1 (proj2 (field_from_dict_keys {[ "x"%string := JInt 7 ]}
                           "" JNull ""))).
    reflexivity.
Defined.

Lemma fields_to_dicts_ok (h : heap) (ls : list loc)
  (fs : list badge_config.FieldPlacement) :
  drawing.fields_at h ls fs ->
  serial.fields_to_dicts h ls =
    Py.Ok ((fun f => JObj (serial.field_to_dict f)) <$> fs).
Proof.
  induction 1 as [|l f ls fs Hl _ IH]; [reflexivity|].
  cbn. apply get_field_Some in Hl. unfold_bind. rewrite Hl, IH. reflexivity.
Qed.

Lemma fields_from_json_round_trip (fs : list badge_config.FieldPlacement) :
  serial.fields_from_json ((fun f => JObj (serial.field_to_dict f)) <$> fs)
  = serial.Built fs.
Proof.
  induction fs as [|f fs IH]; [reflexivity|].
  cbn [fmap list_fmap serial.fields_from_json serial.field_from_json].
  rewrite field_round_trip_aux, IH. reflexivity.
Qed.

(** The objects created for the fields of a loaded template. *)
Lemma alloc_fields_spec (fs : list badge_config.FieldPlacement) (h h' : heap)
  (ls : list loc) :
  serial.alloc_fields fs h = (ls, h') ->
  drawing.fields_at h' ls fs /\
  Forall (fun l => h !! l = None) ls /\
  NoDup ls /\
  Heap.unchanged h h'.
Proof.
  revert h h' ls.
  induction fs as [|f fs IH]; intros h h' ls; cbn [serial.alloc_fields].
  - intros [= <- <-].
    split; [constructor|]. split; [constructor|]. split; [constructor|].
    apply unchanged_refl.
  - destruct (Heap.alloc (ObjField f) h) as [l h1] eqn:Ea.
    destruct (serial.alloc_fields fs h1) as [ls1 h2] eqn:Er.
    intros [= <- <-].
    destruct (IH _ _ _ Er) as (Hat & Hfresh & Hnd & Hu).
    pose proof (unchanged_alloc _ _ _ _ Ea) as Hu1.
    pose proof (alloc_lookup _ _ _ _ Ea) as Hl1.
    apply alloc_spec in Ea as [Hl _].
    assert (Hfresh' : Forall (fun l' => h !! l' = None) ls1).
    { eapply Forall_impl; [exact Hfresh|]. intros l' Hl'. cbn in Hl'.
      destruct (h !! l') eqn:E; [|reflexivity].
      rewrite <- Hl', Hu1; eauto. }
    repeat split.
    + constructor; [|exact Hat]. rewrite Hu; eauto.
    + constructor; assumption.
    + constructor; [|exact Hnd]. intros Hin.
      rewrite Forall_forall in Hfresh. specialize (Hfresh l Hin). congruence.
    + eapply unchanged_trans; eassumption.
Qed.

(** X11.  Loading what [BadgeConfig.to_dict] produced gives a deep copy of
    the template: the same settings, and for every field a new object,
    distinct from all existing ones, with the same attribute values; no
    existing object is touched.  This is the snapshot [start_pdf_export]
    takes before it starts its thread. *)
Theorem config_round_trip (config : badge_config.BadgeConfig) (h : heap)
  (fs : list badge_config.FieldPlacement) :
  drawing.fields_at h (badge_config.fields config) fs ->
  exists d ls h',
    serial.config_to_dict config h = Py.Ok d /\
    serial.config_from_dict d h =
      serial.Built
        ({| badge_config.background_image_path :=
              badge_config.background_image_path config;
            badge_config.badge_width := badge_config.badge_width config;
            badge_config.badge_height := badge_config.badge_height config;
            badge_config.fields := ls;
            badge_config.badges_per_row := badge_config.badges_per_row config;
            badge_config.badges_per_col := badge_config.badges_per_col config;
            badge_config.page_size := badge_config.page_size config;
            badge_config.margin_mm := badge_config.margin_mm config;
            badge_config.spacing_mm := badge_config.spacing_mm config |}, h') /\
    drawing.fields_at h' ls fs /\
    Forall (fun l => h !! l = None) ls /\
    NoDup ls /\
    Heap.unchanged h h'.
Proof.
  intros Hfs.
  destruct (serial.alloc_fields fs h) as [ls h'] eqn:Ea.
  eexists _, ls, h'. split; [|split].
  - unfold serial.config_to_dict. rewrite (fields_to_dicts_ok h _ fs Hfs).
    reflexivity.
  - unfold serial.config_from_dict.
    change (default (JList []) (_ !! "fields"%string))
      with (JList ((fun f => JObj (serial.field_to_dict f)) <$> fs)).
    cbn [serial.iterate]. rewrite fields_from_json_round_trip.
    destruct config. vm_compute serial.attr. cbn. rewrite Ea. reflexivity.
  - apply alloc_fields_spec, Ea.
Qed.

Lemma config_round_trip_witness :
  exists d ls h',
    serial.config_to_dict sample.config sample.objects = Py.Ok d /\
    fst <$> (match serial.config_from_dict d sample.objects with
             | serial.Built r => Some r
             | _ => None
             end) =
      Some {| badge_config.background_image_path := "";
              badge_config.badge_width := 1050; badge_config.badge_height := 600;
              badge_config.fields := ls;
              badge_config.badges_per_row := 2; badge_config.badges_per_col := 4;
              badge_config.page_size := "letter";
              badge_config.margin_mm := 10; badge_config.spacing_mm := 2 |} /\
    drawing.fields_at h' ls [sample.name_field; sample.small_field] /\
    Forall (fun l => sample.objects !! l = None) ls.
Proof.
  destruct (config_round_trip sample.config sample.objects
              [sample.name_field; sample.small_field])
    as (d & ls & h' & Hto & Hfrom & Hat & Hfresh & _).
  - repeat constructor.
  - exists d, ls, h'. split; [exact Hto|]. rewrite Hfrom.
    split; [reflexivity|]. split; assumption.
Defined.

(** ** export/badge_renderer.py: rendering depends on values only *)

Lemma draw_fields_value (env : Env) (csv : csv_data.CSVData) (i : Z)
  (draw : loc) (fps : list loc) (fs : list badge_config.FieldPlacement)
  (h h' : heap) (im : PIL.Image) :
  drawing.fields_at h fps fs ->
  h !! draw = Some (ObjImage im) ->
  badge_renderer.draw_fields env csv i draw fps h = Py.Ok h' ->
  h' !! draw = Some (ObjImage (fold_left (rendering.draw_on env csv i) fs im)).
Proof.
  revert fs h im.
  induction fps as [|l fps IH]; intros fs0 h0 im Hfs0 Hd Hdraw.
  - inversion Hfs0; subst. cbn in Hdraw. injection Hdraw as <-. exact Hd.
  - inversion Hfs0 as [|? f ? fs Hl0 Hrest0]; subst.
    cbn in Hdraw.
    apply bind_inv in Hdraw as (f0 & Hg & Hdraw).
    apply get_field_Some in Hg. assert (f0 = f) as -> by congruence.
    apply bind_inv in Hdraw as (text & Hv & Hdraw).
    apply bind_inv in Hdraw as (h1 & H1 & Hdraw).
    assert (Hd1 : h1 !! draw = Some (ObjImage (rendering.draw_on env csv i im f))).
    { unfold rendering.draw_on, drawing.field_call. rewrite Hv.
      unfold drawing.text_call.
      destruct text as [text|]; [|cbn in H1; injection H1 as <-; exact Hd].
      destruct (Py.truthy text) eqn:Et.
      - rewrite (_draw_field_draws env draw l text h0 f im Hl0 Hd) in H1
          by (intros ->; discriminate).
        injection H1 as <-. apply lookup_insert_eq.
      - apply truthy_empty in Et as ->.
        rewrite _draw_field_empty in H1 by reflexivity.
        injection H1 as <-. exact Hd. }
    apply _draw_field_frame in H1 as [Hother _].
    assert (Hfs1 : drawing.fields_at h1 fps fs).
    { eapply Forall2_impl; [exact Hrest0|]. intros l' f' Hl'. cbn in Hl'.
      rewrite Hother; [exact Hl'|]. congruence. }
    cbn [fold_left]. exact (IH fs h1 _ Hfs1 Hd1 Hdraw).
Qed.

(** The badge returned by a render, as a value. *)
Lemma render_badge_value (env : Env) (config : badge_config.BadgeConfig)
  (csv : csv_data.CSVData) (i : Z) (background : option loc)
  (h h' : heap) (badge : loc) (fs : list badge_config.FieldPlacement) :
  badge_renderer.render_badge env config csv i background h = Py.Ok (badge, h') ->
  drawing.fields_at h (badge_config.fields config) fs ->
  h' !! badge =
    Some (ObjImage (rendering.rendered env config csv i
                      (canvas_base.image_at h background) fs)).
Proof.
  unfold badge_renderer.render_badge. intros H Hfs.
  apply bind_inv in H as ([b h1] & Hbase & H).
  apply bind_inv in H as (h2 & Hdraw & H). injection H as <- <-.
  pose proof (badge_base_fresh _ _ _ _ _ _ Hbase) as (_ & Hu & _).
  apply badge_base_image in Hbase as [_ Hb].
  assert (Hfs1 : drawing.fields_at h1 (badge_config.fields config) fs).
  { eapply Forall2_impl; [exact Hfs|]. intros l f Hl. cbn in Hl.
    rewrite Hu; eauto. }
  exact (draw_fields_value _ _ _ _ _ _ _ _ _ Hfs1 Hb Hdraw).
Qed.

Lemma fields_at_well_formed (h : heap) (ls : list loc)
  (fs : list badge_config.FieldPlacement) :
  drawing.fields_at h ls fs ->
  Forall (fun l => exists fp, h !! l = Some (ObjField fp)) ls.
Proof. induction 1; constructor; eauto. Qed.

(** X12.  A badge depends on values only, not on which objects hold them:
    rendering from a copy of the template (other field objects with the
    same attribute values, another background object with the same image,
    in any heap) returns the same image as rendering from the original.
    The export thread, which works on the snapshot of
    [start_pdf_export], therefore draws what the live template would have
    drawn when the snapshot was taken. *)
Theorem copy_renders_the_same (env : Env) (config : badge_config.BadgeConfig)
  (csv : csv_data.CSVData) (i : Z) (bg bg2 : option loc) (h h' h2 : heap)
  (badge : loc) (ls2 : list loc) (fs : list badge_config.FieldPlacement) :
  badge_renderer.render_badge env config csv i bg h = Py.Ok (badge, h') ->
  drawing.fields_at h (badge_config.fields config) fs ->
  drawing.fields_at h2 ls2 fs ->
  canvas_base.image_at h bg = canvas_base.image_at h2 bg2 ->
  (bg = None -> bg2 = None) ->
  exists badge2 h2' im,
    badge_renderer.render_badge env (rendering.with_fields ls2 config) csv i
      bg2 h2 = Py.Ok (badge2, h2') /\
    h' !! badge = Some (ObjImage im) /\
    h2' !! badge2 = Some (ObjImage im) /\
    im = rendering.rendered env config csv i (canvas_base.image_at h bg) fs.
Proof.
  intros Hrender Hfs Hfs2 Himg Hnone.
  pose proof (render_badge_value _ _ _ _ _ _ _ _ _ Hrender Hfs) as Hval.
  assert (Hwf : Heap.well_formed
                  (badge_config.fields (rendering.with_fields ls2 config)) bg2 h2).
  { split; [exact (fields_at_well_formed _ _ _ Hfs2)|].
    intros b2 ->. destruct bg as [b|].
    - destruct (render_badge_background _ _ _ _ _ _ _ _ Hrender) as [im Him].
      unfold canvas_base.image_at in Himg. rewrite Him in Himg.
      destruct (h2 !! b2) as [[im2|]|]; try discriminate. eauto.
    - specialize (Hnone eq_refl). discriminate. }
  destruct (render_badge_ok env (rendering.with_fields ls2 config) csv i bg2 h2 Hwf)
    as (badge2 & h2' & Hrender2).
  pose proof (render_badge_value _ _ _ _ _ _ _ _ _ Hrender2 Hfs2) as Hval2.
  exists badge2, h2', (rendering.rendered env config csv i
                         (canvas_base.image_at h bg) fs).
  split; [exact Hrender2|]. split; [exact Hval|]. split; [|reflexivity].
  rewrite Hval2, <- Himg. reflexivity.
Qed.

Lemma copy_renders_the_same_witness :
  let h2 : heap :=
    {[ 7%positive := ObjField sample.small_field;
       8%positive := ObjImage sample.background;
       9%positive := ObjField sample.name_field ]} in
  exists badge h' badge2 h2' im,
    badge_renderer.render_badge sample.env sample.config (sample.sheet 3) 1
      (Some 3%positive) sample.objects = Py.Ok (badge, h') /\
    badge_renderer.render_badge sample.env
      (rendering.with_fields [9%positive; 7%positive] sample.config)
      (sample.sheet 3) 1 (Some 8%positive) h2 = Py.Ok (badge2, h2') /\
    h' !! badge = Some (ObjImage im) /\
    h2' !! badge2 = Some (ObjImage im).
Proof.
  cbv zeta.
  destruct (badge_renderer.render_badge sample.env sample.config
              (sample.sheet 3) 1 (Some 3%positive) sample.objects)
    as [[badge h']|e] eqn:E; [|vm_compute in E; discriminate].
  destruct (copy_renders_the_same sample.env sample.config (sample.sheet 3) 1
              (Some 3%positive) (Some 8%positive) sample.objects h'
              {[ 7%positive := ObjField sample.small_field;
                 8%positive := ObjImage sample.background;
                 9%positive := ObjField sample.name_field ]}
              badge [9%positive; 7%positive]
              [sample.name_field; sample.small_field] E)
    as (badge2 & h2' & im & H2 & Him & Him2 & _).
  - repeat constructor.
  - repeat constructor.
  - reflexivity.
  - discriminate.
  - exists badge, h', badge2, h2', im. auto.
Defined.

(** ** gui/canvas_editor.py: the geometry of the preview *)

Lemma scale_factor_fit (iw ih cw ch : Z) :
  0 < iw -> 0 < ih ->
  exists s : Q,
    image_utils.compute_scale_factor iw ih cw ch = Py.Ok s /\
    (inject_Z iw * s <= inject_Z cw)%Q /\
    (inject_Z ih * s <= inject_Z ch)%Q /\
    ((inject_Z iw * s == inject_Z cw)%Q \/ (inject_Z ih * s == inject_Z ch)%Q).
Proof.
  intros Hw Hh. unfold image_utils.compute_scale_factor.
  pose proof (inject_Z_pos _ Hw) as Hqw.
  pose proof (inject_Z_pos _ Hh) as Hqh.
  destruct (iw <=? 0) eqn:E1; [apply Z.leb_le in E1; lia|].
  destruct (ih <=? 0) eqn:E2; [apply Z.leb_le in E2; lia|].
  cbn [orb].
  rewrite !truediv_ok by (apply pos_nonzero; assumption).
  cbn. eexists; split; [reflexivity|].
  unfold Py.min.
  destruct (Qlt_le_dec (inject_Z ch / inject_Z ih) (inject_Z cw / inject_Z iw)) as [L|L].
  - repeat split.
    + apply div_mul_le; [assumption..|]. apply Qlt_le_weak, L.
    + rewrite div_mul_cancel by assumption. apply Qle_refl.
    + right. apply div_mul_cancel; assumption.
  - repeat split.
    + rewrite div_mul_cancel by assumption. apply Qle_refl.
    + apply div_mul_le; assumption.
    + left. apply div_mul_cancel; assumption.
Qed.

Lemma inject_Z_sub (a b : Z) : (inject_Z (a - b) == inject_Z a - inject_Z b)%Q.
Proof.
  unfold Z.sub. rewrite inject_Z_plus, inject_Z_opp. reflexivity.
Qed.

Lemma half_spec (a : Q) : (a / 2 * 2 == a)%Q.
Proof. field. Qed.

Lemma mult_pos_nonpos (a s : Q) : (0 < a -> s <= 0 -> a * s <= 0)%Q.
Proof.
  intros Ha Hs.
  assert (H : (0 <= a * - s)%Q)
    by (apply Qmult_le_0_compat; [apply Qlt_le_weak, Ha|lra]).
  assert (E : (a * - s == - (a * s))%Q) by ring.
  rewrite E in H. lra.
Qed.

(** In binary64 the border can fall short of 10 pixels by a rounding
    error: in a widget 340 pixels wide the 1050 x 600 badge is scaled by
    the float nearest to 320/1050 and starts at 9.999999999999972. *)
Lemma border_rounding_binary64 :
  exists v,
    binary64.refresh sample.config 340 500 = Py.Ok v /\
    binary64.ltb (binary64._offset_x v) (binary64.of_Z 10) = true /\
    (binary64.to_Q (binary64._offset_x v) < 10)%Q.
Proof.
  eexists. split; [vm_compute; reflexivity|].
  split; vm_compute; reflexivity.
Qed.

(** X13.  In exact arithmetic: with a badge of positive size and a widget
    more than 20 pixels wide and high, [refresh] shows the badge with a
    positive scale, centred in the widget, with a border of at least 10
    pixels on every side and of exactly 10 pixels in one direction (the
    scale and the offsets not rounded). *)
Theorem preview_centred (config : badge_config.BadgeConfig)
  (winfo_width winfo_height : Z) :
  let cw := canvas_editor.or_int winfo_width canvas_editor.CANVAS_MAX_W in
  let ch := canvas_editor.or_int winfo_height canvas_editor.CANVAS_MAX_H in
  0 < badge_config.badge_width config ->
  0 < badge_config.badge_height config ->
  20 < cw -> 20 < ch ->
  exists v x1 y1 x2 y2,
    canvas_editor.refresh config winfo_width winfo_height = Py.Ok v /\
    canvas_editor.border config v = (x1, y1, x2, y2) /\
    (0 < canvas_editor._scale v)%Q /\
    (10 <= x1)%Q /\ (x2 <= inject_Z cw - 10)%Q /\
    (10 <= y1)%Q /\ (y2 <= inject_Z ch - 10)%Q /\
    (x1 + x2 == inject_Z cw)%Q /\ (y1 + y2 == inject_Z ch)%Q /\
    ((x1 == 10)%Q \/ (y1 == 10)%Q).
Proof.
  intros cw ch Hbw Hbh Hcw Hch.
  destruct (scale_factor_fit _ _ (cw - 20) (ch - 20) Hbw Hbh)
    as (s & Hs & Hfw & Hfh & Htight).
  unfold canvas_editor.refresh. fold cw ch. rewrite Hs. cbn.
  eexists _, _, _, _, _. split; [reflexivity|]. split; [reflexivity|].
  cbn [canvas_editor._scale canvas_editor._offset_x canvas_editor._offset_y].
  rewrite !inject_Z_sub in Htight.
  rewrite inject_Z_sub in Hfw, Hfh.
  change (inject_Z 20) with 20%Q in Hfw, Hfh, Htight.
  pose proof (inject_Z_pos _ Hbw) as Hqw.
  pose proof (inject_Z_pos _ Hbh) as Hqh.
  assert (Hqcw : (20 < inject_Z cw)%Q)
    by (change 20%Q with (inject_Z 20); rewrite <- Zlt_Qlt; lia).
  assert (Hqch : (20 < inject_Z ch)%Q)
    by (change 20%Q with (inject_Z 20); rewrite <- Zlt_Qlt; lia).
  pose proof (half_spec (inject_Z cw - inject_Z (badge_config.badge_width config) * s)) as Hx.
  pose proof (half_spec (inject_Z ch - inject_Z (badge_config.badge_height config) * s)) as Hy.
  set (x1 := ((inject_Z cw - inject_Z (badge_config.badge_width config) * s) / 2)%Q) in *.
  set (y1 := ((inject_Z ch - inject_Z (badge_config.badge_height config) * s) / 2)%Q) in *.
  assert (Hpos : (0 < s)%Q).
  { destruct (Qlt_le_dec 0 s) as [L|L]; [exact L|exfalso].
    pose proof (mult_pos_nonpos _ _ Hqw L).
    pose proof (mult_pos_nonpos _ _ Hqh L).
    destruct Htight as [T|T]; lra. }
  clearbody x1 y1.
  repeat split; lra.
Qed.

(** The editor before its widget has a size: the default 700 x 500. *)
Lemma preview_centred_witness :
  exists v x1 y1 x2 y2,
    canvas_editor.refresh sample.config 0 0 = Py.Ok v /\
    canvas_editor.border sample.config v = (x1, y1, x2, y2) /\
    (0 < canvas_editor._scale v)%Q /\
    (10 <= x1)%Q /\ (x2 <= inject_Z 700 - 10)%Q /\
    (10 <= y1)%Q /\ (y2 <= inject_Z 500 - 10)%Q /\
    (x1 + x2 == inject_Z 700)%Q /\ (y1 + y2 == inject_Z 500)%Q /\
    ((x1 == 10)%Q \/ (y1 == 10)%Q).
Proof.
  apply (preview_centred sample.config 0 0); reflexivity.
Defined.

Lemma round1_cases (q : Q) :
  let n := Qfloor (q * 10) in
  let r := (q * 10 - inject_Z n)%Q in
  (0 <= r)%Q /\ (r < 1)%Q /\
  ((canvas_editor.round1 q = (inject_Z n / 10)%Q /\ (r <= 1 # 2)%Q) \/
   (canvas_editor.round1 q = (inject_Z (n + 1) / 10)%Q /\ (1 # 2 <= r)%Q)).
Proof.
  intros n r.
  pose proof (Qfloor_le (q * 10)) as Hlo.
  pose proof (Qlt_floor (q * 10)) as Hhi.
  fold n in Hlo, Hhi. rewrite inject_Z_plus in Hhi.
  change (inject_Z 1) with 1%Q in Hhi.
  split; [unfold r; lra|]. split; [unfold r; lra|].
  unfold canvas_editor.round1. fold n. fold r.
  destruct (Qlt_le_dec r (1 # 2)) as [L|L].
  - left. split; [reflexivity|lra].
  - destruct (Qlt_le_dec (1 # 2) r) as [L'|L'].
    + right. split; [reflexivity|exact L].
    + destruct (Z.even n); cbn [negb].
      * left. split; [reflexivity|exact L'].
      * right. split; [reflexivity|exact L].
Qed.

Lemma tenth_le (m b : Z) : m <= 10 * b -> (inject_Z m / 10 <= inject_Z b)%Q.
Proof.
  intros H. rewrite Zle_Qle, inject_Z_mult in H.
  change (inject_Z 10) with 10%Q in H.
  assert (E : (inject_Z m / 10 * 10 == inject_Z m)%Q) by field.
  lra.
Qed.

Lemma tenth_ge (m : Z) : 0 <= m -> (0 <= inject_Z m / 10)%Q.
Proof.
  intros H. rewrite Zle_Qle in H. change (inject_Z 0) with 0%Q in H.
  assert (E : (inject_Z m / 10 * 10 == inject_Z m)%Q) by field.
  lra.
Qed.

(** Rounding to one decimal stays between two integers. *)
Lemma round1_bounds (q : Q) (b : Z) :
  (0 <= q)%Q -> (q <= inject_Z b)%Q ->
  (0 <= canvas_editor.round1 q)%Q /\ (canvas_editor.round1 q <= inject_Z b)%Q.
Proof.
  intros H0 Hb.
  pose proof (Qfloor_le (q * 10)) as Hlo.
  assert (Hn0 : 0 <= Qfloor (q * 10)).
  { change 0 with (Qfloor 0). apply Qfloor_resp_le. lra. }
  assert (Hnb : Qfloor (q * 10) <= 10 * b).
  { rewrite <- (Qfloor_Z (10 * b)). apply Qfloor_resp_le.
    rewrite inject_Z_mult. change (inject_Z 10) with 10%Q. lra. }
  destruct (round1_cases q) as (Hr0 & Hr1 & [[-> Hr]|[-> Hr]]).
  - split; [apply tenth_ge; exact Hn0|apply tenth_le; exact Hnb].
  - split; [apply tenth_ge; lia|apply tenth_le].
    assert (Hlt : Qfloor (q * 10) < 10 * b).
    { rewrite Zlt_Qlt, inject_Z_mult. change (inject_Z 10) with 10%Q. lra. }
    lia.
Qed.

Lemma round1_comp (q q' : Q) :
  (q == q')%Q -> (canvas_editor.round1 q == canvas_editor.round1 q')%Q.
Proof.
  intros E. unfold canvas_editor.round1.
  assert (En : Qfloor (q * 10) = Qfloor (q' * 10))
    by (apply Qfloor_comp; rewrite E; reflexivity).
  rewrite En.
  destruct (Qlt_le_dec (q * 10 - inject_Z (Qfloor (q' * 10))) (1 # 2)) as [L|L];
    destruct (Qlt_le_dec (q' * 10 - inject_Z (Qfloor (q' * 10))) (1 # 2)) as [L'|L'];
    try (exfalso; lra); [reflexivity|].
  destruct (Qlt_le_dec (1 # 2) (q * 10 - inject_Z (Qfloor (q' * 10)))) as [M|M];
    destruct (Qlt_le_dec (1 # 2) (q' * 10 - inject_Z (Qfloor (q' * 10)))) as [M'|M'];
    try (exfalso; lra); reflexivity.
Qed.

(** A multiple of one tenth is its own rounding. *)
Lemma round1_tenth (a : Z) :
  (canvas_editor.round1 (inject_Z a / 10) == inject_Z a / 10)%Q.
Proof.
  assert (E : (inject_Z a / 10 * 10 == inject_Z a)%Q) by field.
  assert (En : Qfloor (inject_Z a / 10 * 10) = a)
    by (rewrite (Qfloor_comp _ _ E); apply Qfloor_Z).
  destruct (round1_cases (inject_Z a / 10)) as (Hr0 & Hr1 & [[-> Hr]|[-> Hr]]).
  - rewrite En. reflexivity.
  - exfalso. rewrite En in Hr. lra.
Qed.

(** [max(0, min(q, b))] lies in [0, b]. *)
Lemma clamp_bounds (q b : Q) :
  (0 <= b)%Q ->
  (0 <= Py.max 0 (Py.min q b))%Q /\ (Py.max 0 (Py.min q b) <= b)%Q.
Proof.
  intros Hb. unfold Py.max, Py.min.
  destruct (Qlt_le_dec b q) as [L|L];
    destruct (Qlt_le_dec 0 _) as [M|M]; split; lra.
Qed.

(** ... and is [q] itself when [q] is already there. *)
Lemma clamp_inside (q b : Q) :
  (0 <= q)%Q -> (q <= b)%Q -> (Py.max 0 (Py.min q b) == q)%Q.
Proof.
  intros H0 Hb. unfold Py.max, Py.min.
  destruct (Qlt_le_dec b q) as [L|L]; [exfalso; lra|].
  destruct (Qlt_le_dec 0 q) as [M|M]; [reflexivity|lra].
Qed.

Lemma dropped_inv (config : badge_config.BadgeConfig) (v : canvas_editor.view)
  (cx cy nx ny : Q) :
  canvas_editor.dropped config v cx cy = Py.Ok (nx, ny) ->
  exists ix iy,
    image_utils.canvas_to_image cx cy (canvas_editor._scale v)
      (canvas_editor._offset_x v) (canvas_editor._offset_y v) = Py.Ok (ix, iy) /\
    nx = canvas_editor.round1
           (Py.max 0 (Py.min ix (inject_Z (badge_config.badge_width config)))) /\
    ny = canvas_editor.round1
           (Py.max 0 (Py.min iy (inject_Z (badge_config.badge_height config)))).
Proof.
  unfold canvas_editor.dropped. intros H.
  apply bind_inv in H as ([ix iy] & Hc & H).
  apply Ok_inj in H. injection H as <- <-.
  exists ix, iy. auto.
Qed.

(** X14.  Wherever the text item of a dragged field is released,
    [_on_release] stores a position inside the badge,
    [0 <= x <= badge_width] and [0 <= y <= badge_height], in tenths of a
    pixel; it changes nothing else: the other attributes of the field and
    all other objects stay as they were. *)
Theorem released_field_in_bounds (config : badge_config.BadgeConfig)
  (v : canvas_editor.view) (idx : Z) (cx cy : Q) (h h' : heap) :
  0 <= badge_config.badge_width config ->
  0 <= badge_config.badge_height config ->
  canvas_editor._on_release config v (Some idx) (Some (cx, cy)) h = Py.Ok h' ->
  exists l fp fp',
    csv_data.list_getitem (badge_config.fields config) idx = Py.Ok l /\
    h !! l = Some (ObjField fp) /\
    h' !! l = Some (ObjField fp') /\
    fp' = canvas_editor.with_position
            (badge_config.x fp') (badge_config.y fp') fp /\
    (0 <= badge_config.x fp')%Q /\
    (badge_config.x fp' <= inject_Z (badge_config.badge_width config))%Q /\
    (0 <= badge_config.y fp')%Q /\
    (badge_config.y fp' <= inject_Z (badge_config.badge_height config))%Q /\
    (exists m n : Z, badge_config.x fp' = (inject_Z m / 10)%Q /\
                     badge_config.y fp' = (inject_Z n / 10)%Q) /\
    (forall l', l' <> l -> h' !! l' = h !! l').
Proof.
  intros Hbw Hbh H. unfold canvas_editor._on_release in H.
  apply bind_inv in H as ([nx ny] & Hd & H).
  apply bind_inv in H as (l & Hl & H).
  apply bind_inv in H as (fp & Hfp & H).
  apply Ok_inj in H. subst h'.
  apply get_field_Some in Hfp.
  apply dropped_inv in Hd as (ix & iy & _ & -> & ->).
  rewrite Zle_Qle in Hbw, Hbh. change (inject_Z 0) with 0%Q in Hbw, Hbh.
  destruct (clamp_bounds ix _ Hbw) as [Hx0 Hx1].
  destruct (clamp_bounds iy _ Hbh) as [Hy0 Hy1].
  destruct (round1_bounds _ _ Hx0 Hx1) as [Rx0 Rx1].
  destruct (round1_bounds _ _ Hy0 Hy1) as [Ry0 Ry1].
  eexists l, fp, _. split; [exact Hl|]. split; [exact Hfp|].
  split; [apply lookup_insert_eq|].
  cbn [canvas_editor.with_position badge_config.x badge_config.y].
  split; [reflexivity|].
  repeat (split; [assumption|]).
  split.
  - destruct (round1_cases (Py.max 0 (Py.min ix (inject_Z (badge_config.badge_width config)))))
      as (_ & _ & [[Ex _]|[Ex _]]);
    destruct (round1_cases (Py.max 0 (Py.min iy (inject_Z (badge_config.badge_height config)))))
      as (_ & _ & [[Ey _]|[Ey _]]);
    eexists _, _; split; eassumption.
  - intros l' Hne. apply lookup_insert_ne. congruence.
Qed.

(** A release far outside the badge, to the right and above. *)
Lemma released_field_in_bounds_witness :
  let v := {| canvas_editor._scale := 1 # 2;
              canvas_editor._offset_x := 10;
              canvas_editor._offset_y := 10 |} in
  exists h' l fp fp',
    canvas_editor._on_release sample.config v (Some 0) (Some (5000, -3)%Q)
      sample.objects = Py.Ok h' /\
    sample.objects !! l = Some (ObjField fp) /\
    h' !! l = Some (ObjField fp') /\
    (0 <= badge_config.x fp')%Q /\ (badge_config.x fp' <= inject_Z 1050)%Q /\
    (0 <= badge_config.y fp')%Q /\ (badge_config.y fp' <= inject_Z 600)%Q.
Proof.
  cbv zeta.
  destruct (canvas_editor._on_release sample.config
              {| canvas_editor._scale := 1 # 2;
                 canvas_editor._offset_x := 10;
                 canvas_editor._offset_y := 10 |}
              (Some 0) (Some (5000, -3)%Q) sample.objects)
    as [h'|e] eqn:E; [|vm_compute in E; discriminate].
  destruct (released_field_in_bounds sample.config
              {| canvas_editor._scale := 1 # 2;
                 canvas_editor._offset_x := 10;
                 canvas_editor._offset_y := 10 |}
              0 5000 (-3) sample.objects h')
    as (l & fp & fp' & _ & Hfp & Hfp' & _ & Hx0 & Hx1 & Hy0 & Hy1 & _);
    [vm_compute; discriminate | vm_compute; discriminate | exact E |].
  exists h', l, fp, fp'. auto 10.
Defined.

Lemma canvas_to_image_of_canvas (a b scale offset_x offset_y : Q) :
  ~ (scale == 0)%Q ->
  exists a' b',
    image_utils.canvas_to_image (a * scale + offset_x) (b * scale + offset_y)
      scale offset_x offset_y = Py.Ok (a', b') /\
    (a' == a)%Q /\ (b' == b)%Q.
Proof.
  intros Hne. unfold image_utils.canvas_to_image.
  destruct (Qeq_bool scale 0) eqn:E; [apply Qeq_bool_iff in E; contradiction|].
  rewrite !truediv_ok by assumption. cbn.
  do 2 eexists. split; [reflexivity|]. split; field; assumption.
Qed.

Lemma round1_inside (q : Q) (a : Z) (ix b : Q) :
  (ix == q)%Q -> (q == inject_Z a / 10)%Q -> (0 <= q)%Q -> (q <= b)%Q ->
  (canvas_editor.round1 (Py.max 0 (Py.min ix b)) == q)%Q.
Proof.
  intros Ei Ea H0 Hb.
  assert (Ec : (Py.max 0 (Py.min ix b) == inject_Z a / 10)%Q).
  { rewrite clamp_inside by lra. rewrite Ei. exact Ea. }
  rewrite (round1_comp _ _ Ec), round1_tenth. symmetry. exact Ea.
Qed.

(** X15.  A field that lies inside the badge at a position in tenths of a
    pixel keeps its position when its text item is released where
    [_draw_field] put it, whatever the (non-zero) scale and the offsets of
    the preview: clamping and rounding undo nothing.  With a zero scale
    every release puts the field at (0, 0). *)
Theorem release_where_drawn (config : badge_config.BadgeConfig)
  (v : canvas_editor.view) (fp : badge_config.FieldPlacement) (a b : Z) :
  (badge_config.x fp == inject_Z a / 10)%Q ->
  (badge_config.y fp == inject_Z b / 10)%Q ->
  (0 <= badge_config.x fp)%Q ->
  (badge_config.x fp <= inject_Z (badge_config.badge_width config))%Q ->
  (0 <= badge_config.y fp)%Q ->
  (badge_config.y fp <= inject_Z (badge_config.badge_height config))%Q ->
  (~ (canvas_editor._scale v == 0)%Q ->
     exists nx ny,
       (let '(cx, cy) := canvas_editor.field_anchor v fp in
        canvas_editor.dropped config v cx cy) = Py.Ok (nx, ny) /\
       (nx == badge_config.x fp)%Q /\ (ny == badge_config.y fp)%Q) /\
  ((canvas_editor._scale v == 0)%Q ->
     forall cx cy, exists nx ny,
       canvas_editor.dropped config v cx cy = Py.Ok (nx, ny) /\
       (nx == 0)%Q /\ (ny == 0)%Q).
Proof.
  intros Ea Eb Hx0 Hx1 Hy0 Hy1. split.
  - intros Hne.
    unfold canvas_editor.field_anchor, image_utils.image_to_canvas,
      canvas_editor.dropped.
    destruct (canvas_to_image_of_canvas (badge_config.x fp) (badge_config.y fp)
                _ (canvas_editor._offset_x v) (canvas_editor._offset_y v) Hne)
      as (ix & iy & -> & Ex & Ey).
    cbn. eexists _, _. split; [reflexivity|].
    split; eapply round1_inside; eassumption.
  - intros Hz cx cy. unfold canvas_editor.dropped, image_utils.canvas_to_image.
    apply Qeq_bool_iff in Hz. rewrite Hz. cbn.
    eexists _, _. split; [reflexivity|].
    assert (Hclamp : forall c : Q, Py.max 0 (Py.min 0 c) = 0%Q).
    { intros c. unfold Py.max, Py.min.
      destruct (Qlt_le_dec c 0) as [L|L];
        destruct (Qlt_le_dec 0 _) as [M|M]; try reflexivity; exfalso; lra. }
    rewrite !Hclamp. split; reflexivity.
Qed.

(** The name of the sample badge, in a preview at two thirds of its
    size. *)
Lemma release_where_drawn_witness :
  let v := {| canvas_editor._scale := 2 # 3;
              canvas_editor._offset_x := 0;
              canvas_editor._offset_y := 50 |} in
  exists nx ny,
    (let '(cx, cy) := canvas_editor.field_anchor v sample.name_field in
     canvas_editor.dropped sample.config v cx cy) = Py.Ok (nx, ny) /\
    (nx == 525)%Q /\ (ny == 100)%Q.
Proof.
  cbv zeta.
  apply (proj1 (release_where_drawn sample.config
                  {| canvas_editor._scale := 2 # 3;
                     canvas_editor._offset_x := 0;
                     canvas_editor._offset_y := 50 |}
                  sample.name_field 5250 1000
                  ltac:(vm_compute; reflexivity) ltac:(vm_compute; reflexivity)
                  ltac:(vm_compute; discriminate) ltac:(vm_compute; discriminate)
                  ltac:(vm_compute; discriminate) ltac:(vm_compute; discriminate))).
  vm_compute. discriminate.
Defined.

(** ** utils/fonts.py *)

Lemma lower_append (a b : string) :
  pdf_export.lower (String.append a b)
  = String.append (pdf_export.lower a) (pdf_export.lower b).
Proof.
  induction a as [|c a IH]; [reflexivity|].
  change (String.append (String c a) b) with (String c (String.append a b)).
  cbn [pdf_export.lower]. rewrite IH. reflexivity.
Qed.

Lemma prefix_append (a b : string) : String.prefix a (String.append a b) = true.
Proof.
  induction a as [|c a IH].
  - destruct b; reflexivity.
  - change (String.append (String c a) b) with (String c (String.append a b)).
    simpl String.prefix.
    destruct (Ascii.ascii_dec c c) as [_|N]; [exact IH|contradiction].
Qed.

Lemma prefix_refl (a : string) : String.prefix a a = true.
Proof.
  induction a as [|c a IH]; [reflexivity|].
  simpl String.prefix.
  destruct (Ascii.ascii_dec c c) as [_|N]; [exact IH|contradiction].
Qed.

Lemma dict_lookup_In (fonts : fonts.table) (name path : string) :
  fonts.dict_lookup fonts name = Some path -> In (name, path) fonts.
Proof.
  induction fonts as [|[n p] rest IH]; cbn; [discriminate|].
  destruct (String.eqb n name) eqn:E.
  - apply String.eqb_eq in E as ->. intros [= ->]. left. reflexivity.
  - intros H. right. exact (IH H).
Qed.

(** Every candidate starts with the family. *)
Lemma candidates_of_family (family : string) (bold italic : bool) (c : string) :
  In c (fonts.candidates family bold italic) ->
  String.prefix (pdf_export.lower family) (pdf_export.lower c) = true.
Proof.
  unfold fonts.candidates. intros H. apply in_app_or in H as [H|H].
  - destruct (Py.truthy _); [|contradiction].
    destruct H as [<-|[]]. rewrite lower_append. apply prefix_append.
  - destruct H as [<-|[]]. apply prefix_refl.
Qed.

Lemma exact_match_In (fonts : fonts.table) (cands : list string) (path : string) :
  fonts.exact_match fonts cands = Some path ->
  exists c, In c cands /\ In (c, path) fonts.
Proof.
  induction cands as [|c rest IH]; cbn; [discriminate|].
  destruct (fonts.dict_lookup fonts c) as [p|] eqn:E.
  - intros [= ->]. exists c. split; [left; reflexivity|].
    apply dict_lookup_In, E.
  - intros H. destruct (IH H) as (c' & Hc & Hin). exists c'. auto.
Qed.

Lemma case_insensitive_match_In (fonts : fonts.table) (lcs : list string)
  (path : string) :
  fonts.case_insensitive_match fonts lcs = Some path ->
  exists name, In (name, path) fonts /\ In (pdf_export.lower name) lcs.
Proof.
  induction fonts as [|[n p] rest IH]; cbn; [discriminate|].
  destruct (existsb _ lcs) eqn:E.
  - intros [= ->]. apply existsb_exists in E as (c & Hc & Heq).
    apply String.eqb_eq in Heq as ->. exists n. auto.
  - intros H. destruct (IH H) as (name & Hin & Hl). exists name. auto.
Qed.

Lemma partial_match_Some (fonts : fonts.table) (fl path : string) :
  fonts.partial_match fonts fl = Some path ->
  exists name, In (name, path) fonts /\
               String.prefix fl (pdf_export.lower name) = true.
Proof.
  induction fonts as [|[n p] rest IH]; cbn; [discriminate|].
  destruct (String.prefix fl (pdf_export.lower n)) eqn:E.
  - intros [= ->]. exists n. auto.
  - intros H. destruct (IH H) as (name & Hin & Hp). exists name. auto.
Qed.

Lemma partial_match_None (fonts : fonts.table) (fl : string) :
  fonts.partial_match fonts fl = None <->
  Forall (fun font => String.prefix fl (pdf_export.lower (fst font)) = false) fonts.
Proof.
  induction fonts as [|[n p] rest IH]; cbn.
  - split; [constructor|reflexivity].
  - destruct (String.prefix fl (pdf_export.lower n)) eqn:E.
    + split; [discriminate|]. intros H. inversion H; subst. cbn in *. congruence.
    + rewrite IH. split; [intros H; constructor; [exact E|exact H]|].
      intros H. inversion H; assumption.
Qed.

(** Whatever [find_font_path] returns is the file of a font of the
    family. *)
Lemma find_font_path_Some (fonts : fonts.table) (family : string)
  (bold italic : bool) (path : string) :
  fonts.find_font_path fonts family bold italic = Some path ->
  exists name, In (name, path) fonts /\ fonts.of_family family (name, path) = true.
Proof.
  unfold fonts.find_font_path, fonts.of_family. cbn [fst].
  destruct (fonts.exact_match _ _) as [p|] eqn:E1.
  { intros [= ->]. apply exact_match_In in E1 as (c & Hc & Hin).
    exists c. split; [exact Hin|]. eapply candidates_of_family, Hc. }
  destruct (fonts.case_insensitive_match _ _) as [p|] eqn:E2.
  { intros [= ->]. apply case_insensitive_match_In in E2 as (name & Hin & Hl).
    exists name. split; [exact Hin|].
    apply in_map_iff in Hl as (c & Hlc & Hc). rewrite <- Hlc.
    eapply candidates_of_family, Hc. }
  intros H. apply partial_match_Some in H as (name & Hin & Hp). eauto.
Qed.

(** X16.  [find_font_path] returns [None] exactly when no font of the
    table has a name that starts with the family, case ignored; and a
    path it returns is the file of a font whose name starts with the
    family, case ignored, whichever of its three searches found it and
    whatever style was asked for. *)
Theorem find_font_path_family (fonts : fonts.table) (family : string)
  (bold italic : bool) :
  (fonts.find_font_path fonts family bold italic = None <->
   Forall (fun font => fonts.of_family family font = false) fonts) /\
  (forall path,
     fonts.find_font_path fonts family bold italic = Some path ->
     exists name, In (name, path) fonts /\
                  fonts.of_family family (name, path) = true).
Proof.
  split; [|intros path; apply find_font_path_Some].
  split.
  - intros H. apply partial_match_None.
    unfold fonts.find_font_path in H.
    destruct (fonts.exact_match _ _); [discriminate|].
    destruct (fonts.case_insensitive_match _ _); [discriminate|]. exact H.
  - intros Hall.
    destruct (fonts.find_font_path fonts family bold italic) as [path|] eqn:E;
      [exfalso|reflexivity].
    apply find_font_path_Some in E as (name & Hin & Hof).
    rewrite List.Forall_forall in Hall. specialize (Hall _ Hin). congruence.
Qed.

(** X17.  When the renderer looks fonts up in a table, the font
    [_load_font] returns is Pillow's default font, or a TrueType font that
    could be opened at the size asked for ([size_override] unless it is
    absent or 0, else the field's own size) and whose file is either
    [arial.ttf] or the file of a font of the table whose name starts with
    the field's family, case ignored.  A family no font of the table
    starts with always gets the fallback. *)
Theorem loaded_font_of_family (env : Env) (table : fonts.table)
  (fp : badge_config.FieldPlacement) (size_override : option Z) :
  (forall family bold italic,
     find_font_path env family bold italic
     = fonts.find_font_path table family bold italic) ->
  let size := match size_override with
              | Some s => if s =? 0 then badge_config.font_size fp else s
              | None => badge_config.font_size fp
              end in
  let font := badge_renderer._load_font env fp size_override in
  (font = PIL.DefaultFont \/
   exists path,
     font = PIL.FreeTypeFont path size /\
     truetype_ok env path size = true /\
     (path = "arial.ttf"%string \/
      exists name, In (name, path) table /\
                   fonts.of_family (badge_config.font_family fp) (name, path) = true)) /\
  (Forall (fun f => fonts.of_family (badge_config.font_family fp) f = false) table ->
   font = if truetype_ok env "arial.ttf" size
          then PIL.FreeTypeFont "arial.ttf" size else PIL.DefaultFont).
Proof.
  intros Henv size font. subst font. unfold badge_renderer._load_font.
  fold size. rewrite Henv.
  assert (Hfallback :
    let fb := if truetype_ok env "arial.ttf" size
              then PIL.FreeTypeFont "arial.ttf" size else PIL.DefaultFont in
    fb = PIL.DefaultFont \/
    exists path,
      fb = PIL.FreeTypeFont path size /\
      truetype_ok env path size = true /\
      (path = "arial.ttf"%string \/
       exists name, In (name, path) table /\
                    fonts.of_family (badge_config.font_family fp) (name, path) = true)).
  { cbv zeta. destruct (truetype_ok env "arial.ttf" size) eqn:E; [right|left; reflexivity].
    exists "arial.ttf"%string. auto. }
  cbv zeta in Hfallback.
  destruct (fonts.find_font_path table _ _ _) as [path|] eqn:E.
  - split.
    + destruct (Py.truthy path && truetype_ok env path size) eqn:Eok;
        [|exact Hfallback].
      right. exists path. apply andb_true_iff in Eok as [_ Eok].
      split; [reflexivity|]. split; [exact Eok|]. right.
      exact (find_font_path_Some _ _ _ _ _ E).
    + intros Hall. exfalso.
      apply find_font_path_Some in E as (name & Hin & Hof).
      rewrite List.Forall_forall in Hall. specialize (Hall _ Hin). congruence.
  - split; [exact Hfallback|]. intros _. reflexivity.
Qed.

(** The bold name of the sample badge with two faces of Arial installed
    under lower-case names: the plain face is found first. *)
Lemma loaded_font_of_family_witness :
  let table : fonts.table :=
    [("arial", "/fonts/arial.ttf"); ("arial bold", "/fonts/arialbd.ttf")]%string in
  let env :=
    {| find_font_path := fonts.find_font_path table;
       truetype_ok := fun _ _ => true;
       textbbox := textbbox sample.env;
       image_open := image_open sample.env |} in
  let fp := {| badge_config.csv_column := "Name"; badge_config.x := 0;
               badge_config.y := 0; badge_config.font_family := "Arial";
               badge_config.font_size := 40;
               badge_config.font_color := "#000000";
               badge_config.bold := true; badge_config.italic := false;
               badge_config.alignment := "center";
               badge_config.max_width := 0 |} in
  badge_renderer._load_font env fp (Some 0)
  = PIL.FreeTypeFont "/fonts/arial.ttf" 40 /\
  (badge_renderer._load_font env fp (Some 0) = PIL.DefaultFont \/
   exists path,
     badge_renderer._load_font env fp (Some 0) = PIL.FreeTypeFont path 40 /\
     (path = "arial.ttf"%string \/
      exists name, In (name, path) table /\
                   fonts.of_family "Arial" (name, path) = true)).
Proof.
  cbv zeta. split; [reflexivity|].
  destruct (loaded_font_of_family
              {| find_font_path :=
                   fonts.find_font_path
                     [("arial", "/fonts/arial.ttf");
                      ("arial bold", "/fonts/arialbd.ttf")]%string;
                 truetype_ok := fun _ _ => true;
                 textbbox := textbbox sample.env;
                 image_open := image_open sample.env |}
              [("arial", "/fonts/arial.ttf"); ("arial bold", "/fonts/arialbd.ttf")]%string
              {| badge_config.csv_column := "Name"; badge_config.x := 0;
                 badge_config.y := 0; badge_config.font_family := "Arial";
                 badge_config.font_size := 40;
                 badge_config.font_color := "#000000";
                 badge_config.bold := true; badge_config.italic := false;
                 badge_config.alignment := "center";
                 badge_config.max_width := 0 |}
              (Some 0) (fun _ _ _ => eq_refl)) as [[H|(path & H & _ & Hp)] _].
  - left. exact H.
  - right. exists path. split; [exact H|exact Hp].
Defined.

(** ** web/app.py: the rows of the table *)

Lemma delete_row_valid (idx : Z) (s : web_rows.AppState) :
  web_rows.current_row_valid s ->
  web_rows.current_row_valid (snd (web_rows.delete_row idx s)).
Proof.
  unfold web_rows.delete_row, web_rows.current_row_valid, csv_data.row_count.
  intros Hv.
  destruct ((idx <? 0) || (idx >=? _)) eqn:Ec; [exact Hv|].
  apply orb_false_iff in Ec as [E1 E2].
  apply Z.ltb_ge in E1. rewrite Z.geb_leb in E2. apply Z.leb_gt in E2.
  cbn [snd web_rows.state_csv_data web_rows.state_current_row
       web_rows.set_rows csv_data.rows].
  assert (Hlen : Z.of_nat (length (delete (Z.to_nat idx)
                                     (csv_data.rows (web_rows.state_csv_data s))))
                 = Z.of_nat (length (csv_data.rows (web_rows.state_csv_data s))) - 1).
  { rewrite length_delete; [lia|]. apply lookup_lt_is_Some_2. lia. }
  cbv zeta in Hv. cbv zeta. rewrite !Hlen.
  set (n := Z.of_nat (length (csv_data.rows (web_rows.state_csv_data s)))) in *.
  rewrite Z.geb_leb.
  destruct (Z.leb_spec (n - 1) (web_rows.state_current_row s));
    destruct (Z.ltb_spec 0 (n - 1)); cbn [andb];
    destruct (Z.eqb_spec (n - 1) 0); lia.
Qed.

Lemma handle_valid (r : web_rows.request) (s : web_rows.AppState) :
  web_rows.current_row_valid s ->
  web_rows.current_row_valid (snd (web_rows.handle r s)).
Proof.
  intros Hv. destruct r as [loaded|idx|data|idx data|idx]; cbn [web_rows.handle].
  - unfold web_rows.current_row_valid, csv_data.row_count. cbn. lia.
  - unfold web_rows.get_row.
    destruct (negb _); [exact Hv|].
    destruct ((idx <? 0) || (idx >=? _)) eqn:Ec; [exact Hv|].
    apply orb_false_iff in Ec as [E1 E2].
    apply Z.ltb_ge in E1. rewrite Z.geb_leb in E2. apply Z.leb_gt in E2.
    right. cbn. lia.
  - unfold web_rows.add_row, web_rows.current_row_valid, csv_data.row_count.
    cbn. rewrite length_app. cbn. lia.
  - unfold web_rows.update_row.
    destruct ((idx <? 0) || (idx >=? _)); [exact Hv|].
    destruct (_ !! _); [|exact Hv].
    unfold web_rows.current_row_valid, csv_data.row_count in *.
    cbn. rewrite length_insert. exact Hv.
  - apply delete_row_valid, Hv.
Qed.

(** X18.  Whatever requests the row handlers serve (upload, get, add,
    update, delete, with any indices and bodies), the current row of the web
    application always designates a row of the table, and is 0 when the
    table is empty. *)
Theorem current_row_stays_valid (requests : list web_rows.request) :
  web_rows.current_row_valid (web_rows.serve requests web_rows.initial).
Proof.
  unfold web_rows.serve.
  assert (H0 : web_rows.current_row_valid web_rows.initial)
    by (left; split; reflexivity).
  revert H0. generalize web_rows.initial.
  induction requests as [|r rest IH]; intros s Hs; [exact Hs|].
  cbn [fold_left]. apply IH, handle_valid, Hs.
Qed.

(** A cell, read off the list of rows. *)
Lemma get_value_lookup (csv : csv_data.CSVData) (i : Z) (column : string) :
  csv_data.get_value csv i column =
  Py.Ok (if 0 <=? i then
           match csv_data.rows csv !! Z.to_nat i with
           | Some row => csv_data.row_get row column (csv_data.Str "")
           | None => csv_data.Str ""
           end
         else csv_data.Str "").
Proof.
  unfold csv_data.get_value.
  destruct (Z.leb_spec 0 i) as [H0|H0]; cbn [andb]; [|reflexivity].
  destruct (Z.ltb_spec i (Z.of_nat (length (csv_data.rows csv)))) as [H1|H1].
  - destruct (list_getitem_in_range (csv_data.rows csv) i) as (row & Hrow & ->);
      [lia|].
    rewrite Hrow. reflexivity.
  - rewrite lookup_ge_None_2 by lia. reflexivity.
Qed.

Lemma row_lookup_set_eq (r : csv_data.row) (k : string) (v : csv_data.cell) :
  csv_data.row_lookup (csv_data.row_set r k v) k = Some v.
Proof.
  induction r as [|[k0 v0|l] r IH]; cbn.
  - rewrite String.eqb_refl. reflexivity.
  - destruct (String.eqb_spec k0 k) as [->|Hne]; cbn.
    + rewrite String.eqb_refl. reflexivity.
    + destruct (String.eqb_spec k0 k); [contradiction|exact IH].
  - exact IH.
Qed.

Lemma row_lookup_set_ne (r : csv_data.row) (k k' : string) (v : csv_data.cell) :
  k <> k' ->
  csv_data.row_lookup (csv_data.row_set r k v) k' = csv_data.row_lookup r k'.
Proof.
  intros Hne. induction r as [|[k0 v0|l] r IH]; cbn.
  - destruct (String.eqb_spec k k'); [contradiction|reflexivity].
  - destruct (String.eqb_spec k0 k) as [->|Hk]; cbn.
    + destruct (String.eqb_spec k k'); [contradiction|reflexivity].
    + destruct (String.eqb_spec k0 k'); [reflexivity|exact IH].
  - exact IH.
Qed.

Lemma assign_all_other (d : web_rows.pydict) (r : csv_data.row) (k : string) :
  ~ In k (map fst d) ->
  csv_data.row_lookup (web_rows.assign_all d r) k = csv_data.row_lookup r k.
Proof.
  unfold web_rows.assign_all. revert r.
  induction d as [|[k' v'] d IH]; intros r Hk; [reflexivity|].
  cbn [fold_left fst snd]. rewrite IH by (intros H; apply Hk; right; exact H).
  apply row_lookup_set_ne. intros ->. apply Hk. left. reflexivity.
Qed.

Lemma assign_all_item (d : web_rows.pydict) (r : csv_data.row)
  (k : string) (v : csv_data.cell) :
  NoDup (map fst d) -> In (k, v) d ->
  csv_data.row_lookup (web_rows.assign_all d r) k = Some v.
Proof.
  unfold web_rows.assign_all. revert r.
  induction d as [|[k' v'] d IH]; intros r Hnd Hin; [destruct Hin|].
  cbn [map fst] in Hnd. apply NoDup_cons in Hnd as [Hk' Hnd].
  cbn [fold_left fst snd]. destruct Hin as [[= -> ->]|Hin].
  - fold (web_rows.assign_all d (csv_data.row_set r k v)).
    rewrite assign_all_other; [apply row_lookup_set_eq|].
    intros H. apply Hk'. apply list_elem_of_In. exact H.
  - apply IH; assumption.
Qed.

Lemma assign_all_key (d : web_rows.pydict) (r : csv_data.row) (k : string) :
  In k (map fst d) -> is_Some (csv_data.row_lookup (web_rows.assign_all d r) k).
Proof.
  unfold web_rows.assign_all. revert r.
  induction d as [|[k' v'] d IH]; intros r Hin; [destruct Hin|].
  cbn [fold_left fst snd].
  destruct (in_dec String.string_dec k (map fst d)) as [Hd|Hd]; [apply IH, Hd|].
  fold (web_rows.assign_all d (csv_data.row_set r k' v')).
  rewrite assign_all_other by exact Hd.
  destruct Hin as [Hk|Hk]; [|contradiction]. cbn in Hk. subst k'.
  rewrite row_lookup_set_eq. eauto.
Qed.

Lemma dict_contains_In (d : web_rows.pydict) (k : string) :
  web_rows.dict_contains d k = true <-> In k (map fst d).
Proof.
  unfold web_rows.dict_contains. rewrite existsb_exists, in_map_iff.
  split.
  - intros ([k' v] & Hin & E). apply String.eqb_eq in E. cbn in E. subst.
    exists (k, v). auto.
  - intros ([k' v] & E & Hin). cbn in E. subst.
    exists (k, v). split; [exact Hin|apply String.eqb_refl].
Qed.

(** The loop of [add_row] only appends empty cells, for headers the row
    does not have, and leaves every header with a cell. *)
Lemma fill_headers_spec (hs : list string) (row : web_rows.pydict) :
  exists extra,
    web_rows.fill_headers hs row = row ++ extra /\
    Forall (fun kv => snd kv = csv_data.Str "" /\ In (fst kv) hs /\
                      ~ In (fst kv) (map fst row)) extra /\
    NoDup (map fst extra) /\
    (forall h, In h hs -> In h (map fst (row ++ extra))).
Proof.
  unfold web_rows.fill_headers. revert row.
  induction hs as [|h hs IH]; intros row.
  - exists []. rewrite app_nil_r. repeat split; [constructor..|intros ? []].
  - cbn [fold_left]. destruct (web_rows.dict_contains row h) eqn:E.
    + destruct (IH row) as (extra & -> & Hall & Hnd & Hcov).
      exists extra. split; [reflexivity|]. split; [|split; [exact Hnd|]].
      * eapply Forall_impl; [exact Hall|]. intros kv (? & ? & ?).
        repeat split; [assumption|right; assumption|assumption].
      * intros h' [<-|Hh']; [|apply Hcov, Hh'].
        apply dict_contains_In in E. rewrite map_app. apply in_or_app. auto.
    + destruct (IH (row ++ [(h, csv_data.Str "")])) as (extra & -> & Hall & Hnd & Hcov).
      assert (Hh : ~ In h (map fst row)).
      { intros H. apply dict_contains_In in H. congruence. }
      exists ((h, csv_data.Str "") :: extra). rewrite <- app_assoc.
      split; [reflexivity|]. split; [|split].
      * constructor; [cbn; auto|].
        eapply Forall_impl; [exact Hall|]. intros kv (Hv & Hk & Hn).
        repeat split; [assumption|right; assumption|].
        intros Hc. apply Hn. rewrite map_app. apply in_or_app. auto.
      * cbn [map fst]. apply NoDup_cons. split; [|exact Hnd].
        intros Hin%list_elem_of_In. apply in_map_iff in Hin as (kv & Ek & Hkv).
        rewrite List.Forall_forall in Hall. destruct (Hall _ Hkv) as (_ & _ & Hn).
        apply Hn. rewrite Ek, map_app. apply in_or_app. right. left. reflexivity.
      * intros h' Hh'. rewrite <- app_assoc in Hcov. cbn [app] in Hcov.
        destruct Hh' as [<-|Hh']; [|apply Hcov, Hh'].
        rewrite map_app. apply in_or_app. right. left. reflexivity.
Qed.

(** X19.  [add_row] appends one row and makes it the current row; the
    index it reports is the former number of rows.  The new row has a cell
    for every header of the table, also when the headers are created from
    the row itself: the cells the request gives keep their values, the
    missing ones are empty.  The former rows and a non-empty list of
    headers are left as they are. *)
Theorem add_row_covers_headers (data_row : option web_rows.pydict)
  (s : web_rows.AppState) :
  let given := default [] data_row in
  let csv := web_rows.state_csv_data s in
  let s' := snd (web_rows.add_row data_row s) in
  let csv' := web_rows.state_csv_data s' in
  let idx := csv_data.row_count csv in
  NoDup (map fst given) ->
  fst (web_rows.add_row data_row s) = web_rows.ok (Some idx) /\
  web_rows.state_current_row s' = idx /\
  csv_data.row_count csv' = idx + 1 /\
  (forall i column, i <> idx -> 0 <= i ->
     csv_data.get_value csv' i column = csv_data.get_value csv i column) /\
  (forall h, In h (csv_data.headers csv') ->
     exists v, csv_data.rows csv' !! Z.to_nat idx
               ≫= (fun row => csv_data.row_lookup row h) = Some v /\
               csv_data.get_value csv' idx h = Py.Ok v /\
               (In (h, v) given \/
                (~ In h (map fst given) /\ v = csv_data.Str ""))) /\
  (forall k v, In (k, v) given -> csv_data.get_value csv' idx k = Py.Ok v) /\
  (csv_data.headers csv <> [] -> csv_data.headers csv' = csv_data.headers csv) /\
  (csv_data.headers csv = [] -> csv_data.headers csv' = map fst given).
Proof.
  intros given csv s' csv' idx Hnd.
  destruct (fill_headers_spec (csv_data.headers csv) given)
    as (extra & Hfill & Hextra & Hndx & Hcov).
  assert (Hnd' : NoDup (map fst (given ++ extra))).
  { rewrite map_app. apply NoDup_app. split; [exact Hnd|]. split; [|exact Hndx].
    intros k Hk%list_elem_of_In Hk'%list_elem_of_In.
    apply in_map_iff in Hk' as (kv & <- & Hkv).
    rewrite List.Forall_forall in Hextra. destruct (Hextra _ Hkv) as (_ & _ & Hn).
    contradiction. }
  assert (Hidx : 0 <= idx) by (unfold idx, csv_data.row_count; lia).
  assert (Hrows : csv_data.rows csv'
                  = csv_data.rows csv ++ [web_rows.assign_all (given ++ extra) []]).
  { unfold csv', s', web_rows.add_row. cbn. fold csv. fold given.
    rewrite Hfill. reflexivity. }
  assert (Hnew : csv_data.rows csv' !! Z.to_nat idx
                 = Some (web_rows.assign_all (given ++ extra) [])).
  { rewrite Hrows. unfold idx, csv_data.row_count. rewrite Nat2Z.id.
    rewrite lookup_app_r by lia. rewrite Nat.sub_diag. reflexivity. }
  assert (Hcell : forall k v,
            In (k, v) (given ++ extra) -> csv_data.get_value csv' idx k = Py.Ok v).
  { intros k v Hin. rewrite get_value_lookup, Hnew.
    destruct (Z.leb_spec 0 idx); [|lia].
    unfold csv_data.row_get. rewrite (assign_all_item _ _ k v Hnd' Hin).
    reflexivity. }
  split; [|split; [|split; [|split; [|split; [|split; [|split]]]]]].
  - unfold web_rows.add_row. cbn. fold csv. unfold idx, csv_data.row_count.
    rewrite length_app. cbn. do 3 f_equal. lia.
  - unfold s', web_rows.add_row. cbn. fold csv. unfold idx, csv_data.row_count.
    rewrite length_app. cbn. lia.
  - unfold csv_data.row_count at 1. rewrite Hrows, length_app. cbn.
    unfold idx, csv_data.row_count. lia.
  - intros i column Hi H0. rewrite !get_value_lookup, Hrows.
    destruct (Z.leb_spec 0 i); [|reflexivity].
    destruct (Z.lt_ge_cases i idx) as [Hlt|Hge].
    + rewrite lookup_app_l; [reflexivity|].
      unfold idx, csv_data.row_count in Hlt. lia.
    + rewrite !lookup_ge_None_2; [reflexivity|..].
      * unfold idx, csv_data.row_count in *. lia.
      * rewrite length_app. cbn. unfold idx, csv_data.row_count in *. lia.
  - intros h Hh.
    assert (Hin : In h (map fst (given ++ extra))).
    { unfold csv', s', web_rows.add_row in Hh. cbn in Hh. fold csv in Hh.
      fold given in Hh. rewrite Hfill in Hh.
      destruct (csv_data.headers csv) eqn:Eh; [exact Hh|].
      apply Hcov. exact Hh. }
    apply in_map_iff in Hin as ([k v] & Ek & Hkv). cbn in Ek. subst k.
    exists v. rewrite Hnew. cbn.
    split; [apply assign_all_item; assumption|].
    split; [apply Hcell, Hkv|].
    apply in_app_or in Hkv as [Hg|Hx]; [left; exact Hg|right].
    rewrite List.Forall_forall in Hextra.
    destruct (Hextra _ Hx) as (Hv & _ & Hn). cbn in Hv, Hn. auto.
  - intros k v Hin. apply Hcell, in_or_app. left. exact Hin.
  - intros Hne. unfold csv', s', web_rows.add_row. cbn. fold csv.
    destruct (csv_data.headers csv); [contradiction|reflexivity].
  - intros He. unfold csv', s', web_rows.add_row. cbn. fold csv. fold given.
    rewrite Hfill, He.
    destruct (fill_headers_spec [] given) as (extra0 & H0 & _).
    unfold web_rows.fill_headers in Hfill. rewrite He in Hfill. cbn in Hfill.
    assert (extra = []) as ->.
    { apply (app_inv_head given). rewrite app_nil_r. symmetry. exact Hfill. }
    rewrite app_nil_r. reflexivity.
Qed.

(** A row with a title but no name, added to a table with the one header
    [Name]: the name is an empty cell, the title is kept. *)
Lemma add_row_covers_headers_witness :
  let s := {| web_rows.state_csv_data := sample.sheet 3;
              web_rows.state_current_row := 1 |} in
  let s' := snd (web_rows.add_row
                   (Some [("Title"%string, csv_data.Str "Dr")]) s) in
  web_rows.state_current_row s' = 3 /\
  csv_data.get_value (web_rows.state_csv_data s') 3 "Title"
  = Py.Ok (csv_data.Str "Dr") /\
  exists v,
    csv_data.get_value (web_rows.state_csv_data s') 3 "Name" = Py.Ok v /\
    (In ("Name"%string, v) [("Title"%string, csv_data.Str "Dr")] \/
     (~ In "Name"%string ["Title"]%string /\ v = csv_data.Str "")).
Proof.
  cbv zeta.
  destruct (add_row_covers_headers (Some [("Title"%string, csv_data.Str "Dr")])
              {| web_rows.state_csv_data := sample.sheet 3;
                 web_rows.state_current_row := 1 |})
    as (_ & Hcur & _ & _ & Hhead & Hgiven & _).
  - apply NoDup_singleton.
  - split; [exact Hcur|]. split.
    + apply (Hgiven "Title"%string (csv_data.Str "Dr")). left. reflexivity.
    + destruct (Hhead "Name"%string) as (v & _ & Hv & Hor).
      * left. reflexivity.
      * exists v. split; [exact Hv|exact Hor].
Defined.

(** X20.  [update_row] on a row of the table sets exactly the cells its
    request names: those cells read back the given values, every other
    cell of the row and every other row read as before, and the number of
    rows, the headers and the current row do not change.  With an index
    outside the table it answers 404 and changes nothing. *)
Theorem update_row_sets_cells (idx : Z) (data_row : option web_rows.pydict)
  (s : web_rows.AppState) :
  let given := default [] data_row in
  let csv := web_rows.state_csv_data s in
  let s' := snd (web_rows.update_row idx data_row s) in
  let csv' := web_rows.state_csv_data s' in
  NoDup (map fst given) ->
  (idx < 0 \/ csv_data.row_count csv <= idx ->
     web_rows.update_row idx data_row s = (web_rows.error 404, s)) /\
  (0 <= idx < csv_data.row_count csv ->
     fst (web_rows.update_row idx data_row s) = web_rows.ok None /\
     web_rows.state_current_row s' = web_rows.state_current_row s /\
     csv_data.headers csv' = csv_data.headers csv /\
     csv_data.row_count csv' = csv_data.row_count csv /\
     (forall k v, In (k, v) given ->
        csv_data.get_value csv' idx k = Py.Ok v) /\
     (forall k, ~ In k (map fst given) ->
        csv_data.get_value csv' idx k = csv_data.get_value csv idx k) /\
     (forall i k, i <> idx ->
        csv_data.get_value csv' i k = csv_data.get_value csv i k)).
Proof.
  intros given csv s' csv' Hnd. split.
  - intros Hout. unfold web_rows.update_row. fold csv.
    destruct (Z.ltb_spec idx 0) as [H0|H0]; [reflexivity|].
    cbn [orb]. rewrite Z.geb_leb.
    destruct (Z.leb_spec (csv_data.row_count csv) idx); [reflexivity|lia].
  - intros [H0 H1].
    unfold csv_data.row_count in H1.
    destruct (lookup_lt_is_Some_2 (csv_data.rows csv) (Z.to_nat idx)) as [old Hold];
      [lia|].
    assert (Hupd : web_rows.update_row idx data_row s
                   = (web_rows.ok None,
                      {| web_rows.state_csv_data :=
                           web_rows.set_rows
                             (<[Z.to_nat idx := web_rows.assign_all given old]>
                                (csv_data.rows csv)) csv;
                         web_rows.state_current_row :=
                           web_rows.state_current_row s |})).
    { unfold web_rows.update_row. fold csv.
      destruct (Z.ltb_spec idx 0) as [?|_]; [lia|].
      cbn [orb]. rewrite Z.geb_leb.
      destruct (Z.leb_spec (csv_data.row_count csv) idx) as [Hle|_];
        [unfold csv_data.row_count in Hle; lia|].
      rewrite Hold. reflexivity. }
    unfold csv', s'. rewrite Hupd.
    cbn [fst snd web_rows.state_csv_data web_rows.state_current_row
         web_rows.set_rows csv_data.headers].
    split; [reflexivity|]. split; [reflexivity|]. split; [reflexivity|].
    split; [unfold csv_data.row_count; cbn; rewrite length_insert; reflexivity|].
    split; [|split].
    + intros k v Hin. rewrite get_value_lookup. unfold web_rows.set_rows; cbn [csv_data.rows].
      destruct (Z.leb_spec 0 idx); [|lia].
      rewrite list_lookup_insert_eq by lia.
      unfold csv_data.row_get. rewrite (assign_all_item _ _ k v Hnd Hin).
      reflexivity.
    + intros k Hk. rewrite !get_value_lookup. unfold web_rows.set_rows; cbn [csv_data.rows].
      destruct (Z.leb_spec 0 idx); [|lia].
      rewrite list_lookup_insert_eq by lia. rewrite Hold.
      unfold csv_data.row_get. rewrite assign_all_other by exact Hk. reflexivity.
    + intros i k Hi. rewrite !get_value_lookup. unfold web_rows.set_rows; cbn [csv_data.rows].
      destruct (Z.leb_spec 0 i); [|reflexivity].
      rewrite list_lookup_insert_ne by lia. reflexivity.
Qed.

(** The name of the second row of a table of three is corrected; a
    request for a fourth row is refused. *)
Lemma update_row_sets_cells_witness :
  let s := {| web_rows.state_csv_data := sample.sheet 3;
              web_rows.state_current_row := 0 |} in
  let s' := snd (web_rows.update_row 1
                   (Some [("Name"%string, csv_data.Str "Ada")]) s) in
  csv_data.get_value (web_rows.state_csv_data s') 1 "Name"
  = Py.Ok (csv_data.Str "Ada") /\
  csv_data.get_value (web_rows.state_csv_data s') 2 "Name"
  = csv_data.get_value (sample.sheet 3) 2 "Name" /\
  web_rows.update_row 3 (Some [("Name"%string, csv_data.Str "Ada")]) s
  = (web_rows.error 404, s).
Proof.
  cbv zeta.
  pose proof (update_row_sets_cells 1 (Some [("Name"%string, csv_data.Str "Ada")])
                {| web_rows.state_csv_data := sample.sheet 3;
                   web_rows.state_current_row := 0 |}
                (NoDup_singleton _)) as [_ Hin].
  pose proof (update_row_sets_cells 3 (Some [("Name"%string, csv_data.Str "Ada")])
                {| web_rows.state_csv_data := sample.sheet 3;
                   web_rows.state_current_row := 0 |}
                (NoDup_singleton _)) as [Hout _].
  destruct Hin as (_ & _ & _ & _ & Hset & _ & Hother);
    [vm_compute; split; [discriminate|reflexivity]|].
  split; [apply Hset; left; reflexivity|].
  split; [apply Hother; discriminate|].
  apply Hout. right. vm_compute. discriminate.
Defined.

(** ** web/app.py: the fields of the template *)

Lemma assigned_insert_ne {A} (data : gmap string json) (key k : string)
  (v : json) (coerce : json -> option A) (current : A) :
  key ∉ web_fields.FIELD_ALLOWED_KEYS ->
  web_fields.assigned (<[key := v]> data) k coerce current
  = web_fields.assigned data k coerce current.
Proof.
  intros Hkey. unfold web_fields.assigned.
  destruct (bool_decide (k ∈ web_fields.FIELD_ALLOWED_KEYS)) eqn:E;
    [|reflexivity].
  apply bool_decide_eq_true in E. apply attr_insert_ne.
  intros ->. contradiction.
Qed.

Lemma assigned_idem {A} (data : gmap string json) (k : string)
  (coerce : json -> option A) (current v : A) :
  web_fields.assigned data k coerce current = Some v ->
  web_fields.assigned data k coerce v = Some v.
Proof.
  unfold web_fields.assigned, serial.attr.
  destruct (bool_decide _); [|reflexivity].
  destruct (data !! k); [auto|reflexivity].
Qed.

Lemma update_attrs_inv (data : gmap string json)
  (fp fp' : badge_config.FieldPlacement) :
  web_fields.update_attrs data fp = Some fp' ->
  web_fields.assigned data "csv_column" serial.as_str (badge_config.csv_column fp)
    = Some (badge_config.csv_column fp') /\
  web_fields.assigned data "x" serial.as_float (badge_config.x fp)
    = Some (badge_config.x fp') /\
  web_fields.assigned data "y" serial.as_float (badge_config.y fp)
    = Some (badge_config.y fp') /\
  web_fields.assigned data "font_family" serial.as_str (badge_config.font_family fp)
    = Some (badge_config.font_family fp') /\
  web_fields.assigned data "font_size" serial.as_int (badge_config.font_size fp)
    = Some (badge_config.font_size fp') /\
  web_fields.assigned data "font_color" serial.as_str (badge_config.font_color fp)
    = Some (badge_config.font_color fp') /\
  web_fields.assigned data "bold" serial.as_bool (badge_config.bold fp)
    = Some (badge_config.bold fp') /\
  web_fields.assigned data "italic" serial.as_bool (badge_config.italic fp)
    = Some (badge_config.italic fp') /\
  web_fields.assigned data "alignment" serial.as_str (badge_config.alignment fp)
    = Some (badge_config.alignment fp') /\
  web_fields.assigned data "max_width" serial.as_int (badge_config.max_width fp)
    = Some (badge_config.max_width fp').
Proof.
  unfold web_fields.update_attrs. intros H.
  repeat (apply bind_Some in H as (? & ? & H)).
  injection H as <-. cbn. auto 20.
Qed.

Lemma update_attrs_idem (data : gmap string json)
  (fp fp' : badge_config.FieldPlacement) :
  web_fields.update_attrs data fp = Some fp' ->
  web_fields.update_attrs data fp' = Some fp'.
Proof.
  intros H. apply update_attrs_inv in H
    as (H1 & H2 & H3 & H4 & H5 & H6 & H7 & H8 & H9 & H10).
  unfold web_fields.update_attrs.
  rewrite (assigned_idem _ _ _ _ _ H1), (assigned_idem _ _ _ _ _ H2),
    (assigned_idem _ _ _ _ _ H3), (assigned_idem _ _ _ _ _ H4),
    (assigned_idem _ _ _ _ _ H5), (assigned_idem _ _ _ _ _ H6),
    (assigned_idem _ _ _ _ _ H7), (assigned_idem _ _ _ _ _ H8),
    (assigned_idem _ _ _ _ _ H9), (assigned_idem _ _ _ _ _ H10).
  destruct fp'. reflexivity.
Qed.

Lemma update_attrs_insert_ne (data : gmap string json) (key : string) (v : json)
  (fp : badge_config.FieldPlacement) :
  key ∉ web_fields.FIELD_ALLOWED_KEYS ->
  web_fields.update_attrs (<[key := v]> data) fp
  = web_fields.update_attrs data fp.
Proof.
  intros Hkey. unfold web_fields.update_attrs.
  rewrite !(assigned_insert_ne data key _ v) by exact Hkey. reflexivity.
Qed.

Lemma update_attrs_csv_column (data : gmap string json)
  (fp fp' : badge_config.FieldPlacement) :
  web_fields.update_attrs data fp = Some fp' ->
  badge_config.csv_column fp' = badge_config.csv_column fp.
Proof.
  intros H. apply update_attrs_inv in H as (H & _).
  unfold web_fields.assigned in H.
  replace (bool_decide ("csv_column"%string ∈ web_fields.FIELD_ALLOWED_KEYS))
    with false in H by (vm_compute; reflexivity).
  congruence.
Qed.

(** A successful [update_field], taken apart. *)
Lemma update_field_done (idx : Z) (data : gmap string json)
  (s s' : web_fields.AppState) :
  web_fields.update_field idx data s = web_fields.done s' ->
  exists l fp fp',
    0 <= idx < Z.of_nat (length (badge_config.fields (web_fields.state_config s))) /\
    badge_config.fields (web_fields.state_config s) !! Z.to_nat idx = Some l /\
    web_fields.state_heap s !! l = Some (ObjField fp) /\
    web_fields.update_attrs data fp = Some fp' /\
    s' = web_fields.set_heap (<[l := ObjField fp']> (web_fields.state_heap s)) s.
Proof.
  unfold web_fields.update_field. intros H.
  destruct (Z.ltb_spec idx 0) as [?|H0]; [discriminate|]. cbn [orb] in H.
  rewrite Z.geb_leb in H.
  destruct (Z.leb_spec (Z.of_nat (length (badge_config.fields
                                            (web_fields.state_config s)))) idx)
    as [?|H1]; [discriminate|].
  destruct (list_getitem_in_range
              (badge_config.fields (web_fields.state_config s)) idx)
    as (l & Hl & Hget); [lia|].
  rewrite Hget in H.
  destruct (Heap.get_field _ l) as [fp|] eqn:Hfp; [|discriminate].
  apply get_field_Some in Hfp.
  destruct (web_fields.update_attrs data fp) as [fp'|] eqn:Hup; [|discriminate].
  injection H as <-. exists l, fp, fp'. auto 10.
Qed.

(** X21.  [update_field] assigns allowed attributes only: an item of the
    request whose key is not in [FIELD_ALLOWED_KEYS] has no effect at all,
    and the column of a field never changes.  A successful update changes
    the one field object it names and nothing else (the template, its list
    of fields and all other objects stay as they were), and repeating the
    request changes nothing more.  An index outside the list is answered
    with 404. *)
Theorem update_field_whitelist (idx : Z) (data : gmap string json)
  (s : web_fields.AppState) :
  (forall key v, key ∉ web_fields.FIELD_ALLOWED_KEYS ->
     web_fields.update_field idx (<[key := v]> data) s
     = web_fields.update_field idx data s) /\
  (idx < 0 \/
   Z.of_nat (length (badge_config.fields (web_fields.state_config s))) <= idx ->
     web_fields.update_field idx data s = web_fields.error 404) /\
  (forall s', web_fields.update_field idx data s = web_fields.done s' ->
     web_fields.state_config s' = web_fields.state_config s /\
     web_fields.state_background s' = web_fields.state_background s /\
     web_fields.update_field idx data s' = web_fields.done s' /\
     exists l fp fp',
       badge_config.fields (web_fields.state_config s) !! Z.to_nat idx = Some l /\
       web_fields.state_heap s !! l = Some (ObjField fp) /\
       web_fields.state_heap s' !! l = Some (ObjField fp') /\
       badge_config.csv_column fp' = badge_config.csv_column fp /\
       (forall l', l' <> l ->
          web_fields.state_heap s' !! l' = web_fields.state_heap s !! l')).
Proof.
  split; [|split].
  - intros key v Hkey. unfold web_fields.update_field.
    destruct ((idx <? 0) || _); [reflexivity|].
    destruct (csv_data.list_getitem _ idx) as [l|]; [|reflexivity].
    destruct (Heap.get_field _ l) as [fp|]; [|reflexivity].
    rewrite update_attrs_insert_ne by exact Hkey. reflexivity.
  - intros Hout. unfold web_fields.update_field.
    destruct (Z.ltb_spec idx 0) as [?|H0]; [reflexivity|]. cbn [orb].
    rewrite Z.geb_leb.
    destruct (Z.leb_spec (Z.of_nat (length (badge_config.fields
                                              (web_fields.state_config s)))) idx);
      [reflexivity|lia].
  - intros s' Hdone.
    destruct (update_field_done _ _ _ _ Hdone)
      as (l & fp & fp' & Hidx & Hl & Hfp & Hup & ->).
    cbn [web_fields.set_heap web_fields.state_config
         web_fields.state_background web_fields.state_heap].
    split; [reflexivity|]. split; [reflexivity|]. split.
    + unfold web_fields.update_field.
      cbn [web_fields.set_heap web_fields.state_config web_fields.state_heap].
      destruct (Z.ltb_spec idx 0) as [?|_]; [lia|]. cbn [orb].
      rewrite Z.geb_leb.
      destruct (Z.leb_spec (Z.of_nat (length (badge_config.fields
                                                (web_fields.state_config s)))) idx)
        as [?|_]; [lia|].
      destruct (list_getitem_in_range
                  (badge_config.fields (web_fields.state_config s)) idx)
        as (l0 & Hl0 & ->); [lia|].
      assert (l0 = l) as -> by congruence.
      unfold Heap.get_field. rewrite lookup_insert_eq.
      rewrite (update_attrs_idem _ _ _ Hup), insert_insert_eq. reflexivity.
    + exists l, fp, fp'. split; [exact Hl|]. split; [exact Hfp|].
      split; [apply lookup_insert_eq|].
      split; [exact (update_attrs_csv_column _ _ _ Hup)|].
      intros l' Hne. apply lookup_insert_ne. congruence.
Qed.

(** The name of the sample badge is moved; the request also tries to bind
    it to another column. *)
Lemma update_field_whitelist_witness :
  let s := {| web_fields.state_config := sample.config;
              web_fields.state_background := Some 3%positive;
              web_fields.state_heap := sample.objects |} in
  let move : gmap string json := {[ "x"%string := JInt 10 ]} in
  web_fields.update_field 0 (<["csv_column"%string := JStr "Email"]> move) s
  = web_fields.update_field 0 move s /\
  web_fields.update_field 7 move s = web_fields.error 404 /\
  exists s' l fp',
    web_fields.update_field 0 move s = web_fields.done s' /\
    web_fields.update_field 0 move s' = web_fields.done s' /\
    web_fields.state_heap s' !! l = Some (ObjField fp') /\
    badge_config.csv_column fp' = "Name"%string.
Proof.
  cbv zeta.
  destruct (update_field_whitelist 0 {[ "x"%string := JInt 10 ]}
              {| web_fields.state_config := sample.config;
                 web_fields.state_background := Some 3%positive;
                 web_fields.state_heap := sample.objects |})
    as (Hkey & _ & Hdone).
  destruct (update_field_whitelist 7 {[ "x"%string := JInt 10 ]}
              {| web_fields.state_config := sample.config;
                 web_fields.state_background := Some 3%positive;
                 web_fields.state_heap := sample.objects |})
    as (_ & Hout & _).
  split; [|split].
  - apply Hkey. unfold web_fields.FIELD_ALLOWED_KEYS.
    rewrite !not_elem_of_cons. repeat split; try discriminate.
    apply not_elem_of_nil.
  - apply Hout. right. vm_compute. discriminate.
  - destruct (web_fields.update_field 0 {[ "x"%string := JInt 10 ]}
                {| web_fields.state_config := sample.config;
                   web_fields.state_background := Some 3%positive;
                   web_fields.state_heap := sample.objects |})
      as [s'| |] eqn:E; [|vm_compute in E; discriminate..].
    destruct (Hdone s' eq_refl)
      as (_ & _ & Hagain & l & fp & fp' & Hl & Hfp & Hfp' & Hcol & _).
    exists s', l, fp'. split; [reflexivity|]. split; [exact Hagain|].
    split; [exact Hfp'|]. rewrite Hcol.
    vm_compute in Hl. injection Hl as <-.
    vm_compute in Hfp. injection Hfp as <-. reflexivity.
Defined.

(** Drawing texts does not change the size of the canvas base. *)
Lemma rendered_size (env : Env) (config : badge_config.BadgeConfig)
  (csv : csv_data.CSVData) (i : Z) (background : option PIL.Image)
  (fs : list badge_config.FieldPlacement) :
  PIL.size (rendering.rendered env config csv i background fs)
  = (badge_config.badge_width config, badge_config.badge_height config).
Proof.
  unfold rendering.rendered.
  rewrite <- (base_image_size env config background).
  generalize (canvas_base.base_image env config background).
  induction fs as [|f fs IH]; intros im; [reflexivity|].
  cbn [fold_left]. rewrite IH. unfold rendering.draw_on.
  destruct (drawing.field_call _ _ _ f); reflexivity.
Qed.

Lemma add_field_well_formed (data : gmap string json)
  (s s' : web_fields.AppState) :
  web_fields.well_formed s ->
  web_fields.add_field data s = web_fields.done s' ->
  web_fields.well_formed s'.
Proof.
  intros [[Hfs Hbg] Hnd]. unfold web_fields.add_field.
  destruct (serial.field_from_dict data) as [fp| |]; try discriminate.
  destruct (Heap.alloc (ObjField fp) (web_fields.state_heap s)) as [l h] eqn:Ea.
  intros [= <-].
  pose proof (alloc_lookup _ _ _ _ Ea) as Hl.
  pose proof (unchanged_alloc _ _ _ _ Ea) as Hu.
  apply alloc_spec in Ea as [Hfresh _].
  unfold web_fields.well_formed.
  cbn [web_fields.set_fields web_fields.set_heap web_fields.state_config
       web_fields.state_background web_fields.state_heap
       rendering.with_fields badge_config.fields].
  split; [split|].
  - apply Forall_app. split; [|repeat constructor; eauto].
    eapply Forall_impl; [exact Hfs|]. intros l0 [f Hf]. exists f.
    rewrite Hu; eauto.
  - intros bg Hb. destruct (Hbg bg Hb) as [im Him]. exists im.
    rewrite Hu; eauto.
  - apply NoDup_app. split; [exact Hnd|]. split; [|apply NoDup_singleton].
    intros l0 Hin Hl0. apply list_elem_of_singleton in Hl0 as ->.
    rewrite Forall_forall in Hfs. destruct (Hfs _ Hin) as [f Hf]. congruence.
Qed.

Lemma update_field_well_formed (idx : Z) (data : gmap string json)
  (s s' : web_fields.AppState) :
  web_fields.well_formed s ->
  web_fields.update_field idx data s = web_fields.done s' ->
  web_fields.well_formed s'.
Proof.
  intros [[Hfs Hbg] Hnd] Hdone.
  apply update_field_done in Hdone as (l & fp & fp' & _ & _ & Hfp & _ & ->).
  unfold web_fields.well_formed.
  cbn [web_fields.set_heap web_fields.state_config
       web_fields.state_background web_fields.state_heap].
  split; [split|exact Hnd].
  - eapply Forall_impl; [exact Hfs|]. intros l0 [f Hf].
    destruct (decide (l0 = l)) as [->|Hne].
    + exists fp'. apply lookup_insert_eq.
    + exists f. rewrite lookup_insert_ne by congruence. exact Hf.
  - intros bg Hb. destruct (Hbg bg Hb) as [im Him]. exists im.
    rewrite lookup_insert_ne; [exact Him|]. intros ->. congruence.
Qed.

Lemma delete_field_well_formed (idx : Z) (s s' : web_fields.AppState) :
  web_fields.well_formed s ->
  web_fields.delete_field idx s = web_fields.done s' ->
  web_fields.well_formed s'.
Proof.
  intros [[Hfs Hbg] Hnd]. unfold web_fields.delete_field.
  destruct ((idx <? 0) || _); [discriminate|]. intros [= <-].
  unfold web_fields.well_formed.
  cbn [web_fields.set_fields web_fields.state_config
       web_fields.state_background web_fields.state_heap
       rendering.with_fields badge_config.fields].
  split; [split|].
  - apply Forall_delete, Hfs.
  - exact Hbg.
  - eapply sublist_NoDup; [exact Hnd|apply sublist_delete].
Qed.

Lemma serve_well_formed (requests : list web_fields.request)
  (s s' : web_fields.AppState) :
  web_fields.well_formed s ->
  web_fields.serve requests s = Some s' ->
  web_fields.well_formed s'.
Proof.
  revert s. induction requests as [|r rest IH]; intros s Hwf; cbn.
  - intros [= <-]. exact Hwf.
  - destruct (web_fields.handle r s) as [s1| |] eqn:E; [|eauto|discriminate].
    apply IH. destruct r as [data|idx data|idx]; cbn in E.
    + eapply add_field_well_formed; eassumption.
    + eapply update_field_well_formed; eassumption.
    + eapply delete_field_well_formed; eassumption.
Qed.

(** X22.  The field handlers keep the references of the session sound:
    after any sequence of add, update and delete requests on a well-formed
    session (none of which stored a value of the wrong type), every field
    of the template is still a field object, no object is listed twice,
    the background is the same reference and still an image, and the size
    of the badge is unchanged. *)
Theorem fields_stay_objects (requests : list web_fields.request)
  (s s' : web_fields.AppState) :
  web_fields.well_formed s ->
  web_fields.serve requests s = Some s' ->
  web_fields.well_formed s' /\
  web_fields.state_background s' = web_fields.state_background s /\
  badge_config.badge_width (web_fields.state_config s')
  = badge_config.badge_width (web_fields.state_config s) /\
  badge_config.badge_height (web_fields.state_config s')
  = badge_config.badge_height (web_fields.state_config s).
Proof.
  intros Hwf Hserve.
  pose proof (serve_well_formed _ _ _ Hwf Hserve) as Hwf'.
  split; [exact Hwf'|].
  clear Hwf Hwf'. revert s Hserve.
  induction requests as [|r rest IH]; intros s; cbn.
  - intros [= <-]. auto.
  - destruct (web_fields.handle r s) as [s1| |] eqn:E; [|eauto|discriminate].
    intros Hrest. destruct (IH _ Hrest) as (-> & -> & ->).
    destruct r as [data|idx data|idx]; cbn in E.
    + unfold web_fields.add_field in E.
      destruct (serial.field_from_dict data); try discriminate.
      destruct (Heap.alloc _ _). injection E as <-. auto.
    + apply update_field_done in E as (? & ? & ? & _ & _ & _ & _ & ->). auto.
    + unfold web_fields.delete_field in E.
      destruct ((idx <? 0) || _); [discriminate|]. injection E as <-. auto.
Qed.

(** A second name field is added, the first one is moved, the caption is
    deleted, and a request for a field that does not exist is refused. *)
Lemma fields_stay_objects_witness :
  let s := {| web_fields.state_config := sample.config;
              web_fields.state_background := Some 3%positive;
              web_fields.state_heap := sample.objects |} in
  let requests :=
    [web_fields.AddField {[ "csv_column"%string := JStr "Name" ]};
     web_fields.UpdateField 0 {[ "x"%string := JInt 10 ]};
     web_fields.DeleteField 1;
     web_fields.DeleteField 9] in
  exists s',
    web_fields.serve requests s = Some s' /\
    length (badge_config.fields (web_fields.state_config s')) = 2%nat /\
    web_fields.well_formed s' /\
    web_fields.state_background s' = Some 3%positive.
Proof.
  cbv zeta.
  destruct (web_fields.serve
              [web_fields.AddField {[ "csv_column"%string := JStr "Name" ]};
               web_fields.UpdateField 0 {[ "x"%string := JInt 10 ]};
               web_fields.DeleteField 1;
               web_fields.DeleteField 9]
              {| web_fields.state_config := sample.config;
                 web_fields.state_background := Some 3%positive;
                 web_fields.state_heap := sample.objects |})
    as [s'|] eqn:E; [|vm_compute in E; discriminate].
  assert (Hwf : web_fields.well_formed
                  {| web_fields.state_config := sample.config;
                     web_fields.state_background := Some 3%positive;
                     web_fields.state_heap := sample.objects |}).
  { split; [split|].
    - repeat constructor; eexists; reflexivity.
    - intros bg [= <-]. eexists. reflexivity.
    - apply NoDup_cons. split; [|apply NoDup_singleton].
      intros H. apply list_elem_of_singleton in H. discriminate. }
  destruct (fields_stay_objects _ _ s' Hwf E) as (Hwf' & Hbg & _).
  exists s'. split; [reflexivity|]. split; [|split; [exact Hwf'|exact Hbg]].
  vm_compute in E. injection E as <-. reflexivity.
Defined.

(** ** web/app.py: the snapshot of an export *)

(** What [BadgeConfig.from_dict(config.to_dict())] builds. *)
Lemma config_snapshot (config : badge_config.BadgeConfig) (h : heap)
  (fs : list badge_config.FieldPlacement) :
  drawing.fields_at h (badge_config.fields config) fs ->
  exists d ls h1,
    serial.config_to_dict config h = Py.Ok d /\
    serial.config_from_dict d h
    = serial.Built (rendering.with_fields ls config, h1) /\
    serial.alloc_fields fs h = (ls, h1).
Proof.
  intros Hfs.
  destruct (serial.alloc_fields fs h) as [ls h1] eqn:Ea.
  eexists _, ls, h1. split; [|split; [|reflexivity]].
  - unfold serial.config_to_dict. rewrite (fields_to_dicts_ok h _ fs Hfs).
    reflexivity.
  - unfold serial.config_from_dict.
    change (default (JList []) (_ !! "fields"%string))
      with (JList ((fun f => JObj (serial.field_to_dict f)) <$> fs)).
    cbn [serial.iterate]. rewrite fields_from_json_round_trip.
    destruct config. vm_compute serial.attr. cbn. rewrite Ea. reflexivity.
Qed.

(** A handler leaves alone every object that is not a field of the
    template, and never makes it one. *)
Lemma handle_frame (r : web_fields.request) (s s' : web_fields.AppState)
  (l : loc) :
  web_fields.handle r s = web_fields.done s' ->
  is_Some (web_fields.state_heap s !! l) ->
  l ∉ badge_config.fields (web_fields.state_config s) ->
  web_fields.state_heap s' !! l = web_fields.state_heap s !! l /\
  l ∉ badge_config.fields (web_fields.state_config s').
Proof.
  intros Hdone [o Ho] Hl. destruct r as [data|idx data|idx]; cbn in Hdone.
  - unfold web_fields.add_field in Hdone.
    destruct (serial.field_from_dict data) as [fp| |]; try discriminate.
    destruct (Heap.alloc (ObjField fp) (web_fields.state_heap s))
      as [l0 h] eqn:Ea.
    injection Hdone as <-. apply alloc_spec in Ea as [Hfresh ->].
    assert (Hne : l0 <> l) by congruence.
    cbn. split; [apply lookup_insert_ne, Hne|].
    apply not_elem_of_app. split; [exact Hl|].
    intros H. apply list_elem_of_singleton in H. congruence.
  - apply update_field_done in Hdone as (l0 & fp & fp' & _ & Hl0 & _ & _ & ->).
    cbn. split; [|exact Hl].
    apply lookup_insert_ne. intros ->.
    apply Hl. eapply list_elem_of_lookup_2, Hl0.
  - unfold web_fields.delete_field in Hdone.
    destruct ((idx <? 0) || _); [discriminate|]. injection Hdone as <-.
    cbn. split; [reflexivity|].
    intros H. apply Hl. eapply list_elem_of_delete_inv, H.
Qed.

Lemma serve_frame (requests : list web_fields.request)
  (s s' : web_fields.AppState) (l : loc) :
  web_fields.serve requests s = Some s' ->
  is_Some (web_fields.state_heap s !! l) ->
  l ∉ badge_config.fields (web_fields.state_config s) ->
  web_fields.state_heap s' !! l = web_fields.state_heap s !! l.
Proof.
  revert s. induction requests as [|r rest IH]; intros s; cbn.
  - intros [= <-] _ _. reflexivity.
  - destruct (web_fields.handle r s) as [s1| |] eqn:E; [|eauto|discriminate].
    intros Hrest Hsome Hl.
    destruct (handle_frame _ _ _ _ E Hsome Hl) as [Heq Hl1].
    rewrite <- Heq. apply IH; [exact Hrest| |exact Hl1].
    rewrite Heq. exact Hsome.
Qed.

(** X23.  The snapshot [start_pdf_export] takes of the template is immune
    to later edits: whatever field requests the web application serves
    while the export thread runs, the thread renders, for every row, the
    image the live template would have given when the snapshot was
    taken.  [bg] is the thread's own copy of the background. *)
Theorem snapshot_immune_to_edits (s : web_fields.AppState)
  (fs : list badge_config.FieldPlacement) :
  let config := web_fields.state_config s in
  let h := web_fields.state_heap s in
  drawing.fields_at h (badge_config.fields config) fs ->
  exists d copy h1,
    serial.config_to_dict config h = Py.Ok d /\
    serial.config_from_dict d h = serial.Built (copy, h1) /\
    Heap.unchanged h h1 /\
    forall (bg : option loc) (requests : list web_fields.request)
           (s2 : web_fields.AppState) (env : Env) (csv : csv_data.CSVData)
           (row : Z),
      (forall b, bg = Some b -> exists im, h1 !! b = Some (ObjImage im)) ->
      web_fields.serve requests (web_fields.set_heap h1 s) = Some s2 ->
      exists badge1 hb1 badge2 hb2 im,
        badge_renderer.render_badge env copy csv row bg h1
        = Py.Ok (badge1, hb1) /\
        badge_renderer.render_badge env copy csv row bg
          (web_fields.state_heap s2) = Py.Ok (badge2, hb2) /\
        hb1 !! badge1 = Some (ObjImage im) /\
        hb2 !! badge2 = Some (ObjImage im) /\
        im = rendering.rendered env config csv row
               (canvas_base.image_at h1 bg) fs.
Proof.
  intros config h Hfs.
  destruct (config_snapshot config h fs Hfs) as (d & ls & h1 & Hd & Hc & Ha).
  exists d, (rendering.with_fields ls config), h1.
  apply alloc_fields_spec in Ha as (Hat & Hfresh & _ & Hu).
  split; [exact Hd|]. split; [exact Hc|]. split; [exact Hu|].
  intros bg requests s2 env csv row Hbg Hserve.
  (* the live fields are old objects, still fields in [h1] *)
  assert (Hlive : forall l, l ∈ badge_config.fields config ->
                    exists f, h !! l = Some (ObjField f) /\
                              h1 !! l = Some (ObjField f)).
  { intros l Hl. apply list_elem_of_lookup_1 in Hl as [n Hn].
    destruct (Forall2_lookup_l _ _ _ _ _ Hfs Hn) as (f & _ & Hf).
    exists f. split; [exact Hf|]. rewrite Hu; eauto. }
  (* the objects of the snapshot survive the requests *)
  assert (Hkeep_ls : forall l, l ∈ ls ->
                       web_fields.state_heap s2 !! l = h1 !! l).
  { intros l Hl.
    apply (serve_frame requests (web_fields.set_heap h1 s) s2 l Hserve).
    - cbn. apply list_elem_of_lookup_1 in Hl as [n Hn].
      destruct (Forall2_lookup_l _ _ _ _ _ Hat Hn) as (f & _ & Hf). eauto.
    - cbn. fold config. intros Hin. destruct (Hlive l Hin) as (f & Hf & _).
      rewrite Forall_forall in Hfresh. rewrite (Hfresh l Hl) in Hf.
      discriminate. }
  assert (Hkeep_bg : forall b, bg = Some b ->
                       web_fields.state_heap s2 !! b = h1 !! b).
  { intros b Hb. destruct (Hbg b Hb) as [im Him].
    apply (serve_frame requests (web_fields.set_heap h1 s) s2 b Hserve).
    - cbn. eauto.
    - cbn. fold config. intros Hin. destruct (Hlive b Hin) as (f & _ & Hf).
      congruence. }
  assert (Hat2 : drawing.fields_at (web_fields.state_heap s2) ls fs).
  { unfold drawing.fields_at in *.
    apply Forall2_same_length_lookup. split; [eapply Forall2_length, Hat|].
    intros n l f Hn Hf.
    rewrite Hkeep_ls by (eapply list_elem_of_lookup_2, Hn).
    destruct (Forall2_lookup_l _ _ _ _ _ Hat Hn) as (f' & Hf' & Hl).
    congruence. }
  assert (Himg : canvas_base.image_at (web_fields.state_heap s2) bg
                 = canvas_base.image_at h1 bg).
  { unfold canvas_base.image_at. destruct bg as [b|]; [|reflexivity].
    rewrite (Hkeep_bg b eq_refl). reflexivity. }
  destruct (render_badge_ok env (rendering.with_fields ls config) csv row bg h1)
    as (badge1 & hb1 & Hr1).
  { split; [exact (fields_at_well_formed _ _ _ Hat)|exact Hbg]. }
  destruct (render_badge_ok env (rendering.with_fields ls config) csv row bg
              (web_fields.state_heap s2)) as (badge2 & hb2 & Hr2).
  { split; [exact (fields_at_well_formed _ _ _ Hat2)|].
    intros b Hb. destruct (Hbg b Hb) as [im Him]. exists im.
    rewrite (Hkeep_bg b Hb). exact Him. }
  exists badge1, hb1, badge2, hb2,
    (rendering.rendered env config csv row (canvas_base.image_at h1 bg) fs).
  split; [exact Hr1|]. split; [exact Hr2|].
  split; [exact (render_badge_value _ _ _ _ _ _ _ _ _ Hr1 Hat)|].
  split; [|reflexivity].
  rewrite (render_badge_value _ _ _ _ _ _ _ _ _ Hr2 Hat2), Himg. reflexivity.
Qed.

(** The name of the sample badge is moved while three badges are being
    exported: the second badge of the export does not move. *)
Lemma snapshot_immune_to_edits_witness :
  let s := {| web_fields.state_config := sample.config;
              web_fields.state_background := Some 3%positive;
              web_fields.state_heap := sample.objects |} in
  exists d copy h1 s2 badge1 hb1 badge2 hb2 im,
    serial.config_to_dict sample.config sample.objects = Py.Ok d /\
    serial.config_from_dict d sample.objects = serial.Built (copy, h1) /\
    web_fields.serve [web_fields.UpdateField 0 {[ "x"%string := JInt 10 ]}]
      (web_fields.set_heap h1 s) = Some s2 /\
    badge_renderer.render_badge sample.env copy (sample.sheet 3) 1
      (Some 3%positive) h1 = Py.Ok (badge1, hb1) /\
    badge_renderer.render_badge sample.env copy (sample.sheet 3) 1
      (Some 3%positive) (web_fields.state_heap s2) = Py.Ok (badge2, hb2) /\
    hb1 !! badge1 = Some (ObjImage im) /\
    hb2 !! badge2 = Some (ObjImage im).
Proof.
  cbv zeta.
  destruct (snapshot_immune_to_edits
              {| web_fields.state_config := sample.config;
                 web_fields.state_background := Some 3%positive;
                 web_fields.state_heap := sample.objects |}
              [sample.name_field; sample.small_field])
    as (d & copy & h1 & Hd & Hc & Hu & Himm); [repeat constructor|].
  cbn [web_fields.state_config web_fields.state_heap] in Hd, Hc, Hu.
  assert (Hname : h1 !! 1%positive = Some (ObjField sample.name_field))
    by (rewrite Hu; [reflexivity|eexists; reflexivity]).
  assert (Himage : h1 !! 3%positive = Some (ObjImage sample.background))
    by (rewrite Hu; [reflexivity|eexists; reflexivity]).
  assert (Hserve : exists s2,
            web_fields.serve
              [web_fields.UpdateField 0 {[ "x"%string := JInt 10 ]}]
              (web_fields.set_heap h1
                 {| web_fields.state_config := sample.config;
                    web_fields.state_background := Some 3%positive;
                    web_fields.state_heap := sample.objects |}) = Some s2).
  { unfold web_fields.serve, web_fields.handle, web_fields.update_field,
      web_fields.set_heap, Heap.get_field.
    cbn [web_fields.state_config web_fields.state_heap].
    change (csv_data.list_getitem (badge_config.fields sample.config) 0)
      with (Py.Ok (A:=loc) 1%positive).
    cbn [orb Z.ltb Z.geb]. rewrite Hname.
    destruct (web_fields.update_attrs {[ "x"%string := JInt 10 ]}
                sample.name_field) as [fp'|] eqn:Eu;
      [|vm_compute in Eu; discriminate].
    change ((0 <? 0) || (0 >=? Z.of_nat (length (badge_config.fields sample.config))))
      with false.
    cbn iota. eexists. reflexivity. }
  destruct Hserve as [s2 E].
  destruct (Himm (Some 3%positive)
              [web_fields.UpdateField 0 {[ "x"%string := JInt 10 ]}]
              s2 sample.env (sample.sheet 3) 1)
    as (badge1 & hb1 & badge2 & hb2 & im & Hr1 & Hr2 & Hi1 & Hi2 & _);
    [intros b [= <-]; eexists; exact Himage|exact E|].
  exists d, copy, h1, s2, badge1, hb1, badge2, hb2, im. auto 10.
Defined.

(** ** web/app.py: the export of one badge *)

(** The one row of the temporary table reads as the row it was taken
    from. *)
Lemma temp_csv_cells (csv temp : csv_data.CSVData) (row_idx : Z) :
  0 <= row_idx ->
  web_single.temp_csv csv row_idx = Py.Ok temp ->
  csv_data.row_count temp = 1 /\
  forall column,
    csv_data.get_value temp 0 column = csv_data.get_value csv row_idx column.
Proof.
  intros H0 Ht. unfold web_single.temp_csv in Ht.
  apply bind_inv in Ht as (row & Hrow & Ht). apply Ok_inj in Ht. subst temp.
  split; [reflexivity|]. intros column.
  rewrite !get_value_lookup. cbn [csv_data.rows].
  destruct (Z.leb_spec 0 row_idx); [|lia].
  unfold csv_data.list_getitem in Hrow.
  destruct (Z.ltb_spec row_idx 0); [lia|].
  destruct (Z.ltb_spec row_idx 0); [lia|].
  destruct (csv_data.rows csv !! Z.to_nat row_idx) as [r|]; [|discriminate].
  injection Hrow as ->. reflexivity.
Qed.

(** A badge depends on the table through the cells of its row only. *)
Lemma rendered_same_cells (env : Env) (config : badge_config.BadgeConfig)
  (csv csv' : csv_data.CSVData) (i i' : Z) (background : option PIL.Image)
  (fs : list badge_config.FieldPlacement) :
  (forall column,
     csv_data.get_value csv' i' column = csv_data.get_value csv i column) ->
  rendering.rendered env config csv' i' background fs
  = rendering.rendered env config csv i background fs.
Proof.
  intros Hcells. unfold rendering.rendered.
  generalize (canvas_base.base_image env config background).
  induction fs as [|f fs IH]; intros im; [reflexivity|].
  cbn [fold_left]. rewrite IH. f_equal.
  unfold rendering.draw_on, drawing.field_call. rewrite Hcells. reflexivity.
Qed.

(** X24.  For a row of a loaded table, a well-formed session and a grid
    for which the layout is computed, [export_single_pdf] sends a
    document of exactly one page with exactly one image: the badge of that
    row, as [render_badge] gives it for the full table (converted to RGB),
    placed in the first cell of the page at the size of the layout.  No
    object of the session is touched. *)
Theorem single_export_one_badge (env : Env) (s : web_fields.AppState)
  (csv : csv_data.CSVData) (output_path : string) (row_idx : Z)
  (lay : pdf_export.layout) (fs : list badge_config.FieldPlacement) :
  let config := web_fields.state_config s in
  let bg := web_fields.state_background s in
  let h := web_fields.state_heap s in
  web_rows.is_loaded csv = true ->
  0 <= row_idx < csv_data.row_count csv ->
  pdf_export.export_layout config = Py.Ok lay ->
  drawing.fields_at h (badge_config.fields config) fs ->
  (forall b, bg = Some b -> exists im, h !! b = Some (ObjImage im)) ->
  exists r,
    web_single.export_single_pdf env s csv output_path row_idx
    = web_single.sent r /\
    pdf_export.rendered_rows (pdf_export.st_trace (pdf_export.final r)) = [0] /\
    pdf_export.document (pdf_export.st_trace (pdf_export.final r))
    = [[ {| reportlab.dr_image :=
              PIL.convert
                (rendering.rendered env config csv row_idx
                   (canvas_base.image_at h bg) fs) "RGB";
            reportlab.dr_x := fst (packing.corner lay 0 0);
            reportlab.dr_y := snd (packing.corner lay 0 0);
            reportlab.dr_width := pdf_export.draw_w lay;
            reportlab.dr_height := pdf_export.draw_h lay |} ]] /\
    Heap.unchanged h (pdf_export.st_heap (pdf_export.final r)).
Proof.
  intros config bg h Hloaded [H0 H1] Hlay Hfs Hbg.
  unfold web_single.export_single_pdf. rewrite Hloaded. cbn [negb].
  destruct (Z.ltb_spec row_idx 0) as [?|_]; [lia|]. cbn [orb].
  rewrite Z.geb_leb.
  destruct (Z.leb_spec (csv_data.row_count csv) row_idx) as [?|_]; [lia|].
  destruct (web_single.temp_csv csv row_idx) as [temp|e] eqn:Et.
  2: { exfalso. unfold web_single.temp_csv in Et.
       destruct (list_getitem_in_range (csv_data.rows csv) row_idx)
         as (row & _ & Hrow); [unfold csv_data.row_count in H1; lia|].
       rewrite Hrow in Et. discriminate. }
  destruct (temp_csv_cells _ _ _ H0 Et) as [Hcount Hcells].
  fold config bg h.
  (* the one turn of the loop *)
  destruct (render_badge_ok env config temp 0 bg h) as (badge & h1 & Hr).
  { split; [exact (fields_at_well_formed _ _ _ Hfs)|exact Hbg]. }
  pose proof (render_badge_value _ _ _ _ _ _ _ _ _ Hr Hfs) as Hval.
  rewrite (rendered_same_cells env config csv temp row_idx 0 _ fs Hcells) in Hval.
  pose proof (render_badge_fresh _ _ _ _ _ _ _ _ Hr) as Hfresh.
  unfold pdf_export.export_pdf. rewrite Hlay, Hcount.
  change (Py.range 1) with [0].
  cbn [pdf_export.export_loop pdf_export.poll pdf_export.is_cancelled
       pdf_export.st_heap pdf_export.st_trace pdf_export.st_polls].
  unfold pdf_export.export_row. unfold_bind. rewrite Hr.
  unfold Heap.get_image. rewrite Hval.
  destruct (Heap.alloc _ h1) as [rgb h2] eqn:Ea.
  cbn [pdf_export.raised pdf_export.final pdf_export.st_trace
       pdf_export.st_heap].
  eexists. split; [reflexivity|].
  cbn [pdf_export.final pdf_export.st_trace pdf_export.st_heap].
  unfold pdf_export.row_events, pdf_export.position.
  rewrite !Zmod_0_l, Zdiv_0_l.
  cbn [pdf_export.on_progress]. rewrite andb_false_r.
  split; [reflexivity|]. split.
  - unfold packing.corner. reflexivity.
  - eapply unchanged_trans; [|eapply unchanged_alloc, Ea].
    destruct Hfresh as (_ & Hu & _). exact Hu.
Qed.

(** The second badge of a table of three, exported alone. *)
Lemma single_export_one_badge_witness :
  let s := {| web_fields.state_config := sample.config;
              web_fields.state_background := Some 3%positive;
              web_fields.state_heap := sample.objects |} in
  exists r d,
    web_single.export_single_pdf sample.env s (sample.sheet 3)
      "badge_single_1.pdf" 1 = web_single.sent r /\
    pdf_export.rendered_rows (pdf_export.st_trace (pdf_export.final r)) = [0] /\
    pdf_export.document (pdf_export.st_trace (pdf_export.final r)) = [[d]].
Proof.
  cbv zeta.
  destruct (pdf_export.export_layout sample.config) as [lay|e] eqn:El;
    [|vm_compute in El; discriminate].
  destruct (single_export_one_badge sample.env
              {| web_fields.state_config := sample.config;
                 web_fields.state_background := Some 3%positive;
                 web_fields.state_heap := sample.objects |}
              (sample.sheet 3) "badge_single_1.pdf" 1 lay
              [sample.name_field; sample.small_field])
    as (r & Hr & Hrows & Hdoc & _).
  - reflexivity.
  - vm_compute. split; [discriminate|reflexivity].
  - exact El.
  - repeat constructor.
  - intros b [= <-]. eexists. reflexivity.
  - eexists r, _. split; [exact Hr|]. split; [exact Hrows|exact Hdoc].
Defined.

(** ** gui/canvas_editor.py: searching the table *)

Lemma row_matches_text (lower : string -> string) (t : string)
  (row : csv_data.row) :
  editor_search.text_row row ->
  exists m, editor_search.row_matches lower t row = Py.Ok m.
Proof.
  induction 1 as [|val rest (key & s & ->) _ [m IH]]; cbn; [eauto|].
  destruct (editor_search.contains t (lower s)); eauto.
Qed.

Lemma row_matches_raises (lower : string -> string) (t : string)
  (row : csv_data.row) (e : Py.exn) :
  editor_search.row_matches lower t row = Py.Raise e -> e = Py.AttributeError.
Proof.
  induction row as [|[key [s|]|l] rest IH]; cbn; try congruence.
  destruct (editor_search.contains t (lower s)); [discriminate|exact IH].
Qed.

Lemma matches_from_text (lower : string -> string) (t : string) (i : Z)
  (rows : list csv_data.row) :
  Forall editor_search.text_row rows ->
  exists ms, editor_search.matches_from lower t i rows = Py.Ok ms.
Proof.
  intros H. revert i. induction H as [|row rest Hrow _ IH]; intros i; cbn;
    [eauto|].
  destruct (row_matches_text lower t row Hrow) as [m ->].
  destruct (IH (i + 1)) as [ms ->]. cbn. eauto.
Qed.

Lemma matches_from_fails (lower : string -> string) (t : string) (i : Z)
  (rows : list csv_data.row) :
  (exists row, row ∈ rows /\
     editor_search.row_matches lower t row = Py.Raise Py.AttributeError) <->
  editor_search.matches_from lower t i rows = Py.Raise Py.AttributeError.
Proof.
  revert i. induction rows as [|row rest IH]; intros i; cbn.
  - split; [|discriminate]. intros (row & Hin & _).
    apply elem_of_nil in Hin as [].
  - destruct (editor_search.row_matches lower t row) as [m|e] eqn:Em; cbn.
    + assert (Hb : (ms ← editor_search.matches_from lower t (i + 1) rest;
                    Py.Ok ((if m then [i] else []) ++ ms))
                   = Py.Raise Py.AttributeError <->
                   editor_search.matches_from lower t (i + 1) rest
                   = Py.Raise Py.AttributeError).
      { destruct (editor_search.matches_from lower t (i + 1) rest); cbn;
          split; congruence. }
      rewrite Hb, <- (IH (i + 1)). split.
      * intros (row' & Hin & Hr).
        apply elem_of_cons in Hin as [->|Hin]; [congruence|]. eauto.
      * intros (row' & Hin & Hr).
        exists row'. split; [right; exact Hin|exact Hr].
    + apply row_matches_raises in Em as Ee. subst e. split; [reflexivity|].
      intros _. exists row. split; [left|exact Em].
Qed.

Lemma matches_from_elem (lower : string -> string) (t : string) (i : Z)
  (rows : list csv_data.row) (ms : list Z) (j : Z) :
  editor_search.matches_from lower t i rows = Py.Ok ms ->
  j ∈ ms <->
  i <= j /\
  exists row, rows !! Z.to_nat (j - i) = Some row /\
              editor_search.row_matches lower t row = Py.Ok true.
Proof.
  revert i ms. induction rows as [|row rest IH]; intros i ms.
  - cbn. intros [= <-]. split; [intros H; apply elem_of_nil in H as []|].
    intros (_ & row & Hrow & _). discriminate.
  - cbn [editor_search.matches_from]. intros Hms.
    apply bind_inv in Hms as (m & Em & Hms).
    apply bind_inv in Hms as (ms' & Er & [= <-]).
    rewrite elem_of_app, (IH _ _ Er). split.
    + intros [Hhead|(Hle & row' & Hrow' & Hm)].
      * destruct m; [|apply elem_of_nil in Hhead as []].
        apply list_elem_of_singleton in Hhead as ->.
        split; [lia|]. exists row. rewrite Z.sub_diag. auto.
      * split; [lia|]. exists row'. split; [|exact Hm].
        replace (Z.to_nat (j - i)) with (S (Z.to_nat (j - (i + 1)))) by lia.
        exact Hrow'.
    + intros (Hle & row' & Hrow' & Hm).
      destruct (Z.eq_dec j i) as [->|Hne].
      * left. rewrite Z.sub_diag in Hrow'. cbn in Hrow'.
        injection Hrow' as ->. assert (m = true) as -> by congruence.
        apply list_elem_of_singleton. reflexivity.
      * right. split; [lia|]. exists row'. split; [|exact Hm].
        replace (Z.to_nat (j - i)) with (S (Z.to_nat (j - (i + 1)))) in Hrow'
          by lia.
        exact Hrow'.
Qed.

(** The results are in increasing order. *)
Lemma matches_from_sorted (lower : string -> string) (t : string) (i : Z)
  (rows : list csv_data.row) (ms : list Z) (p q : nat) (a b : Z) :
  editor_search.matches_from lower t i rows = Py.Ok ms ->
  (p < q)%nat -> ms !! p = Some a -> ms !! q = Some b -> a < b.
Proof.
  revert i ms p q. induction rows as [|row rest IH]; intros i ms p q.
  - cbn. intros [= <-]. discriminate.
  - cbn [editor_search.matches_from]. intros Hms Hpq.
    apply bind_inv in Hms as (m & Em & Hms).
    apply bind_inv in Hms as (ms' & Er & [= <-]).
    destruct m; cbn [app]; [|apply (IH _ _ _ _ Er), Hpq].
    destruct p as [|p]; destruct q as [|q]; try lia; cbn.
    + intros [= <-] Hb.
      apply list_elem_of_lookup_2, (matches_from_elem _ _ _ _ _ _ Er) in Hb.
      lia.
    + apply (IH _ _ _ _ Er). lia.
Qed.

Lemma results_sorted (lower : string -> string) (csv : csv_data.CSVData)
  (term : string) (results : list Z) (p q : nat) (a b : Z) :
  editor_search._build_search_results lower csv term = Py.Ok results ->
  (p <= q)%nat -> results !! p = Some a -> results !! q = Some b -> a <= b.
Proof.
  intros Hres Hpq Ha Hb. destruct (Nat.eq_dec p q) as [->|Hne].
  - assert (a = b) by congruence. lia.
  - assert (a < b); [|lia].
    eapply (matches_from_sorted _ _ 0 _ _ p q); [exact Hres|lia|exact Ha|exact Hb].
Qed.

(** The results are the rows that match. *)
Lemma results_hit (lower : string -> string) (csv : csv_data.CSVData)
  (term : string) (results : list Z) (j : Z) :
  editor_search._build_search_results lower csv term = Py.Ok results ->
  j ∈ results <-> editor_search.hit lower csv term j.
Proof.
  intros Hres. unfold editor_search.hit.
  rewrite (matches_from_elem _ _ _ _ _ _ Hres), Z.sub_0_r. reflexivity.
Qed.

Lemma goto_result (results : list Z) (i : nat) (row : Z)
  (st : editor_search.position) :
  results !! i = Some row ->
  editor_search._goto_search_result results (Z.of_nat i) st
  = Py.Ok {| editor_search.current_row := row;
             editor_search._search_result_idx := Z.of_nat i |}.
Proof.
  intros Hi. unfold editor_search._goto_search_result.
  destruct (list_getitem_in_range results (Z.of_nat i)) as (a & Ha & ->).
  - apply lookup_lt_Some in Hi. lia.
  - rewrite Nat2Z.id in Ha. assert (a = row) as -> by congruence. reflexivity.
Qed.

(** X25.  With a non-empty term and a table whose values are all strings,
    [_search_next] does not raise.  When no row of the table matches, the
    current row stays and the result index is -1.  Otherwise the editor
    goes to a matching row: the first one after the current row, or, when
    no row after the current one matches, the first matching row of the
    table.  When the scan of some row reaches a value that is not a
    string, [_search_next] raises [AttributeError], and only then. *)
Theorem search_next_finds_next (lower : string -> string)
  (csv : csv_data.CSVData) (term : string) (st : editor_search.position) :
  Py.truthy term = true ->
  (editor_search.text_table csv ->
   exists st',
     editor_search._search_next lower csv term st = Py.Ok st' /\
     ((forall j, ~ editor_search.hit lower csv term j) ->
        editor_search.current_row st' = editor_search.current_row st /\
        editor_search._search_result_idx st' = -1) /\
     ((exists j, editor_search.hit lower csv term j) ->
        let r := editor_search.current_row st' in
        let cur := editor_search.current_row st in
        editor_search.hit lower csv term r /\
        ((cur < r /\
          forall j, editor_search.hit lower csv term j -> cur < j -> r <= j) \/
         ((forall j, editor_search.hit lower csv term j -> j <= cur) /\
          forall j, editor_search.hit lower csv term j -> r <= j)))) /\
  ((exists row, row ∈ csv_data.rows csv /\
                editor_search.row_fails lower term row) <->
   editor_search._search_next lower csv term st
   = Py.Raise Py.AttributeError).
Proof.
  intros Hterm. unfold editor_search._search_next. rewrite Hterm. cbn [negb].
  assert (Hgo : forall results,
            editor_search._build_search_results lower csv term = Py.Ok results ->
            exists st',
              match results with
              | [] => Py.Ok {| editor_search.current_row :=
                                 editor_search.current_row st;
                               editor_search._search_result_idx := -1 |}
              | _ :: _ =>
                  editor_search._goto_search_result results
                    match list_find
                            (fun row_idx => editor_search.current_row st < row_idx)
                            results with
                    | Some (i, _) => Z.of_nat i
                    | None => 0
                    end st
              end = Py.Ok st' /\
     ((forall j, ~ editor_search.hit lower csv term j) ->
        editor_search.current_row st' = editor_search.current_row st /\
        editor_search._search_result_idx st' = -1) /\
     ((exists j, editor_search.hit lower csv term j) ->
        let r := editor_search.current_row st' in
        let cur := editor_search.current_row st in
        editor_search.hit lower csv term r /\
        ((cur < r /\
          forall j, editor_search.hit lower csv term j -> cur < j -> r <= j) \/
         ((forall j, editor_search.hit lower csv term j -> j <= cur) /\
          forall j, editor_search.hit lower csv term j -> r <= j)))).
  { intros results Er. destruct results as [|r0 rs].
    - eexists. split; [reflexivity|]. split; [intros _; split; reflexivity|].
      intros [j Hj]. apply (results_hit _ _ _ _ _ Er) in Hj.
      apply elem_of_nil in Hj as [].
    - assert (H0 : editor_search.hit lower csv term r0).
      { apply (results_hit _ _ _ _ _ Er). left. }
      destruct (list_find _ (r0 :: rs)) as [[i x]|] eqn:Ef.
      + apply list_find_Some in Ef as (Hi & Hx & Hbefore).
        rewrite (goto_result _ _ _ _ Hi).
        eexists. split; [reflexivity|]. cbn.
        split; [intros Hno; destruct (Hno r0 H0)|]. intros _.
        split; [apply (results_hit _ _ _ _ _ Er);
                eapply list_elem_of_lookup_2, Hi|].
        left. split; [exact Hx|]. intros j Hj Hcur.
        apply (results_hit _ _ _ _ _ Er) in Hj.
        apply list_elem_of_lookup_1 in Hj as [q Hq].
        destruct (Nat.lt_ge_cases q i) as [Hlt|Hge].
        * destruct (Hbefore q j Hq Hlt Hcur).
        * exact (results_sorted _ _ _ _ _ _ _ _ Er Hge Hi Hq).
      + apply list_find_None in Ef.
        pose proof (goto_result (r0 :: rs) 0 r0 st eq_refl) as Hg.
        change (Z.of_nat 0) with 0 in Hg. rewrite Hg.
        eexists. split; [reflexivity|]. cbn.
        split; [intros Hno; destruct (Hno r0 H0)|]. intros _.
        split; [exact H0|]. right. split.
        * intros j Hj. apply (results_hit _ _ _ _ _ Er) in Hj.
          rewrite Forall_forall in Ef. specialize (Ef j Hj). lia.
        * intros j Hj. apply (results_hit _ _ _ _ _ Er) in Hj.
          apply list_elem_of_lookup_1 in Hj as [q Hq].
          exact (results_sorted _ _ _ _ _ _ _ _ Er (Nat.le_0_l q) eq_refl Hq). }
  split.
  - intros Htext.
    destruct (matches_from_text lower (lower term) 0 _ Htext) as [results Er].
    fold (editor_search._build_search_results lower csv term) in Er.
    destruct (Hgo results Er) as (st' & Hs & HA & HB).
    rewrite Er. cbn. exists st'. auto.
  - unfold editor_search.row_fails.
    rewrite (matches_from_fails lower (lower term) 0 (csv_data.rows csv)).
    fold (editor_search._build_search_results lower csv term).
    destruct (editor_search._build_search_results lower csv term)
      as [results|e] eqn:Er; cbn.
    + destruct (Hgo results eq_refl) as (st' & Hs & _). rewrite Hs.
      split; discriminate.
    + split; congruence.
Qed.

(** X26.  With a non-empty term and a table whose values are all strings,
    [_search_prev] does not raise.  When no row of the table matches, the
    current row stays and the result index is -1.  Otherwise the editor
    goes to a matching row: the last one before the current row, or, when
    no row before the current one matches, the last matching row of the
    table.  When the scan of some row reaches a value that is not a
    string, [_search_prev] raises [AttributeError], and only then. *)
Theorem search_prev_finds_previous (lower : string -> string)
  (csv : csv_data.CSVData) (term : string) (st : editor_search.position) :
  Py.truthy term = true ->
  (editor_search.text_table csv ->
   exists st',
     editor_search._search_prev lower csv term st = Py.Ok st' /\
     ((forall j, ~ editor_search.hit lower csv term j) ->
        editor_search.current_row st' = editor_search.current_row st /\
        editor_search._search_result_idx st' = -1) /\
     ((exists j, editor_search.hit lower csv term j) ->
        let r := editor_search.current_row st' in
        let cur := editor_search.current_row st in
        editor_search.hit lower csv term r /\
        ((r < cur /\
          forall j, editor_search.hit lower csv term j -> j < cur -> j <= r) \/
         ((forall j, editor_search.hit lower csv term j -> cur <= j) /\
          forall j, editor_search.hit lower csv term j -> j <= r)))) /\
  ((exists row, row ∈ csv_data.rows csv /\
                editor_search.row_fails lower term row) <->
   editor_search._search_prev lower csv term st
   = Py.Raise Py.AttributeError).
Proof.
  intros Hterm. unfold editor_search._search_prev. rewrite Hterm. cbn [negb].
  assert (Hgo : forall results,
            editor_search._build_search_results lower csv term = Py.Ok results ->
            exists st',
              match results with
              | [] => Py.Ok {| editor_search.current_row :=
                                 editor_search.current_row st;
                               editor_search._search_result_idx := -1 |}
              | _ :: _ =>
                  editor_search._goto_search_result results
                    match list_find
                            (fun row_idx => row_idx < editor_search.current_row st)
                            (reverse results) with
                    | Some (k, _) => Z.of_nat (length results) - 1 - Z.of_nat k
                    | None => Z.of_nat (length results) - 1
                    end st
              end = Py.Ok st' /\
     ((forall j, ~ editor_search.hit lower csv term j) ->
        editor_search.current_row st' = editor_search.current_row st /\
        editor_search._search_result_idx st' = -1) /\
     ((exists j, editor_search.hit lower csv term j) ->
        let r := editor_search.current_row st' in
        let cur := editor_search.current_row st in
        editor_search.hit lower csv term r /\
        ((r < cur /\
          forall j, editor_search.hit lower csv term j -> j < cur -> j <= r) \/
         ((forall j, editor_search.hit lower csv term j -> cur <= j) /\
          forall j, editor_search.hit lower csv term j -> j <= r)))).
  { intros results Er.
    pose proof (results_sorted lower csv term results) as Hsorted.
    specialize (fun p q a b => Hsorted p q a b Er).
    pose proof (fun j => results_hit lower csv term results j Er) as Hhit.
    clear Er. destruct results as [|r0 rs].
    - eexists. split; [reflexivity|]. split; [intros _; split; reflexivity|].
      intros [j Hj]. apply Hhit in Hj. apply elem_of_nil in Hj as [].
    - assert (H0 : editor_search.hit lower csv term r0).
      { apply Hhit. left. }
      set (results := r0 :: rs) in *.
      assert (Hlen : (0 < length results)%nat) by (cbn; lia).
      destruct (list_find _ (reverse results)) as [[k x]|] eqn:Ef.
      + apply list_find_Some in Ef as (Hk & Hx & Hafter).
        apply reverse_lookup_Some in Hk as [Hi Hklen].
        replace (Z.of_nat (length results) - 1 - Z.of_nat k)
          with (Z.of_nat (length results - S k)) by lia.
        rewrite (goto_result _ _ _ _ Hi).
        eexists. split; [reflexivity|]. cbn.
        split; [intros Hno; destruct (Hno r0 H0)|]. intros _.
        split; [apply Hhit; eapply list_elem_of_lookup_2, Hi|].
        left. split; [exact Hx|]. intros j Hj Hcur.
        apply Hhit in Hj.
        apply list_elem_of_lookup_1 in Hj as [q Hq].
        pose proof (lookup_lt_Some _ _ _ Hq) as Hqlen.
        destruct (Nat.lt_ge_cases (length results - S k) q) as [Hlt|Hge].
        * exfalso. apply (Hafter (length results - S q)%nat j); [|lia|exact Hcur].
          apply reverse_lookup_Some. split; [|lia].
          replace (length results - S (length results - S q))%nat with q by lia.
          exact Hq.
        * exact (Hsorted _ _ _ _ Hge Hq Hi).
      + apply list_find_None in Ef.
        destruct (lookup_lt_is_Some_2 results (length results - 1)) as [z Hz];
          [lia|].
        replace (Z.of_nat (length results) - 1)
          with (Z.of_nat (length results - 1)) by lia.
        rewrite (goto_result _ _ _ _ Hz).
        eexists. split; [reflexivity|]. cbn.
        split; [intros Hno; destruct (Hno r0 H0)|]. intros _.
        split; [apply Hhit; eapply list_elem_of_lookup_2, Hz|].
        right. split.
        * intros j Hj. apply Hhit in Hj. apply elem_of_reverse in Hj.
          rewrite Forall_forall in Ef. specialize (Ef j Hj). lia.
        * intros j Hj. apply Hhit in Hj.
          apply list_elem_of_lookup_1 in Hj as [q Hq].
          pose proof (lookup_lt_Some _ _ _ Hq) as Hqlen.
          refine (Hsorted _ _ _ _ _ Hq Hz). lia. }
  split.
  - intros Htext.
    destruct (matches_from_text lower (lower term) 0 _ Htext) as [results Er].
    fold (editor_search._build_search_results lower csv term) in Er.
    destruct (Hgo results Er) as (st' & Hs & HA & HB).
    rewrite Er. cbn. exists st'. auto.
  - unfold editor_search.row_fails.
    rewrite (matches_from_fails lower (lower term) 0 (csv_data.rows csv)).
    fold (editor_search._build_search_results lower csv term).
    destruct (editor_search._build_search_results lower csv term)
      as [results|e] eqn:Er; cbn.
    + destruct (Hgo results eq_refl) as (st' & Hs & _). rewrite Hs.
      split; discriminate.
    + split; congruence.
Qed.

(** Ada, Bob and Adam: from Ada, the next [ad] is Adam. *)
Lemma search_next_finds_next_witness :
  let csv := {| csv_data.headers := ["Name"%string];
                csv_data.rows := [sample.person "Ada"; sample.person "Bob";
                                  sample.person "Adam"];
                csv_data.file_path := "people.csv" |} in
  let st := {| editor_search.current_row := 0;
               editor_search._search_result_idx := -1 |} in
  exists st',
    editor_search._search_next pdf_export.lower csv "ad" st = Py.Ok st' /\
    editor_search.current_row st' = 2 /\
    editor_search.hit pdf_export.lower csv "ad" (editor_search.current_row st').
Proof.
  cbv zeta.
  destruct (search_next_finds_next pdf_export.lower
              {| csv_data.headers := ["Name"%string];
                 csv_data.rows := [sample.person "Ada"; sample.person "Bob";
                                   sample.person "Adam"];
                 csv_data.file_path := "people.csv" |}
              "ad"
              {| editor_search.current_row := 0;
                 editor_search._search_result_idx := -1 |}
              eq_refl) as [Hok _].
  destruct Hok as (st' & Hs & _ & Hhit).
  - repeat constructor; eexists _, _; reflexivity.
  - exists st'. split; [exact Hs|]. split.
    + vm_compute in Hs. injection Hs as <-. reflexivity.
    + apply Hhit. exists 0. split; [lia|]. eexists. split; reflexivity.
Defined.

(** From Ada, the previous [ad] wraps around to Adam. *)
Lemma search_prev_finds_previous_witness :
  let csv := {| csv_data.headers := ["Name"%string];
                csv_data.rows := [sample.person "Ada"; sample.person "Bob";
                                  sample.person "Adam"];
                csv_data.file_path := "people.csv" |} in
  let st := {| editor_search.current_row := 0;
               editor_search._search_result_idx := -1 |} in
  exists st',
    editor_search._search_prev pdf_export.lower csv "ad" st = Py.Ok st' /\
    editor_search.current_row st' = 2 /\
    editor_search.hit pdf_export.lower csv "ad" (editor_search.current_row st').
Proof.
  cbv zeta.
  destruct (search_prev_finds_previous pdf_export.lower
              {| csv_data.headers := ["Name"%string];
                 csv_data.rows := [sample.person "Ada"; sample.person "Bob";
                                   sample.person "Adam"];
                 csv_data.file_path := "people.csv" |}
              "ad"
              {| editor_search.current_row := 0;
                 editor_search._search_result_idx := -1 |}
              eq_refl) as [Hok _].
  destruct Hok as (st' & Hs & _ & Hhit).
  - repeat constructor; eexists _, _; reflexivity.
  - exists st'. split; [exact Hs|]. split.
    + vm_compute in Hs. injection Hs as <-. reflexivity.
    + apply Hhit. exists 0. split; [lia|]. eexists. split; reflexivity.
Defined.

(** A search in the table of the file with the lines [Name,Email] and
    [Ada] reaches the [None] under [Email] and raises. *)
Lemma search_short_line :
  let csv := csv_data.load [["Name"; "Email"]; ["Ada"]]%string "people.csv" in
  let st := {| editor_search.current_row := 0;
               editor_search._search_result_idx := -1 |} in
  editor_search._search_next pdf_export.lower csv "bob" st
  = Py.Raise Py.AttributeError /\
  editor_search._search_prev pdf_export.lower csv "bob" st
  = Py.Raise Py.AttributeError.
Proof. split; reflexivity. Qed.

(** ** web/app.py: the settings of the template *)

Lemma update_config_inv (data : gmap string json)
  (config config' : badge_config.BadgeConfig) :
  web_config.update_config data config = Some config' ->
  serial.attr data "badges_per_row" serial.as_int
    (badge_config.badges_per_row config)
  = Some (badge_config.badges_per_row config') /\
  serial.attr data "badges_per_col" serial.as_int
    (badge_config.badges_per_col config)
  = Some (badge_config.badges_per_col config') /\
  badge_config.fields config' = badge_config.fields config /\
  badge_config.background_image_path config'
  = badge_config.background_image_path config.
Proof.
  unfold web_config.update_config. intros H.
  repeat (apply bind_Some in H as (? & ? & H)).
  injection H as <-. cbn. auto.
Qed.

(** X27.  [update_config] stores what it is given without validating it.
    Keys other than its seven are ignored, and the fields and the
    background path of the template never change; every integer is
    accepted as a number of columns or rows.  Once a request has set one of
    them to 0, every export of the web application ends in the state
    [error] with a [ZeroDivisionError], before the first badge. *)
Theorem update_config_unvalidated (data : gmap string json)
  (config : badge_config.BadgeConfig) :
  (forall key v, key ∉ web_config.CONFIG_KEYS ->
     web_config.update_config (<[key := v]> data) config
     = web_config.update_config data config) /\
  (forall n, exists config',
     web_config.update_config {[ "badges_per_row"%string := JInt n ]} config
     = Some config' /\
     badge_config.badges_per_row config' = n) /\
  (forall config',
     web_config.update_config data config = Some config' ->
     badge_config.fields config' = badge_config.fields config /\
     badge_config.background_image_path config'
     = badge_config.background_image_path config /\
     (data !! "badges_per_row"%string = Some (JInt 0) \/
      data !! "badges_per_col"%string = Some (JInt 0) ->
      forall env csv output_path bg h,
        let t := fst (web_app.run_export env config' csv output_path bg h) in
        web_app.status t = "error"%string /\
        web_app.error t = Some Py.ZeroDivisionError /\
        web_app.progress t = 0)).
Proof.
  split; [|split].
  - intros key v Hkey. unfold web_config.update_config.
    unfold web_config.CONFIG_KEYS in Hkey.
    rewrite !not_elem_of_cons in Hkey.
    destruct Hkey as (H1 & H2 & H3 & H4 & H5 & H6 & H7 & _).
    rewrite !(attr_insert_ne data key _ v) by assumption. reflexivity.
  - intros n. destruct config. eexists. split; [reflexivity|reflexivity].
  - intros config' Hup.
    apply update_config_inv in Hup as (Hrow & Hcol & Hfields & Hpath).
    split; [exact Hfields|]. split; [exact Hpath|].
    intros Hzero env csv output_path bg h.
    assert (Hgrid : badge_config.badges_per_row config' = 0 \/
                    badge_config.badges_per_col config' = 0).
    { unfold serial.attr in Hrow, Hcol.
      destruct Hzero as [Hz|Hz]; rewrite Hz in *; cbn in *;
        [left|right]; congruence. }
    apply export_layout_zero_grid in Hgrid.
    unfold web_app.run_export, pdf_export.export_pdf. rewrite Hgrid.
    cbn. auto.
Qed.

(** The sample template is given a grid without columns. *)
Lemma update_config_unvalidated_witness :
  exists config',
    web_config.update_config {[ "badges_per_row"%string := JInt 0 ]}
      sample.config = Some config' /\
    badge_config.fields config' = badge_config.fields sample.config /\
    web_app.status
      (fst (web_app.run_export sample.env config' (sample.sheet 3)
              "badges.pdf" (Some 3%positive) sample.objects))
    = "error"%string.
Proof.
  destruct (update_config_unvalidated {[ "badges_per_row"%string := JInt 0 ]}
              sample.config) as (_ & _ & Hup).
  destruct (web_config.update_config {[ "badges_per_row"%string := JInt 0 ]}
              sample.config) as [config'|] eqn:E;
    [|vm_compute in E; discriminate].
  destruct (Hup config' eq_refl) as (Hfields & _ & Hexport).
  exists config'. split; [reflexivity|]. split; [exact Hfields|].
  apply (Hexport (or_introl eq_refl) sample.env (sample.sheet 3) "badges.pdf"
           (Some 3%positive) sample.objects).
Defined.
